(** * A shallow embedding of the study-assistant core

    The development follows the TypeScript sources:
    - [Types]    : the records of [types.ts];
    - [JsArray]  : the array operations the quiz runner uses;
    - [Quiz]     : the quiz runner of [components/Quiz.tsx];
    - [Gateway]  : the AI gateway client of [services/geminiService.ts];
    - [JsDate]   : [Date.prototype.toISOString];
    - [Session]  : the explanation stream, the chat turn, the speech toggle
                   and the result record of [components/StudySession.tsx];
    - [Scenario] : concrete inputs;
    - [QuizFacts], [GatewayFacts], [SessionFacts] : what is proved.

    Conventions.  A React state cell [const [x, setX] = useState(..)] is a
    field [x] of a state record and [setX v] is a record update.  An [await]
    is a point where the handler is suspended; its resumption is an event of
    a step function, so that other events can come in between.  JavaScript
    numbers that only ever hold counts are [nat] or [Z]; the score, a
    quotient, is an exact rational [Q] (binary64 rounding is outside the
    model).  A thrown value is an explicit error result. *)

From Stdlib Require Import ZArith QArith String Ascii List Lia Bool.
From stdpp Require Import base option list gmap strings.

Local Open Scope string_scope.
Local Open Scope list_scope.

(* ===================================================================== *)
(** ** types.ts                                                           *)
(* ===================================================================== *)

Module Types.

(** [type QuestionType = 'multiple-choice' | 'short-answer' | 'ox'] *)
Inductive QuestionType := multiple_choice | short_answer | ox.

Definition QuestionType_eqb (a b : QuestionType) : bool :=
  match a, b with
  | multiple_choice, multiple_choice => true
  | short_answer, short_answer => true
  | ox, ox => true
  | _, _ => false
  end.

Record QuizQuestion := mkQuizQuestion {
  question : string;
  questionType : QuestionType;
  options : option (list string);   (* [options?: string[]] *)
  answer : string;
  explanation : string
}.

Module AchievementStandard.
Record t := mk { id : string; description : string }.
End AchievementStandard.

(** [role: 'user' | 'model'] *)
Inductive Role := user | model.

Record ConversationMessage := mkMessage { role : Role; text : string }.

(** [type TTSVoice = 'Kore' | 'Puck' | 'Charon' | 'Fenrir' | 'Zephyr'] *)
Inductive TTSVoice := Kore | Puck | Charon | Fenrir | Zephyr.

Module QuizResult.
Record t := mk {
  id : string;
  date : string;
  standardId : string;
  standardDescription : string;
  subject : string;
  score : Q;
  totalQuestions : nat;
  correctAnswers : nat
}.
End QuizResult.

End Types.

(* ===================================================================== *)
(** ** JavaScript arrays of nullable values                               *)
(* ===================================================================== *)

(** A position of a JavaScript array of type [(A | null)[]]: a hole of a
    sparse array, [undefined], [null], or a value. *)
Inductive cell (A : Type) := hole | undefined | null | val (a : A).
Arguments hole {A}.
Arguments undefined {A}.
Arguments null {A}.
Arguments val {A} a.

Module JsArray.
Section Ops.
Context {A : Type}.

(** [Array(n).fill(null)] *)
Definition fill_null (n : nat) : list (cell A) := replicate n null.

(** [[...arr]]: the copy reads every position, a hole reads as
    [undefined]. *)
Definition spread (arr : list (cell A)) : list (cell A) :=
  map (fun c => match c with hole => undefined | _ => c end) arr.

(** [arr[i] = x]: in range the position is replaced; past the end the
    array grows, the positions in between being holes. *)
Definition set (i : nat) (x : cell A) (arr : list (cell A)) : list (cell A) :=
  if (i <? length arr)%nat then <[i := x]> arr
  else arr ++ replicate (i - length arr) hole ++ [x].

(** [arr[i]] as an expression: out of range and holes read [undefined]. *)
Definition get (i : nat) (arr : list (cell A)) : cell A :=
  match arr !! i with
  | Some hole | None => undefined
  | Some c => c
  end.
End Ops.
End JsArray.

(* ===================================================================== *)
(** ** components/Quiz.tsx                                                *)
(* ===================================================================== *)

Module Quiz.
Import Types.

Record QuizState := mkQuizState {
  currentQuestionIndex : nat;
  userAnswers : list (cell string);
  isAnswerChecked : bool;
  showResults : bool;
  tempShortAnswer : string;
  selfAssessedCorrectness : list (cell bool)
}.

(** The arguments of one [onSubmit(score, correctAnswers, totalQuestions)]. *)
Record Submission := mkSubmission {
  sub_score : Q;
  sub_correctAnswers : nat;
  sub_totalQuestions : nat
}.

(** The [useState] initialisers. *)
Definition initial (questions : list QuizQuestion) : QuizState :=
  {| currentQuestionIndex := 0;
     userAnswers := JsArray.fill_null (length questions);
     isAnswerChecked := false;
     showResults := false;
     tempShortAnswer := "";
     selfAssessedCorrectness := JsArray.fill_null (length questions) |}.

Definition handleAnswerSelect (option : string) (s : QuizState) : QuizState :=
  if isAnswerChecked s then s
  else
    let newAnswers := JsArray.spread (userAnswers s) in
    let newAnswers := JsArray.set (currentQuestionIndex s) (val option) newAnswers in
    {| currentQuestionIndex := currentQuestionIndex s;
       userAnswers := newAnswers;
       isAnswerChecked := isAnswerChecked s;
       showResults := showResults s;
       tempShortAnswer := tempShortAnswer s;
       selfAssessedCorrectness := selfAssessedCorrectness s |}.

Definition handleShortAnswerChange (value : string) (s : QuizState) : QuizState :=
  if isAnswerChecked s then s
  else
    {| currentQuestionIndex := currentQuestionIndex s;
       userAnswers := userAnswers s;
       isAnswerChecked := isAnswerChecked s;
       showResults := showResults s;
       tempShortAnswer := value;
       selfAssessedCorrectness := selfAssessedCorrectness s |}.

Definition setIsAnswerChecked (b : bool) (s : QuizState) : QuizState :=
  {| currentQuestionIndex := currentQuestionIndex s;
     userAnswers := userAnswers s;
     isAnswerChecked := b;
     showResults := showResults s;
     tempShortAnswer := tempShortAnswer s;
     selfAssessedCorrectness := selfAssessedCorrectness s |}.

(** [None] is the [TypeError] of reading [.questionType] of [undefined]
    when [questions[currentQuestionIndex]] does not exist. *)
Definition handleCheckAnswer (questions : list QuizQuestion) (s : QuizState)
  : option QuizState :=
  match questions !! currentQuestionIndex s with
  | None => None
  | Some currentQuestion =>
      let s1 :=
        if QuestionType_eqb (questionType currentQuestion) short_answer
        then handleAnswerSelect (tempShortAnswer s) s
        else s in
      Some (setIsAnswerChecked true s1)
  end.

Definition handleSelfAssessment (isCorrect : bool) (s : QuizState) : QuizState :=
  let newAssessment := JsArray.spread (selfAssessedCorrectness s) in
  let newAssessment := JsArray.set (currentQuestionIndex s) (val isCorrect) newAssessment in
  {| currentQuestionIndex := currentQuestionIndex s;
     userAnswers := userAnswers s;
     isAnswerChecked := isAnswerChecked s;
     showResults := showResults s;
     tempShortAnswer := tempShortAnswer s;
     selfAssessedCorrectness := newAssessment |}.

(** [answer === question.answer] on a position of [userAnswers]: strict
    equality of a string with the stored value; [null] and [undefined] are
    equal to no string. *)
Definition answer_strict_eq (a : cell string) (expected : string) : bool :=
  match a with
  | val s => String.eqb s expected
  | _ => false
  end.

(** [selfAssessedCorrectness[index] === true] *)
Definition is_strictly_true (c : cell bool) : bool :=
  match c with
  | val true => true
  | _ => false
  end.

(** The callback [(count, answer, index) => ...] of
    [userAnswers.reduce(..., 0)].  [None] is the [TypeError] of
    [question.questionType] when [questions[index]] is [undefined]. *)
Definition reduce_callback (questions : list QuizQuestion)
    (selfAssessed : list (cell bool))
    (count : nat) (answer : cell string) (index : nat) : option nat :=
  match questions !! index with
  | None => None
  | Some question =>
      let isCorrect :=
        if QuestionType_eqb (questionType question) short_answer
        then is_strictly_true (JsArray.get index selfAssessed)
        else answer_strict_eq answer (Types.answer question) in
      Some (if isCorrect then count + 1 else count)%nat
  end.

(** [reduce] from position [index] on with accumulator [count]; it does
    not call the callback on a hole. *)
Fixpoint reduce_from (questions : list QuizQuestion)
    (selfAssessed : list (cell bool)) (answers : list (cell string))
    (index count : nat) : option nat :=
  match answers with
  | [] => Some count
  | hole :: rest => reduce_from questions selfAssessed rest (S index) count
  | answer :: rest =>
      match reduce_callback questions selfAssessed count answer index with
      | None => None
      | Some count' => reduce_from questions selfAssessed rest (S index) count'
      end
  end.

Definition correctCount (questions : list QuizQuestion) (s : QuizState) : option nat :=
  reduce_from questions (selfAssessedCorrectness s) (userAnswers s) 0 0.

(** [(correctCount / questions.length) * 100] *)
Definition scorePercentage (correctCount len : nat) : Q :=
  (inject_Z (Z.of_nat correctCount) / inject_Z (Z.of_nat len)) * 100.

(** [handleNext]: the new state and the calls of [onSubmit] it made. *)
Definition handleNext (questions : list QuizQuestion) (s : QuizState)
  : option (QuizState * list Submission) :=
  if (Z.of_nat (currentQuestionIndex s) <? Z.of_nat (length questions) - 1)%Z then
    Some ({| currentQuestionIndex := currentQuestionIndex s + 1;
             userAnswers := userAnswers s;
             isAnswerChecked := false;
             showResults := showResults s;
             tempShortAnswer := "";
             selfAssessedCorrectness := selfAssessedCorrectness s |}, [])
  else
    let s' := {| currentQuestionIndex := currentQuestionIndex s;
                 userAnswers := userAnswers s;
                 isAnswerChecked := isAnswerChecked s;
                 showResults := true;
                 tempShortAnswer := tempShortAnswer s;
                 selfAssessedCorrectness := selfAssessedCorrectness s |} in
    match correctCount questions s with
    | None => None
    | Some count =>
        Some (s', [ {| sub_score := scorePercentage count (length questions);
                       sub_correctAnswers := count;
                       sub_totalQuestions := length questions |} ])
    end.

(** *** The rendered controls *)

Inductive Event :=
| ClickOption (option : string)
| TypeShortAnswer (value : string)
| ClickCheck
| ClickSelfAssess (isCorrect : bool)
| ClickNext.

(** [currentQuestion.options || (questionType === 'ox' ? ['O','X'] : [])];
    an empty array is truthy. *)
Definition renderedOptions (q : QuizQuestion) : list string :=
  match options q with
  | Some l => l
  | None => if QuestionType_eqb (questionType q) ox then ["O"; "X"] else []
  end.

Definition string_in (x : string) (l : list string) : bool :=
  existsb (String.eqb x) l.

Definition is_null {A} (c : cell A) : bool :=
  match c with null => true | _ => false end.

(** [userAnswer === null && (questionType !== 'short-answer' || tempShortAnswer === '')] *)
Definition isCheckAnswerDisabled (q : QuizQuestion) (s : QuizState) : bool :=
  is_null (JsArray.get (currentQuestionIndex s) (userAnswers s))
  && (negb (QuestionType_eqb (questionType q) short_answer)
      || String.eqb (tempShortAnswer s) "").

(** [isAnswerChecked && questionType === 'short-answer'
     && selfAssessedCorrectness[currentQuestionIndex] === null] *)
Definition isNextButtonDisabled (q : QuizQuestion) (s : QuizState) : bool :=
  isAnswerChecked s
  && QuestionType_eqb (questionType q) short_answer
  && is_null (JsArray.get (currentQuestionIndex s) (selfAssessedCorrectness s)).

(** Which control exists and is enabled in the rendering of state [s].
    Once [showResults] holds the component renders [null]. *)
Definition enabled (questions : list QuizQuestion) (s : QuizState) (e : Event) : bool :=
  if showResults s then false
  else
    match questions !! currentQuestionIndex s with
    | None => false
    | Some q =>
        match e with
        | ClickOption o =>
            negb (QuestionType_eqb (questionType q) short_answer)
            && string_in o (renderedOptions q)
            && negb (isAnswerChecked s)
        | TypeShortAnswer _ =>
            QuestionType_eqb (questionType q) short_answer
            && negb (isAnswerChecked s)
        | ClickCheck =>
            negb (isAnswerChecked s) && negb (isCheckAnswerDisabled q s)
        | ClickSelfAssess _ =>
            QuestionType_eqb (questionType q) short_answer
            && isAnswerChecked s
            && is_null (JsArray.get (currentQuestionIndex s) (selfAssessedCorrectness s))
        | ClickNext =>
            isAnswerChecked s && negb (isNextButtonDisabled q s)
        end
    end.

(** The handler bound to each control. *)
Definition handler (questions : list QuizQuestion) (e : Event) (s : QuizState)
  : option (QuizState * list Submission) :=
  match e with
  | ClickOption o => Some (handleAnswerSelect o s, [])
  | TypeShortAnswer v => Some (handleShortAnswerChange v s, [])
  | ClickCheck =>
      match handleCheckAnswer questions s with
      | Some s' => Some (s', [])
      | None => None
      end
  | ClickSelfAssess b => Some (handleSelfAssessment b s, [])
  | ClickNext => handleNext questions s
  end.

(** One user event: ignored when the control is absent or disabled. *)
Definition dispatch (questions : list QuizQuestion) (e : Event) (s : QuizState)
  : option (QuizState * list Submission) :=
  if enabled questions s e then handler questions e s else Some (s, []).

(** A whole interaction: the final state and every [onSubmit] call made,
    in order. *)
Fixpoint run (questions : list QuizQuestion) (events : list Event) (s : QuizState)
  : option (QuizState * list Submission) :=
  match events with
  | [] => Some (s, [])
  | e :: rest =>
      match dispatch questions e s with
      | None => None
      | Some (s1, out1) =>
          match run questions rest s1 with
          | None => None
          | Some (s2, out2) => Some (s2, out1 ++ out2)
          end
      end
  end.

(** *** The scoring rule in the specification's words

    Index [i] counts when the question is short-answer and
    [selfAssessedCorrectness[i]] is [true], or the question is
    multiple-choice or ox and [userAnswers[i]] is the string
    [questions[i].answer]. *)
Definition claimed_correct (questions : list QuizQuestion)
    (userAnswers : list (cell string)) (selfAssessed : list (cell bool))
    (i : nat) : bool :=
  match questions !! i with
  | None => false
  | Some q =>
      match questionType q with
      | short_answer =>
          match selfAssessed !! i with
          | Some (val true) => true
          | _ => false
          end
      | multiple_choice | ox =>
          match userAnswers !! i with
          | Some (val a) => String.eqb a (answer q)
          | _ => false
          end
      end
  end.

Definition claimed_correctCount (questions : list QuizQuestion)
    (userAnswers : list (cell string)) (selfAssessed : list (cell bool)) : nat :=
  length (filter (fun i => claimed_correct questions userAnswers selfAssessed i = true)
            (seq 0 (length questions))).

(** The states the runner is in between events. *)
Definition well_sized (questions : list QuizQuestion) (s : QuizState) : Prop :=
  length (userAnswers s) = length questions
  /\ length (selfAssessedCorrectness s) = length questions
  /\ Forall (fun c => c <> hole) (userAnswers s).

(** What is claimed of a submission. *)
Definition submission_ok (questions : list QuizQuestion) (sub : Submission) : Prop :=
  sub_totalQuestions sub = length questions
  /\ (sub_correctAnswers sub <= sub_totalQuestions sub)%nat
  /\ sub_score sub = scorePercentage (sub_correctAnswers sub) (sub_totalQuestions sub).

End Quiz.

(* ===================================================================== *)
(** ** services/geminiService.ts                                          *)
(* ===================================================================== *)

Module Gateway.
Import Types.

(** The client object [new GoogleGenAI({ apiKey })]. *)
Record GoogleGenAI := mkGoogleGenAI { apiKey : string }.

(** A thrown value: an [Error] object with its message, or anything for
    which [error instanceof Error] is false. *)
Inductive thrown := ErrorObject (message : string) | OtherValue.

(** [s.includes(sub)] *)
Fixpoint includes (s sub : string) : bool :=
  String.prefix sub s
  || match s with
     | EmptyString => false
     | String _ rest => includes rest sub
     end.

(** The messages of the [Error] objects the module throws. *)
Definition MSG_NO_KEY : string := "API 키가 제공되지 않았습니다.".
Definition MSG_UNINITIALIZED : string :=
  "AI 서비스가 초기화되지 않았습니다. API 키를 먼저 설정해주세요.".
Definition MSG_INVALID_KEY : string :=
  "API 키가 유효하지 않습니다. 올바른 키로 다시 설정해주세요.".
Definition MSG_FILE_PROTOCOL : string :=
  "AI 모델 통신 오류: 파일을 직접 열어 실행하는 경우 브라우저 보안 정책으로 인해 AI 기능이 작동하지 않을 수 있습니다. 로컬 개발 서버를 통해 접속해주세요.".
Definition MSG_COMMUNICATION : string :=
  "AI 모델과 통신 중 오류가 발생했습니다. 네트워크 연결을 확인하거나 잠시 후 다시 시도해주세요.".
Definition MSG_ENTER_KEY : string := "API 키를 입력해주세요.".
Definition MSG_KEYCHECK_INVALID : string :=
  "API 키가 유효하지 않습니다. Google AI Studio에서 발급받은 정확한 키인지 확인해주세요.".
Definition MSG_KEYCHECK_NETWORK : string :=
  "키를 확인하는 중 오류가 발생했습니다. 네트워크 연결을 확인해주세요.".

(** [error instanceof Error && (error.message.includes("API key not valid")
     || error.message.includes("Requested entity was not found."))]:
    how the module recognises an authentication failure reported by the
    backend. *)
Definition is_auth_failure (error : thrown) : bool :=
  match error with
  | ErrorObject message =>
      includes message "API key not valid"
      || includes message "Requested entity was not found."
  | OtherValue => false
  end.

(** A parsed JSON text. *)
#[local] Unset Elimination Schemes.
Inductive json :=
| JNull
| JBool (b : bool)
| JNum (n : Z)
| JStr (s : string)
| JArr (items : list json)
| JObj (fields : list (string * json)).
#[local] Set Elimination Schemes.

(** [response.text] as [JSON.parse] sees it: [JSON.parse] is a builtin, so
    a response text is given by what the builtin makes of it, a
    [SyntaxError] with its message or the parsed value. *)
Inductive ResponseText :=
| NotJson (syntaxErrorMessage : string)
| Json (v : json).

(** What a call of [models.generateContent] does. *)
Inductive Reply := Rejects (error : thrown) | Responds (text : ResponseText).

Record QuestionRequest := mkQuestionRequest { type : QuestionType; count : Z }.

(** The requests the two modelled operations send.  Of a prompt only the
    data interpolated into its template is kept. *)
Inductive Request :=
| HelloRequest   (* [{ model: 'gemini-2.5-flash', contents: 'hello' }] *)
| QuestionsRequest (standardDescription : string) (totalQuestions : Z)
    (requestPrompts : list QuestionRequest).

(** The surroundings of the module: the backend behind a client, and
    [typeof window !== 'undefined' && window.location.protocol === 'file:']. *)
Record Env := mkEnv {
  backend : GoogleGenAI -> Request -> Reply;
  fileProtocol : bool
}.

(** The state the module's functions act on: the module-level variable
    [let ai: GoogleGenAI | null], the backend calls made so far and what
    was written with [console.error]. *)
Record World := mkWorld {
  ai : option GoogleGenAI;
  calls : list (GoogleGenAI * Request);
  console : list thrown
}.

(** *** A state and exception monad for the module's functions *)

Inductive Outcome (A : Type) := Returned (a : A) | Threw (error : thrown).
Arguments Returned {A} a.
Arguments Threw {A} error.

Definition M (A : Type) : Type := World -> Outcome A * World.

Definition ret {A} (a : A) : M A := fun w => (Returned a, w).

Definition throw {A} (error : thrown) : M A := fun w => (Threw error, w).

Definition bind {A B} (m : M A) (k : A -> M B) : M B :=
  fun w =>
    match m w with
    | (Returned a, w') => k a w'
    | (Threw error, w') => (Threw error, w')
    end.

(** [try { body } catch (error) { handler(error) }] *)
Definition try_catch {A} (body : M A) (handler : thrown -> M A) : M A :=
  fun w =>
    match body w with
    | (Returned a, w') => (Returned a, w')
    | (Threw error, w') => handler error w'
    end.

Notation "'let!' x ':=' m 'in' k" := (bind m (fun x => k))
  (at level 10, x name, m at level 100, k at level 200).
Notation "'do!' m 'in' k" := (bind m (fun _ => k))
  (at level 10, m at level 100, k at level 200).

Definition set_ai (client : option GoogleGenAI) : M unit :=
  fun w => (Returned tt, {| ai := client; calls := calls w; console := console w |}).

Definition console_error (error : thrown) : M unit :=
  fun w => (Returned tt,
            {| ai := ai w; calls := calls w; console := console w ++ [error] |}).

(** [await client.models.generateContent(request)] *)
Definition generateContent (env : Env) (client : GoogleGenAI) (request : Request)
  : M ResponseText :=
  fun w =>
    let w' := {| ai := ai w; calls := calls w ++ [(client, request)];
                 console := console w |} in
    match backend env client request with
    | Rejects error => (Threw error, w')
    | Responds text => (Returned text, w')
    end.

(** [JSON.parse(response.text)] *)
Definition JSON_parse (text : ResponseText) : M json :=
  match text with
  | NotJson message => throw (ErrorObject message)
  | Json v => ret v
  end.

Definition initializeAi (apiKey : string) : M unit :=
  if String.eqb apiKey "" then throw (ErrorObject MSG_NO_KEY)
  else set_ai (Some (mkGoogleGenAI apiKey)).

Definition getAi : M GoogleGenAI :=
  fun w =>
    match ai w with
    | None => (Threw (ErrorObject MSG_UNINITIALIZED), w)
    | Some client => (Returned client, w)
    end.

(** [handleApiError(error): never] always throws. *)
Definition handleApiError {A} (env : Env) (error : thrown) : M A :=
  do! console_error error in
  if is_auth_failure error then throw (ErrorObject MSG_INVALID_KEY)
  else if fileProtocol env then throw (ErrorObject MSG_FILE_PROTOCOL)
  else throw (ErrorObject MSG_COMMUNICATION).

Definition validateApiKey (env : Env) (apiKey : string) : M unit :=
  if String.eqb apiKey "" then throw (ErrorObject MSG_ENTER_KEY)
  else
    try_catch
      (let tempAi := mkGoogleGenAI apiKey in
       do! generateContent env tempAi HelloRequest in
       ret tt)
      (fun error =>
         do! console_error error in
         if is_auth_failure error then throw (ErrorObject MSG_KEYCHECK_INVALID)
         else throw (ErrorObject MSG_KEYCHECK_NETWORK)).

(** [requests.reduce((sum, req) => sum + req.count, 0)] *)
Definition totalQuestions (requests : list QuestionRequest) : Z :=
  fold_left (fun sum req => (sum + count req)%Z) requests 0%Z.

(** [generateQuestions]: the value returned is the parsed JSON itself; the
    cast [questions as QuizQuestion[]] exists only for the type checker. *)
Definition generateQuestions (env : Env) (standardDescription : string)
    (requests : list QuestionRequest) : M json :=
  try_catch
    (let totalQuestions := totalQuestions requests in
     if (totalQuestions =? 0)%Z then ret (JArr [])
     else
       let requestPrompts := filter (fun req => (0 <? count req)%Z = true) requests in
       let! aiInstance := getAi in
       let! response := generateContent env aiInstance
                          (QuestionsRequest standardDescription totalQuestions requestPrompts) in
       let! questions := JSON_parse response in
       ret questions)
    (fun error => handleApiError env error).

(** *** The schema the specification names

    The decoding of a response "against the fixed schema (question, type,
    optional options, answer, explanation) per item", written from the
    specification's words (and the [responseSchema] literal) to compare
    [generateQuestions] with. *)

Record SchemaItem := mkSchemaItem {
  si_question : string;
  si_questionType : string;
  si_options : option (list string);
  si_answer : string;
  si_explanation : string
}.

(** The value of property [key] of a parsed object (the last occurrence of
    a repeated key is the one [JSON.parse] keeps). *)
Fixpoint property (key : string) (fields : list (string * json)) : option json :=
  match fields with
  | [] => None
  | (k, v) :: rest =>
      match property key rest with
      | Some v' => Some v'
      | None => if String.eqb k key then Some v else None
      end
  end.

Definition as_string (v : json) : option string :=
  match v with JStr s => Some s | _ => None end.

Definition as_string_array (v : json) : option (list string) :=
  match v with
  | JArr items => mapM as_string items
  | _ => None
  end.

Definition schema_decode_item (v : json) : option SchemaItem :=
  match v with
  | JObj fields =>
      q ← property "question" fields ≫= as_string;
      t ← property "questionType" fields ≫= as_string;
      a ← property "answer" fields ≫= as_string;
      e ← property "explanation" fields ≫= as_string;
      match property "options" fields with
      | None => Some (mkSchemaItem q t None a e)
      | Some o => l ← as_string_array o; Some (mkSchemaItem q t (Some l) a e)
      end
  | _ => None
  end.

Definition schema_decode (text : ResponseText) : option (list SchemaItem) :=
  match text with
  | Json (JArr items) => mapM schema_decode_item items
  | _ => None
  end.

End Gateway.

(* ===================================================================== *)
(** ** components/StudySession.tsx                                        *)
(* ===================================================================== *)

(** *** [new Date().toISOString()]

    A [Date] is its time value, the milliseconds since the epoch.  The
    builtin formats it in UTC as [YYYY-MM-DDTHH:mm:ss.sssZ], with a sign and
    six digits for a year outside 0..9999. *)
Module JsDate.

Definition digit (n : Z) : ascii := ascii_of_nat (48 + Z.to_nat (n mod 10)).

(** The last [width] decimal digits of [n], zero padded. *)
Fixpoint pad (width : nat) (n : Z) : string :=
  match width with
  | O => ""
  | S w => pad w (n / 10) +:+ String (digit n) ""
  end.

(** Year, month and day of the proleptic Gregorian calendar for a number of
    days since 1970-01-01. *)
Definition civil_from_days (days : Z) : Z * Z * Z :=
  let z := (days + 719468)%Z in
  let era := (z / 146097)%Z in
  let doe := (z - era * 146097)%Z in
  let yoe := ((doe - doe / 1460 + doe / 36524 - doe / 146096) / 365)%Z in
  let doy := (doe - (365 * yoe + yoe / 4 - yoe / 100))%Z in
  let mp := ((5 * doy + 2) / 153)%Z in
  let d := (doy - (153 * mp + 2) / 5 + 1)%Z in
  let m := (if mp <? 10 then mp + 3 else mp - 9)%Z in
  let y := (yoe + era * 400 + (if m <=? 2 then 1 else 0))%Z in
  (y, m, d).

Definition year_string (y : Z) : string :=
  if ((0 <=? y) && (y <=? 9999))%Z then pad 4 y
  else (if (y <? 0)%Z then "-" else "+") +:+ pad 6 (Z.abs y).

Definition toISOString (ms : Z) : string :=
  let days := (ms / 86400000)%Z in
  let msOfDay := (ms mod 86400000)%Z in
  let '(y, m, d) := civil_from_days days in
  year_string y +:+ "-" +:+ pad 2 m +:+ "-" +:+ pad 2 d +:+ "T"
    +:+ pad 2 (msOfDay / 3600000) +:+ ":"
    +:+ pad 2 ((msOfDay / 60000) mod 60) +:+ ":"
    +:+ pad 2 ((msOfDay / 1000) mod 60) +:+ "."
    +:+ pad 3 (msOfDay mod 1000) +:+ "Z".

End JsDate.

Module Session.
Import Gateway(thrown, ErrorObject, OtherValue).

(** What the consumer of a stream sees: the promise of the stream settles
    ([Ready], or [Failed]), then each [for await] turn delivers a chunk,
    the end of the stream, or a thrown error. *)
Inductive StreamEvent :=
| Ready
| Chunk (text : string)
| End_
| Failed (error : thrown).

(** [err instanceof Error ? err.message : fallback] *)
Definition message_or (fallback : string) (err : thrown) : string :=
  match err with
  | ErrorObject message => message
  | OtherValue => fallback
  end.

(** *** The quiz result *)

(** [handleQuizSubmit]: [now_id] and [now_date] are the time values of the
    two [new Date()] expressions, evaluated in this order.  The result is
    the new record and the new [studyHistory]. *)
Definition handleQuizSubmit (standard : Types.AchievementStandard.t)
    (subjectName : string) (studyHistory : list Types.QuizResult.t)
    (now_id now_date : Z)
    (score : Q) (correctAnswers totalQuestions : nat)
  : Types.QuizResult.t * list Types.QuizResult.t :=
  let newResult :=
    {| Types.QuizResult.id := JsDate.toISOString now_id;
       Types.QuizResult.date := JsDate.toISOString now_date;
       Types.QuizResult.standardId := Types.AchievementStandard.id standard;
       Types.QuizResult.standardDescription :=
         Types.AchievementStandard.description standard;
       Types.QuizResult.subject := subjectName;
       Types.QuizResult.score := score;
       Types.QuizResult.totalQuestions := totalQuestions;
       Types.QuizResult.correctAnswers := correctAnswers |} in
  (newResult, studyHistory ++ [newResult]).

(** The result record a submission of the quiz runner becomes. *)
Definition resultOfSubmission (standard : Types.AchievementStandard.t)
    (subjectName : string) (studyHistory : list Types.QuizResult.t)
    (now_id now_date : Z) (sub : Quiz.Submission) : Types.QuizResult.t :=
  fst (handleQuizSubmit standard subjectName studyHistory now_id now_date
         (Quiz.sub_score sub) (Quiz.sub_correctAnswers sub)
         (Quiz.sub_totalQuestions sub)).

(** *** The explanation effect

    The four state cells the effect writes, and the variables of one run
    of the effect: [isCancelled], shared by [fetchExplanation] and the
    cleanup function, [currentText], and where [fetchExplanation] is
    suspended. *)
Inductive FetchPhase := AwaitingStream | Iterating | Finished.

Record Explanation := mkExplanation {
  explanation : string;
  isLoadingExplanation : bool;
  isStreamingExplanation : bool;
  explanationError : option string;
  isCancelled : bool;
  currentText : string;
  fetchPhase : FetchPhase
}.

Definition setExplanation (v : string) (x : Explanation) : Explanation :=
  mkExplanation v (isLoadingExplanation x) (isStreamingExplanation x)
    (explanationError x) (isCancelled x) (currentText x) (fetchPhase x).
Definition setIsLoadingExplanation (v : bool) (x : Explanation) : Explanation :=
  mkExplanation (explanation x) v (isStreamingExplanation x)
    (explanationError x) (isCancelled x) (currentText x) (fetchPhase x).
Definition setIsStreamingExplanation (v : bool) (x : Explanation) : Explanation :=
  mkExplanation (explanation x) (isLoadingExplanation x) v
    (explanationError x) (isCancelled x) (currentText x) (fetchPhase x).
Definition setExplanationError (v : option string) (x : Explanation) : Explanation :=
  mkExplanation (explanation x) (isLoadingExplanation x) (isStreamingExplanation x)
    v (isCancelled x) (currentText x) (fetchPhase x).
Definition setIsCancelled (v : bool) (x : Explanation) : Explanation :=
  mkExplanation (explanation x) (isLoadingExplanation x) (isStreamingExplanation x)
    (explanationError x) v (currentText x) (fetchPhase x).
Definition setCurrentText (v : string) (x : Explanation) : Explanation :=
  mkExplanation (explanation x) (isLoadingExplanation x) (isStreamingExplanation x)
    (explanationError x) (isCancelled x) v (fetchPhase x).
Definition setFetchPhase (v : FetchPhase) (x : Explanation) : Explanation :=
  mkExplanation (explanation x) (isLoadingExplanation x) (isStreamingExplanation x)
    (explanationError x) (isCancelled x) (currentText x) v.

(** The effect body up to its first [await]: [let isCancelled = false] and
    the synchronous part of [fetchExplanation]. *)
Definition fetchExplanation_start : Explanation :=
  {| explanation := "";
     isLoadingExplanation := true;
     isStreamingExplanation := true;
     explanationError := None;
     isCancelled := false;
     currentText := "";
     fetchPhase := AwaitingStream |}.

(** [finally { if (!isCancelled) setIsStreamingExplanation(false) }] *)
Definition fetchExplanation_finally (x : Explanation) : Explanation :=
  setFetchPhase Finished
    (if isCancelled x then x else setIsStreamingExplanation false x).

(** [catch (err) { if (!isCancelled) { setExplanationError(..);
     setIsLoadingExplanation(false) } }] followed by [finally]. *)
Definition fetchExplanation_catch (err : thrown) (x : Explanation) : Explanation :=
  fetchExplanation_finally
    (if isCancelled x then x
     else setIsLoadingExplanation false
            (setExplanationError
               (Some (message_or "설명을 불러오는 데 실패했습니다." err)) x)).

(** [fetchExplanation] resumed by an event of its stream. *)
Definition fetchExplanation_resume (ev : StreamEvent) (x : Explanation) : Explanation :=
  match fetchPhase x, ev with
  | AwaitingStream, Ready =>
      if isCancelled x then fetchExplanation_finally x
      else setFetchPhase Iterating
             (setCurrentText "" (setIsLoadingExplanation false x))
  | Iterating, Chunk text =>
      if isCancelled x then fetchExplanation_finally x
      else
        let currentText := currentText x +:+ text in
        setExplanation currentText (setCurrentText currentText x)
  | Iterating, End_ => fetchExplanation_finally x
  | AwaitingStream, Failed err
  | Iterating, Failed err => fetchExplanation_catch err x
  | _, _ => x
  end.

(** [fetchExplanation] resumed by the events of its stream, in order. *)
Definition resume_all (evs : list StreamEvent) (x : Explanation) : Explanation :=
  fold_left (fun x ev => fetchExplanation_resume ev x) evs x.

(** *** The chat turn

    A message of the transcript is a JavaScript object: the transcript is
    an array of references, and the chunk handler writes to the object its
    last reference points to.  [messages] is the store of these objects and
    [nextLoc] the next unused reference. *)
Abbreviation loc := nat (only parsing).

Inductive AskPhase := NoTurn | AwaitingAnswer | Answering.

Record Chat := mkChat {
  conversation : list loc;
  userQuestion : string;
  isAnswering : bool;
  qnaError : option string;
  messages : gmap nat Types.ConversationMessage;
  nextLoc : loc;
  askPhase : AskPhase
}.

Definition initialChat : Chat :=
  {| conversation := []; userQuestion := ""; isAnswering := false;
     qnaError := None; messages := ∅; nextLoc := 0; askPhase := NoTurn |}.

(** The transcript as the messages it shows. *)
Definition transcript (c : Chat) : list (option Types.ConversationMessage) :=
  map (fun l => messages c !! l) (conversation c).

(** The white space [String.prototype.trim] removes, as far as it is a
    single byte: TAB, LF, VT, FF, CR and SPACE. *)
Definition is_white_space (c : ascii) : bool :=
  let n := nat_of_ascii c in
  ((9 <=? n) && (n <=? 13))%nat || (n =? 32)%nat.

Fixpoint trimStart (s : string) : string :=
  match s with
  | String c rest => if is_white_space c then trimStart rest else s
  | EmptyString => EmptyString
  end.

Definition reverse_string (s : string) : string :=
  string_of_list_ascii (rev (list_ascii_of_string s)).

Definition trim (s : string) : string :=
  reverse_string (trimStart (reverse_string (trimStart s))).

(** [onChange={(e) => setUserQuestion(e.target.value)}] *)
Definition setUserQuestion (v : string) (c : Chat) : Chat :=
  mkChat (conversation c) v (isAnswering c) (qnaError c) (messages c)
    (nextLoc c) (askPhase c).

(** [handleAskQuestion] up to its first [await]. *)
Definition handleAskQuestion (c : Chat) : Chat :=
  if String.eqb (trim (userQuestion c)) "" || isAnswering c then c
  else
    let newQuestion := Types.mkMessage Types.user (userQuestion c) in
    let placeholder := Types.mkMessage Types.model "" in
    let l_question := nextLoc c in
    let l_placeholder := S (nextLoc c) in
    {| conversation := conversation c ++ [l_question; l_placeholder];
       userQuestion := "";
       isAnswering := true;
       qnaError := None;
       messages := <[l_placeholder := placeholder]>
                     (<[l_question := newQuestion]> (messages c));
       nextLoc := S (S (nextLoc c));
       askPhase := AwaitingAnswer |}.

(** The updater passed to [setConversation] for one chunk: the array is
    copied, the object of its last position is written to.  [None] is the
    [TypeError] of [lastMessage.role] on an empty transcript. *)
Definition appendChunk (chunkText : string) (c : Chat) : option Chat :=
  match last (conversation c) with
  | None => None
  | Some l =>
      match messages c !! l with
      | None => None
      | Some lastMessage =>
          match Types.role lastMessage with
          | Types.model =>
              Some (mkChat (conversation c) (userQuestion c) (isAnswering c)
                      (qnaError c)
                      (<[l := Types.mkMessage Types.model
                                (Types.text lastMessage +:+ chunkText)]> (messages c))
                      (nextLoc c) (askPhase c))
          | Types.user => Some c
          end
      end
  end.

(** [prev.slice(0, -2)] *)
Definition slice_0_minus2 {A} (prev : list A) : list A :=
  take (length prev - 2) prev.

(** [finally { setIsAnswering(false) }] *)
Definition handleAskQuestion_finally (c : Chat) : Chat :=
  mkChat (conversation c) (userQuestion c) false (qnaError c) (messages c)
    (nextLoc c) NoTurn.

(** [catch (err) { setQnaError(..); setConversation(prev => prev.slice(0, -2)) }]
    followed by [finally]. *)
Definition handleAskQuestion_catch (err : thrown) (c : Chat) : Chat :=
  handleAskQuestion_finally
    (mkChat (slice_0_minus2 (conversation c)) (userQuestion c) (isAnswering c)
       (Some (message_or "질문에 답변하는 중 오류가 발생했습니다." err))
       (messages c) (nextLoc c) (askPhase c)).

(** [handleAskQuestion] resumed by an event of the follow-up stream.  No
    variable of the teardown is read here. *)
Definition handleAskQuestion_resume (ev : StreamEvent) (c : Chat) : option Chat :=
  match askPhase c, ev with
  | AwaitingAnswer, Ready =>
      Some (mkChat (conversation c) (userQuestion c) (isAnswering c) (qnaError c)
              (messages c) (nextLoc c) Answering)
  | Answering, Chunk chunkText => appendChunk chunkText c
  | Answering, End_ => Some (handleAskQuestion_finally c)
  | AwaitingAnswer, Failed err
  | Answering, Failed err => Some (handleAskQuestion_catch err c)
  | _, _ => Some c
  end.

(** Every reference of the transcript has been allocated. *)
Definition allocated (c : Chat) : Prop :=
  Forall (fun l => (l < nextLoc c)%nat) (conversation c).

(** [c] is inside the turn that started from [c0]: the transcript is that of
    [c0] followed by the question and the placeholder, the messages of [c0]
    are as they were, and the placeholder is a model message. *)
Definition in_turn_from (c0 c : Chat) : Prop :=
  conversation c = conversation c0 ++ [nextLoc c0; S (nextLoc c0)]
  /\ (forall l, (l < nextLoc c0)%nat -> messages c !! l = messages c0 !! l)
  /\ (exists t, messages c !! S (nextLoc c0) = Some (Types.mkMessage Types.model t))
  /\ userQuestion c = ""
  /\ isAnswering c = true.

(** *** Speech

    The two refs hold references to Web Audio objects.  Of an
    [AudioContext] the model keeps its [state]; of a source node whether
    it is playing and whether its [onended] is the handler installed by
    [handleToggleSpeak].  [closing] lists the contexts with a pending
    [close()] promise, each carrying the callback
    [() => { audioContextRef.current = null }]; [synthesising] counts the
    calls of [handleToggleSpeak] suspended at [await generateSpeech(..)].
    A context is created running (the [resume()] of a suspended one is not
    a separate step), and its [state] becomes [closed] when the promise of
    [close()] settles. *)
Inductive AudioContextState := suspended | running | closed.

Record AudioBufferSourceNode := mkSource {
  onended : bool;
  playing : bool;
  context : nat
}.

Record Speech := mkSpeech {
  selectedVoice : Types.TTSVoice;
  isSpeaking : bool;
  isLoadingTTS : bool;
  ttsError : option string;
  audioContextRef : option nat;
  audioSourceRef : option nat;
  contexts : gmap nat AudioContextState;
  sources : gmap nat AudioBufferSourceNode;
  closing : list nat;
  synthesising : nat;
  speechRequests : list (string * Types.TTSVoice);
  nextObject : nat
}.

Definition initialSpeech : Speech :=
  {| selectedVoice := Types.Kore; isSpeaking := false; isLoadingTTS := false;
     ttsError := None; audioContextRef := None; audioSourceRef := None;
     contexts := ∅; sources := ∅; closing := []; synthesising := 0;
     speechRequests := []; nextObject := 0 |}.

Definition setSelectedVoice (v : Types.TTSVoice) (sp : Speech) : Speech :=
  mkSpeech v (isSpeaking sp) (isLoadingTTS sp) (ttsError sp)
    (audioContextRef sp) (audioSourceRef sp) (contexts sp) (sources sp)
    (closing sp) (synthesising sp) (speechRequests sp) (nextObject sp).
Definition setIsSpeaking (v : bool) (sp : Speech) : Speech :=
  mkSpeech (selectedVoice sp) v (isLoadingTTS sp) (ttsError sp)
    (audioContextRef sp) (audioSourceRef sp) (contexts sp) (sources sp)
    (closing sp) (synthesising sp) (speechRequests sp) (nextObject sp).
Definition setIsLoadingTTS (v : bool) (sp : Speech) : Speech :=
  mkSpeech (selectedVoice sp) (isSpeaking sp) v (ttsError sp)
    (audioContextRef sp) (audioSourceRef sp) (contexts sp) (sources sp)
    (closing sp) (synthesising sp) (speechRequests sp) (nextObject sp).
Definition setTtsError (v : option string) (sp : Speech) : Speech :=
  mkSpeech (selectedVoice sp) (isSpeaking sp) (isLoadingTTS sp) v
    (audioContextRef sp) (audioSourceRef sp) (contexts sp) (sources sp)
    (closing sp) (synthesising sp) (speechRequests sp) (nextObject sp).
Definition setAudioContextRef (v : option nat) (sp : Speech) : Speech :=
  mkSpeech (selectedVoice sp) (isSpeaking sp) (isLoadingTTS sp) (ttsError sp)
    v (audioSourceRef sp) (contexts sp) (sources sp)
    (closing sp) (synthesising sp) (speechRequests sp) (nextObject sp).
Definition setAudioSourceRef (v : option nat) (sp : Speech) : Speech :=
  mkSpeech (selectedVoice sp) (isSpeaking sp) (isLoadingTTS sp) (ttsError sp)
    (audioContextRef sp) v (contexts sp) (sources sp)
    (closing sp) (synthesising sp) (speechRequests sp) (nextObject sp).
Definition setContexts (v : gmap nat AudioContextState) (sp : Speech) : Speech :=
  mkSpeech (selectedVoice sp) (isSpeaking sp) (isLoadingTTS sp) (ttsError sp)
    (audioContextRef sp) (audioSourceRef sp) v (sources sp)
    (closing sp) (synthesising sp) (speechRequests sp) (nextObject sp).
Definition setSources (v : gmap nat AudioBufferSourceNode) (sp : Speech) : Speech :=
  mkSpeech (selectedVoice sp) (isSpeaking sp) (isLoadingTTS sp) (ttsError sp)
    (audioContextRef sp) (audioSourceRef sp) (contexts sp) v
    (closing sp) (synthesising sp) (speechRequests sp) (nextObject sp).
Definition setClosing (v : list nat) (sp : Speech) : Speech :=
  mkSpeech (selectedVoice sp) (isSpeaking sp) (isLoadingTTS sp) (ttsError sp)
    (audioContextRef sp) (audioSourceRef sp) (contexts sp) (sources sp)
    v (synthesising sp) (speechRequests sp) (nextObject sp).
Definition setSynthesising (v : nat) (sp : Speech) : Speech :=
  mkSpeech (selectedVoice sp) (isSpeaking sp) (isLoadingTTS sp) (ttsError sp)
    (audioContextRef sp) (audioSourceRef sp) (contexts sp) (sources sp)
    (closing sp) v (speechRequests sp) (nextObject sp).
Definition setSpeechRequests (v : list (string * Types.TTSVoice)) (sp : Speech) : Speech :=
  mkSpeech (selectedVoice sp) (isSpeaking sp) (isLoadingTTS sp) (ttsError sp)
    (audioContextRef sp) (audioSourceRef sp) (contexts sp) (sources sp)
    (closing sp) (synthesising sp) v (nextObject sp).
Definition setNextObject (v : nat) (sp : Speech) : Speech :=
  mkSpeech (selectedVoice sp) (isSpeaking sp) (isLoadingTTS sp) (ttsError sp)
    (audioContextRef sp) (audioSourceRef sp) (contexts sp) (sources sp)
    (closing sp) (synthesising sp) (speechRequests sp) v.

(** [audioSourceRef.current.onended = null; audioSourceRef.current.stop()] *)
Definition silence (node : AudioBufferSourceNode) : AudioBufferSourceNode :=
  mkSource false false (context node).

Definition is_closed (st : option AudioContextState) : bool :=
  match st with Some closed => true | _ => false end.

Definition stopAllAudio (sp : Speech) : Speech :=
  let sp1 :=
    match audioSourceRef sp with
    | Some src => setAudioSourceRef None (setSources (alter silence src (sources sp)) sp)
    | None => sp
    end in
  let sp2 :=
    match audioContextRef sp1 with
    | Some ctx =>
        if is_closed (contexts sp1 !! ctx) then sp1
        else setClosing (closing sp1 ++ [ctx]) sp1
    | None => sp1
    end in
  setIsLoadingTTS false (setIsSpeaking false sp2).

(** [handleToggleSpeak] up to its [await generateSpeech(explanation,
    selectedVoice)]; [explanation] is the state cell it closes over. *)
Definition handleToggleSpeak (explanation : string) (sp : Speech) : Speech :=
  if isSpeaking sp || isLoadingTTS sp then stopAllAudio sp
  else if String.eqb explanation "" then sp
  else
    setSynthesising (S (synthesising sp))
      (setSpeechRequests (speechRequests sp ++ [(explanation, selectedVoice sp)])
         (setTtsError None (setIsLoadingTTS true sp))).

(** What [generateSpeech] delivers: the payload decodes and plays, or
    [decode]/[decodeAudioData] throw on it. *)
Inductive Payload := Playable | Undecodable (error : thrown).

(** [catch (err) { setTtsError(..); stopAllAudio() }] *)
Definition handleToggleSpeak_catch (err : thrown) (sp : Speech) : Speech :=
  stopAllAudio
    (setTtsError (Some (message_or "음성 재생 중 오류가 발생했습니다." err)) sp).

(** One suspended [handleToggleSpeak] resumed with the outcome of
    [generateSpeech].  Nothing is read between the [await] and the
    creation of the context. *)
Definition handleToggleSpeak_resume (outcome : thrown + Payload) (sp : Speech) : Speech :=
  match synthesising sp with
  | O => sp
  | S pending =>
      let sp := setSynthesising pending sp in
      match outcome with
      | inl err => handleToggleSpeak_catch err sp
      | inr payload =>
          let audioCtx := nextObject sp in
          let sp := setNextObject (S audioCtx)
                      (setAudioContextRef (Some audioCtx)
                         (setContexts (<[audioCtx := running]> (contexts sp)) sp)) in
          match payload with
          | Undecodable err => handleToggleSpeak_catch err sp
          | Playable =>
              let source := nextObject sp in
              setIsSpeaking true
                (setIsLoadingTTS false
                   (setNextObject (S source)
                      (setAudioSourceRef (Some source)
                         (setSources
                            (<[source := mkSource true true audioCtx]> (sources sp))
                            sp))))
          end
      end
  end.

(** The oldest pending [close()] settles: the context is closed and the
    callback clears the ref; a [close()] of a context already closed
    rejects and its callback does not run. *)
Definition closeSettled (sp : Speech) : Speech :=
  match closing sp with
  | [] => sp
  | ctx :: rest =>
      if is_closed (contexts sp !! ctx) then setClosing rest sp
      else setAudioContextRef None
             (setContexts (<[ctx := closed]> (contexts sp)) (setClosing rest sp))
  end.

(** The buffer of [source] has played to its end: its [onended] runs. *)
Definition playbackEnded (source : nat) (sp : Speech) : Speech :=
  match sources sp !! source with
  | Some node =>
      if playing node then
        let sp := setSources (<[source := mkSource (onended node) false (context node)]>
                                (sources sp)) sp in
        if onended node then stopAllAudio sp else sp
      else sp
  | None => sp
  end.

(** *** The session *)

Record SessionState := mkSession {
  expl : Explanation;
  chat : Chat;
  speech : Speech
}.

(** The component right after mounting: initial cells, and the effect run
    to its first [await]. *)
Definition mounted : SessionState :=
  {| expl := fetchExplanation_start; chat := initialChat; speech := initialSpeech |}.

(** The cleanup function the effect returns.  React calls it when
    [standard.description] changes and when the component unmounts. *)
Definition cleanup (s : SessionState) : SessionState :=
  {| expl := setIsCancelled true (expl s);
     chat := chat s;
     speech := stopAllAudio (speech s) |}.

Inductive Event :=
| ExplanationStream (ev : StreamEvent)
| TypeQuestion (value : string)
| SubmitQuestion
| FollowUpStream (ev : StreamEvent)
| SelectVoice (voice : Types.TTSVoice)
| ToggleSpeak
| SpeechSettled (outcome : thrown + Payload)
| CloseSettled
| PlaybackEnded (source : nat)
| Cleanup.

(** [!isLoadingExplanation && !isStreamingExplanation && !explanationError]:
    the question form is rendered (an empty message is falsy). *)
Definition formRendered (x : Explanation) : bool :=
  negb (isLoadingExplanation x) && negb (isStreamingExplanation x)
  && match explanationError x with
     | None => true
     | Some m => String.eqb m ""
     end.

(** One event.  A user event on a control that is absent or disabled does
    nothing.  [None] is an uncaught [TypeError]. *)
Definition step (e : Event) (s : SessionState) : option SessionState :=
  match e with
  | ExplanationStream ev =>
      Some (mkSession (fetchExplanation_resume ev (expl s)) (chat s) (speech s))
  | TypeQuestion value =>
      if formRendered (expl s) && negb (isAnswering (chat s))
      then Some (mkSession (expl s) (setUserQuestion value (chat s)) (speech s))
      else Some s
  | SubmitQuestion =>
      if formRendered (expl s)
      then Some (mkSession (expl s) (handleAskQuestion (chat s)) (speech s))
      else Some s
  | FollowUpStream ev =>
      match handleAskQuestion_resume ev (chat s) with
      | Some c => Some (mkSession (expl s) c (speech s))
      | None => None
      end
  | SelectVoice voice =>
      if isSpeaking (speech s) || isLoadingTTS (speech s) then Some s
      else Some (mkSession (expl s) (chat s) (setSelectedVoice voice (speech s)))
  | ToggleSpeak =>
      if isLoadingExplanation (expl s) || isStreamingExplanation (expl s) then Some s
      else Some (mkSession (expl s) (chat s)
                   (handleToggleSpeak (explanation (expl s)) (speech s)))
  | SpeechSettled outcome =>
      Some (mkSession (expl s) (chat s) (handleToggleSpeak_resume outcome (speech s)))
  | CloseSettled =>
      Some (mkSession (expl s) (chat s) (closeSettled (speech s)))
  | PlaybackEnded source =>
      Some (mkSession (expl s) (chat s) (playbackEnded source (speech s)))
  | Cleanup => Some (cleanup s)
  end.

(** The events of the explanation stream among [events], in order. *)
Definition explanationEvents (events : list Event) : list StreamEvent :=
  omap (fun e => match e with ExplanationStream ev => Some ev | _ => None end)
    events.

(** The events of the follow-up stream among [events], in order. *)
Definition followUpEvents (events : list Event) : list StreamEvent :=
  omap (fun e => match e with FollowUpStream ev => Some ev | _ => None end)
    events.

(** What the follow-up stream of a turn delivers before it fails: nothing
    when it fails before being ready ([None]), else the fragments. *)
Definition deliveredBeforeFailure (delivered : option (list string))
  : list StreamEvent :=
  match delivered with
  | None => []
  | Some fragments => Ready :: map Chunk fragments
  end.

(** The stream events a turn in phase [p] may still see before its end. *)
Definition turn_trace (p : AskPhase) (evs : list StreamEvent) : Prop :=
  match p with
  | NoTurn => False
  | AwaitingAnswer => evs = [] \/ exists fragments, evs = Ready :: map Chunk fragments
  | Answering => exists fragments, evs = map Chunk fragments
  end.

Definition is_cleanup (e : Event) : bool :=
  match e with Cleanup => true | _ => false end.

(** The state cells of the explanation, without the variables of the
    effect run. *)
Definition explanationCells (x : Explanation)
  : string * bool * bool * option string :=
  (explanation x, isLoadingExplanation x, isStreamingExplanation x,
   explanationError x).

Fixpoint steps (events : list Event) (s : SessionState) : option SessionState :=
  match events with
  | [] => Some s
  | e :: rest =>
      match step e s with
      | Some s' => steps rest s'
      | None => None
      end
  end.

End Session.

(* ===================================================================== *)
(** ** Scenarios                                                          *)
(* ===================================================================== *)

Module Scenario.
Import Types.

(** Three questions: multiple-choice "B", short-answer "Paris", ox "O". *)
Definition questions3 : list QuizQuestion :=
  [ mkQuizQuestion "q1" multiple_choice (Some ["A"; "B"; "C"; "D"; "E"]) "B" "e1";
    mkQuizQuestion "q2" short_answer None "Paris" "e2";
    mkQuizQuestion "q3" ox (Some ["O"; "X"]) "O" "e3" ].

(** The runner on its last question with answers ["B", "Lyon", "O"] and
    self-assessment [null, false, null]. *)
Definition lastQuestion3 : Quiz.QuizState :=
  {| Quiz.currentQuestionIndex := 2;
     Quiz.userAnswers := [val "B"; val "Lyon"; val "O"];
     Quiz.isAnswerChecked := true;
     Quiz.showResults := false;
     Quiz.tempShortAnswer := "";
     Quiz.selfAssessedCorrectness := [null; val false; null] |}.

(** The clicks that lead there and past the last question. *)
Definition session3 : list Quiz.Event :=
  [ Quiz.ClickOption "B"; Quiz.ClickCheck; Quiz.ClickNext;
    Quiz.TypeShortAnswer "Lyon"; Quiz.ClickCheck; Quiz.ClickSelfAssess false;
    Quiz.ClickNext;
    Quiz.ClickOption "O"; Quiz.ClickCheck; Quiz.ClickNext ].

(** The same position with answers that differ from the stored ones in
    case or by a space, and a short answer equal to the stored one but
    not self-assessed. *)
Definition nearMisses3 : Quiz.QuizState :=
  {| Quiz.currentQuestionIndex := 2;
     Quiz.userAnswers := [val "b"; val "Paris"; val "O "];
     Quiz.isAnswerChecked := true;
     Quiz.showResults := false;
     Quiz.tempShortAnswer := "";
     Quiz.selfAssessedCorrectness := [null; null; null] |}.

Definition standard1 : AchievementStandard.t :=
  AchievementStandard.mk "S-01" "standard".

(** A backend that answers every request with the given reply. *)
Definition replying (reply : Gateway.Reply) : Gateway.Env :=
  Gateway.mkEnv (fun _ _ => reply) false.

(** The module before [initializeAi], and after [initializeAi("k")]. *)
Definition uninitialised : Gateway.World := Gateway.mkWorld None [] [].
Definition initialised : Gateway.World :=
  Gateway.mkWorld (Some (Gateway.mkGoogleGenAI "k")) [] [].

Definition zeroCounts : list Gateway.QuestionRequest :=
  [ Gateway.mkQuestionRequest multiple_choice 0;
    Gateway.mkQuestionRequest short_answer 0;
    Gateway.mkQuestionRequest ox 0 ].

Definition oneOx : list Gateway.QuestionRequest :=
  [ Gateway.mkQuestionRequest ox 1 ].

(** Valid JSON that is no array of question objects: [[{"question": 1}]]. *)
Definition offSchema : Gateway.json :=
  Gateway.JArr [ Gateway.JObj [ ("question", Gateway.JNum 1) ] ].

(** A conforming answer: one ox question. *)
Definition onSchema : Gateway.json :=
  Gateway.JArr
    [ Gateway.JObj [ ("question", Gateway.JStr "q");
                     ("questionType", Gateway.JStr "ox");
                     ("options", Gateway.JArr [Gateway.JStr "O"; Gateway.JStr "X"]);
                     ("answer", Gateway.JStr "O");
                     ("explanation", Gateway.JStr "e") ] ].

(** The explanation arrives in two fragments and the stream ends. *)
Definition explained : list Session.Event :=
  [ Session.ExplanationStream Session.Ready;
    Session.ExplanationStream (Session.Chunk "Photo");
    Session.ExplanationStream (Session.Chunk "synthesis");
    Session.ExplanationStream Session.End_ ].

(** A question is asked, its answer starts to stream, the session is torn
    down. *)
Definition askedThenTornDown : list Session.Event :=
  explained ++
  [ Session.TypeQuestion "why?";
    Session.SubmitQuestion;
    Session.FollowUpStream Session.Ready;
    Session.Cleanup ].

(** A first question was answered; a second one is typed. *)
Definition secondQuestionTyped : list Session.Event :=
  explained ++
  [ Session.TypeQuestion "why?";
    Session.SubmitQuestion;
    Session.FollowUpStream Session.Ready;
    Session.FollowUpStream (Session.Chunk "Because.");
    Session.FollowUpStream Session.End_;
    Session.TypeQuestion "how?" ].

(** The second turn: the answer streams while the user tries to type and to
    submit again, toggles the speech and the session is torn down. *)
Definition interleavedTurn : list Session.Event :=
  [ Session.FollowUpStream Session.Ready;
    Session.SubmitQuestion;
    Session.FollowUpStream (Session.Chunk "It ");
    Session.TypeQuestion "again";
    Session.ToggleSpeak;
    Session.FollowUpStream (Session.Chunk "works");
    Session.Cleanup ].

(** The speech control is pressed twice while the audio is requested, then
    the request is answered. *)
Definition toggledTwiceWhileLoading : list Session.Event :=
  explained ++ [ Session.ToggleSpeak; Session.ToggleSpeak ].

(** The error the backend raises for a rejected key. *)
Definition keyRejected : Gateway.thrown :=
  Gateway.ErrorObject "[400] API key not valid. Please pass a valid API key.".

End Scenario.

(* ===================================================================== *)
(** ** The quiz runner: what a walk through the questions keeps           *)
(* ===================================================================== *)

Module QuizProgress.
Import Types Quiz.

(** A position that was never written or holds a value. *)
Definition null_or_val {A} (c : cell A) : Prop := c = null \/ exists a, c = val a.

(** Question [j] has a recorded answer and, when it is short-answer, a
    recorded self-assessment. *)
Definition completed (questions : list QuizQuestion) (s : QuizState) (j : nat) : Prop :=
  (exists a, userAnswers s !! j = Some (val a))
  /\ (forall q, questions !! j = Some q -> questionType q = short_answer ->
               exists b, selfAssessedCorrectness s !! j = Some (val b)).

(** What the runner keeps between events. *)
Definition progress (questions : list QuizQuestion) (s : QuizState) : Prop :=
  well_sized questions s
  /\ Forall null_or_val (userAnswers s)
  /\ Forall null_or_val (selfAssessedCorrectness s)
  /\ (forall j, (j < currentQuestionIndex s)%nat -> completed questions s j)
  /\ (isAnswerChecked s = true ->
      exists a, userAnswers s !! currentQuestionIndex s = Some (val a))
  /\ (showResults s = true ->
      forall j, (j < length questions)%nat -> completed questions s j).

(** The answer at [j] can no longer be edited in state [s]: the question was
    passed, or it is the current one and has been checked. *)
Definition locked (s : QuizState) (j : nat) : Prop :=
  (j < currentQuestionIndex s)%nat
  \/ (j = currentQuestionIndex s /\ isAnswerChecked s = true).

End QuizProgress.

(* ===================================================================== *)
(** ** services/geminiService.ts: the key lifecycle                       *)
(* ===================================================================== *)

Module GatewayKeys.
Import Gateway.

(** A series of [initializeAi] calls, each in its own event: a call that
    throws does not stop the later ones. *)
Definition initializeAll (keys : list string) (w : World) : World :=
  fold_left (fun w apiKey => snd (initializeAi apiKey w)) keys w.

(** The last key of [keys] that is not empty, if any. *)
Definition lastAccepted (keys : list string) : option string :=
  last (filter (fun k => k <> "") keys).

(** The messages [handleApiError] can throw. *)
Definition normalised (message : string) : Prop :=
  message = MSG_INVALID_KEY \/ message = MSG_FILE_PROTOCOL
  \/ message = MSG_COMMUNICATION.

End GatewayKeys.

(* ===================================================================== *)
(** ** services/geminiService.ts: streams and speech                      *)
(* ===================================================================== *)

Module GatewayMedia.
Import Types Gateway.

(** The part of a speech response that [generateSpeech] reads:
    [response.candidates?.[0]?.content?.parts?.[0]?.inlineData?.data].
    A field that is absent (or [null]) is [None]. *)
Record Blob := mkBlob { data : option string }.
Record Part := mkPart { inlineData : option Blob }.
Record Content := mkContent { parts : option (list Part) }.
Record Candidate := mkCandidate { content : option Content }.
Record SpeechResponse := mkSpeechResponse { candidates : option (list Candidate) }.

(** What a stream returned by [generateContentStream] will deliver: its
    chunks, then its end or the error its iteration throws. *)
Record Stream := mkStream { chunks : list string; failure : option thrown }.

(** The requests of the three operations; of a prompt only the data
    interpolated into its template is kept. *)
Inductive MediaRequest :=
| ExplanationRequest (standardDescription : string)
| FollowUpRequest (standardDescription initialExplanation historyText userQuestion : string)
| SpeechRequest (textToSpeak : string) (voice : TTSVoice).

Record MediaEnv := mkMediaEnv {
  env : Env;
  streamBackend : GoogleGenAI -> MediaRequest -> thrown + Stream;
  speechBackend : GoogleGenAI -> MediaRequest -> thrown + SpeechResponse
}.

(** The world of the module together with the calls of these operations. *)
Record MediaWorld := mkMediaWorld {
  world : World;
  mediaCalls : list (GoogleGenAI * MediaRequest)
}.

Definition MM (A : Type) : Type := MediaWorld -> Outcome A * MediaWorld.

Definition retM {A} (a : A) : MM A := fun mw => (Returned a, mw).

Definition throwM {A} (error : thrown) : MM A := fun mw => (Threw error, mw).

Definition bindM {A B} (m : MM A) (k : A -> MM B) : MM B :=
  fun mw =>
    match m mw with
    | (Returned a, mw') => k a mw'
    | (Threw error, mw') => (Threw error, mw')
    end.

Definition try_catchM {A} (body : MM A) (handler : thrown -> MM A) : MM A :=
  fun mw =>
    match body mw with
    | (Returned a, mw') => (Returned a, mw')
    | (Threw error, mw') => handler error mw'
    end.

(** A function of the module run on the module's part of the world. *)
Definition lift {A} (m : M A) : MM A :=
  fun mw =>
    let '(r, w') := m (world mw) in
    (r, {| world := w'; mediaCalls := mediaCalls mw |}).

(** [await aiInstance.models.generateContentStream(..)] *)
Definition generateContentStream (menv : MediaEnv) (client : GoogleGenAI)
    (request : MediaRequest) : MM Stream :=
  fun mw =>
    let mw' := {| world := world mw;
                  mediaCalls := mediaCalls mw ++ [(client, request)] |} in
    match streamBackend menv client request with
    | inl error => (Threw error, mw')
    | inr stream => (Returned stream, mw')
    end.

(** [await aiInstance.models.generateContent(..)] with the audio modality. *)
Definition generateAudioContent (menv : MediaEnv) (client : GoogleGenAI)
    (request : MediaRequest) : MM SpeechResponse :=
  fun mw =>
    let mw' := {| world := world mw;
                  mediaCalls := mediaCalls mw ++ [(client, request)] |} in
    match speechBackend menv client request with
    | inl error => (Threw error, mw')
    | inr response => (Returned response, mw')
    end.

Definition getExplanationStream (menv : MediaEnv) (standardDescription : string)
  : MM Stream :=
  try_catchM
    (bindM (lift getAi) (fun aiInstance =>
     bindM (generateContentStream menv aiInstance
              (ExplanationRequest standardDescription)) (fun response =>
     retM response)))
    (fun error => lift (handleApiError (env menv) error)).

(** [`${msg.role === 'user' ? '학생' : 'AI 튜터'}: ${msg.text}`] *)
Definition historyLine (msg : ConversationMessage) : string :=
  (match role msg with user => "학생" | model => "AI 튜터" end)
  +:+ ": " +:+ text msg.

Definition newline : string := String (ascii_of_nat 10) "".

(** [conversationHistory.map(..).join('\n')] *)
Definition historyText (conversationHistory : list ConversationMessage) : string :=
  String.concat newline (map historyLine conversationHistory).

Definition getFollowUpAnswerStream (menv : MediaEnv)
    (standardDescription initialExplanation : string)
    (conversationHistory : list ConversationMessage) (userQuestion : string)
  : MM Stream :=
  try_catchM
    (let historyText := historyText conversationHistory in
     bindM (lift getAi) (fun aiInstance =>
     bindM (generateContentStream menv aiInstance
              (FollowUpRequest standardDescription initialExplanation
                 historyText userQuestion)) (fun response =>
     retM response)))
    (fun error => lift (handleApiError (env menv) error)).

Definition MSG_NO_AUDIO : string := "API로부터 오디오 데이터를 받지 못했습니다.".

(** The optional chain down to the data of the first part of the first
    candidate. *)
Definition base64Audio (response : SpeechResponse) : option string :=
  match candidates response with
  | None => None
  | Some cs =>
      match cs !! 0%nat with
      | None => None
      | Some c =>
          match content c with
          | None => None
          | Some ct =>
              match parts ct with
              | None => None
              | Some ps =>
                  match ps !! 0%nat with
                  | None => None
                  | Some p =>
                      match inlineData p with
                      | None => None
                      | Some b => data b
                      end
                  end
              end
          end
      end
  end.

(** [!base64Audio]: the chain gave [undefined], or an empty string. *)
Definition noAudio (a : option string) : bool :=
  match a with
  | None => true
  | Some s => String.eqb s ""
  end.

Definition generateSpeech (menv : MediaEnv) (textToSpeak : string) (voice : TTSVoice)
  : MM string :=
  try_catchM
    (bindM (lift getAi) (fun aiInstance =>
     bindM (generateAudioContent menv aiInstance (SpeechRequest textToSpeak voice))
       (fun response =>
     let base64Audio := base64Audio response in
     if noAudio base64Audio then throwM (ErrorObject MSG_NO_AUDIO)
     else retM (default "" base64Audio))))
    (fun error => lift (handleApiError (env menv) error)).

(** The message [handleApiError] throws for an error that is no
    authentication failure. *)
Definition failureMessage (menv : MediaEnv) : string :=
  if fileProtocol (env menv) then MSG_FILE_PROTOCOL else MSG_COMMUNICATION.

(** The world after [error] was written to the console. *)
Definition logged (error : thrown) (mw : MediaWorld) : MediaWorld :=
  {| world := {| ai := ai (world mw); calls := calls (world mw);
                 console := console (world mw) ++ [error] |};
     mediaCalls := mediaCalls mw |}.

(** The world after one call of a media operation. *)
Definition called (client : GoogleGenAI) (request : MediaRequest) (mw : MediaWorld)
  : MediaWorld :=
  {| world := world mw; mediaCalls := mediaCalls mw ++ [(client, request)] |}.

(** What the consumer of a stream obtained from the gateway sees. *)
Definition streamEvents (r : Outcome Stream) : list Session.StreamEvent :=
  match r with
  | Threw error => [Session.Failed error]
  | Returned stream =>
      Session.Ready :: map Session.Chunk (chunks stream)
      ++ [match failure stream with
          | None => Session.End_
          | Some error => Session.Failed error
          end]
  end.

End GatewayMedia.

(* ===================================================================== *)
(** ** components/StudySession.tsx: audio decoding                        *)
(* ===================================================================== *)

Module Audio.





End Audio.

(* ===================================================================== *)
(** ** components/StudySession.tsx: composing the quiz                    *)
(* ===================================================================== *)

Module QuizSetup.
Import Types Gateway.

(** [{ 'multiple-choice': n, 'short-answer': n, 'ox': n }] *)
Record Counts := mkCounts { count_mc : Z; count_sa : Z; count_ox : Z }.

Definition defaultQuestionCounts : Counts := mkCounts 3 1 1.

Definition is_digit (c : ascii) : bool :=
  let n := nat_of_ascii c in ((48 <=? n) && (n <=? 57))%nat.

Definition digit_value (c : ascii) : Z := Z.of_nat (nat_of_ascii c - 48).

(** The value of the longest prefix of decimal digits, with [acc] the value
    of the digits read so far ([None]: no digit yet). *)
Fixpoint digits (s : string) (acc : option Z) : option Z :=
  match s with
  | String c rest =>
      if is_digit c
      then digits rest (Some (10 * default 0%Z acc + digit_value c)%Z)
      else acc
  | EmptyString => acc
  end.

(** [parseInt(value, 10)]: leading white space, an optional sign, then the
    longest prefix of digits; [None] is [NaN].  The number is kept exact
    (as the builtin does below 2^53). *)
Definition parseInt10 (value : string) : option Z :=
  match Session.trimStart value with
  | String "-" rest => option_map Z.opp (digits rest None)
  | String "+" rest => digits rest None
  | s => digits s None
  end.

Definition setCount (type : QuestionType) (count : Z) (prev : Counts) : Counts :=
  match type with
  | multiple_choice => mkCounts count (count_sa prev) (count_ox prev)
  | short_answer => mkCounts (count_mc prev) count (count_ox prev)
  | ox => mkCounts (count_mc prev) (count_sa prev) count
  end.

(** [Math.max(0, parseInt(value, 10) || 0)]: [NaN] and 0 are falsy. *)
Definition handleQuestionCountChange (type : QuestionType) (value : string)
    (prev : Counts) : Counts :=
  let count := Z.max 0 (default 0%Z (parseInt10 value)) in
  setCount type count prev.

Definition handleResetCounts (prev : Counts) : Counts := defaultQuestionCounts.

Inductive CountEvent :=
| EditCount (type : QuestionType) (value : string)
| ResetCounts.

Definition editCounts (events : list CountEvent) (c : Counts) : Counts :=
  fold_left (fun c e =>
               match e with
               | EditCount type value => handleQuestionCountChange type value c
               | ResetCounts => handleResetCounts c
               end) events c.

(** The state cells of the quiz composition. *)
Record Composition := mkComposition {
  questionCounts : Counts;
  questions : option json;
  isGeneratingQuestions : bool;
  questionsError : option string
}.

Definition MSG_NEED_ONE : string := "하나 이상의 문제를 요청해야 합니다.".

(** [Object.entries(questionCounts).map(([type, count]) => ({ type, count }))]:
    the keys in the order of the object literal. *)
Definition entries (c : Counts) : list QuestionRequest :=
  [ mkQuestionRequest multiple_choice (count_mc c);
    mkQuestionRequest short_answer (count_sa c);
    mkQuestionRequest ox (count_ox c) ].

(** [handleGenerateQuiz], the [await] included. *)
Definition handleGenerateQuiz (env : Env) (standardDescription : string)
    (c : Composition) (w : World) : Composition * World :=
  let requests := filter (fun req => (0 <? count req)%Z = true)
                    (entries (questionCounts c)) in
  if (length requests =? 0)%nat then
    (mkComposition (questionCounts c) (questions c) false (Some MSG_NEED_ONE), w)
  else
    match generateQuestions env standardDescription requests w with
    | (Returned generated, w') =>
        (mkComposition (questionCounts c) (Some generated) false None, w')
    | (Threw err, w') =>
        (mkComposition (questionCounts c) (questions c) false
           (Some (Session.message_or "문제를 생성하는 데 실패했습니다." err)), w')
    end.

(** [disabled={isGeneratingQuestions || (all three counts === 0)}] *)
Definition generateDisabled (c : Composition) : bool :=
  isGeneratingQuestions c
  || ((count_mc (questionCounts c) =? 0)%Z
      && (count_sa (questionCounts c) =? 0)%Z
      && (count_ox (questionCounts c) =? 0)%Z).

Definition nonNegative (c : Counts) : Prop :=
  (0 <= count_mc c)%Z /\ (0 <= count_sa c)%Z /\ (0 <= count_ox c)%Z.

End QuizSetup.

(* ===================================================================== *)
(** ** The dashboard (second component of StudySession.tsx)               *)
(* ===================================================================== *)

Module Dashboard.
Import Types.






(** [[...studyHistory].reverse().slice(0, 10)] *)
Definition recentHistory (studyHistory : list QuizResult.t) : list QuizResult.t :=
  take 10 (reverse studyHistory).

End Dashboard.

(* ===================================================================== *)
(** ** App.tsx                                                            *)
(* ===================================================================== *)

Module App.
Import Types Gateway.

(** [type View = 'selector' | 'study' | 'dashboard'] *)
Inductive View := selector | study | dashboard.

(** [type AppStatus = 'prompt_for_key' | 'validating_key' | 'key_valid' | 'key_invalid'] *)
Inductive AppStatus := prompt_for_key | validating_key | key_valid | key_invalid.

(** The state cells of [App]; [apiKey] is the cell kept in local storage. *)
Record AppState := mkApp {
  currentView : View;
  selectedStandard : option (string * AchievementStandard.t);
  dashboardKey : Z;
  apiKey : string;
  appStatus : AppStatus;
  apiKeyError : option string
}.

(** The cells after the first render, with the key found in local storage
    and [Date.now()]. *)
Definition initialApp (storedKey : string) (now : Z) : AppState :=
  mkApp selector None now storedKey validating_key None.

(** [handleApiKeySubmission], its [await] included. *)
Definition handleApiKeySubmission (env : Env) (newKey : string) (a : AppState)
    (w : World) : AppState * World :=
  match bind (validateApiKey env newKey) (fun _ => initializeAi newKey) w with
  | (Returned _, w') =>
      (mkApp (currentView a) (selectedStandard a) (dashboardKey a)
         newKey key_valid None, w')
  | (Threw error, w') =>
      (mkApp (currentView a) (selectedStandard a) (dashboardKey a)
         newKey key_invalid
         (Some (Session.message_or "알 수 없는 오류가 발생했습니다." error)), w')
  end.

(** The effect run on mount. *)
Definition onMount (env : Env) (a : AppState) (w : World) : AppState * World :=
  if String.eqb (apiKey a) "" then
    (mkApp (currentView a) (selectedStandard a) (dashboardKey a) (apiKey a)
       prompt_for_key (apiKeyError a), w)
  else handleApiKeySubmission env (apiKey a) a w.

Definition handleStartStudy (subjectName : string) (standard : AchievementStandard.t)
    (a : AppState) : AppState :=
  mkApp study (Some (subjectName, standard)) (dashboardKey a) (apiKey a)
    (appStatus a) (apiKeyError a).

Definition handleGoHome (a : AppState) : AppState :=
  mkApp selector None (dashboardKey a) (apiKey a) (appStatus a) (apiKeyError a).

(** [handleShowDashboard] with the value of [Date.now()]. *)
Definition handleShowDashboard (now : Z) (a : AppState) : AppState :=
  mkApp dashboard (selectedStandard a) now (apiKey a) (appStatus a) (apiKeyError a).

Inductive Event :=
| SubmitKey (key : string)       (* the form of [ApiKeyPrompt] *)
| StartStudy (subjectName : string) (standard : AchievementStandard.t)
| GoHome                         (* the header, or the dashboard's button *)
| ShowDashboard (now : Z)        (* the header, or the end of a session *).

(** Which component offers the event in state [a]. *)
Definition offered (a : AppState) (e : Event) : bool :=
  match appStatus a, e with
  | (prompt_for_key | key_invalid), SubmitKey _ => true
  | key_valid, StartStudy _ _ =>
      match currentView a with selector => true | _ => false end
  | key_valid, (GoHome | ShowDashboard _) => true
  | _, _ => false
  end.

Definition step (env : Env) (e : Event) (aw : AppState * World) : AppState * World :=
  let '(a, w) := aw in
  if offered a e then
    match e with
    | SubmitKey key => handleApiKeySubmission env key a w
    | StartStudy subjectName standard => (handleStartStudy subjectName standard a, w)
    | GoHome => (handleGoHome a, w)
    | ShowDashboard now => (handleShowDashboard now a, w)
    end
  else aw.

(** The app from its mount on. *)
Definition run (env : Env) (storedKey : string) (now : Z) (events : list Event)
    (w : World) : AppState * World :=
  fold_left (fun aw e => step env e aw) events
    (onMount env (initialApp storedKey now) w).

End App.

(* ===================================================================== *)
(** ** components/CurriculumSelector.tsx                                  *)
(* ===================================================================== *)

Module Unit.
Record t := mk { name : string; standards : list Types.AchievementStandard.t }.
End Unit.

Module GradeContent.
Record t := mk { grade : string; units : list Unit.t }.
End GradeContent.

Module Subject.
Record t := mk { name : string; grades : list GradeContent.t }.
End Subject.

Module EducationCurriculum.
Record t := mk { name : string; subjects : list Subject.t }.
End EducationCurriculum.

Module CurriculumSelector.
Import Types.

(** The five state cells of the component. *)
Record Selection := mkSelection {
  selectedCurriculumName : string;
  selectedGrade : string;
  selectedSubjectName : string;
  selectedUnitName : string;
  selectedStandardId : string
}.

Definition setSelectedCurriculumName (v : string) (s : Selection) : Selection :=
  mkSelection v (selectedGrade s) (selectedSubjectName s) (selectedUnitName s)
    (selectedStandardId s).
Definition setSelectedGrade (v : string) (s : Selection) : Selection :=
  mkSelection (selectedCurriculumName s) v (selectedSubjectName s)
    (selectedUnitName s) (selectedStandardId s).
Definition setSelectedSubjectName (v : string) (s : Selection) : Selection :=
  mkSelection (selectedCurriculumName s) (selectedGrade s) v (selectedUnitName s)
    (selectedStandardId s).
Definition setSelectedUnitName (v : string) (s : Selection) : Selection :=
  mkSelection (selectedCurriculumName s) (selectedGrade s) (selectedSubjectName s)
    v (selectedStandardId s).
Definition setSelectedStandardId (v : string) (s : Selection) : Selection :=
  mkSelection (selectedCurriculumName s) (selectedGrade s) (selectedSubjectName s)
    (selectedUnitName s) v.

Definition Selection_eqb (a b : Selection) : bool :=
  String.eqb (selectedCurriculumName a) (selectedCurriculumName b)
  && String.eqb (selectedGrade a) (selectedGrade b)
  && String.eqb (selectedSubjectName a) (selectedSubjectName b)
  && String.eqb (selectedUnitName a) (selectedUnitName b)
  && String.eqb (selectedStandardId a) (selectedStandardId b).

(** The object the [useMemo] callback returns. *)
Record Memo := mkMemo {
  selectedCurriculum : EducationCurriculum.t;
  availableSubjects : list Subject.t;
  selectedSubject : option Subject.t;
  availableGrades : list string;
  selectedGradeContent : option GradeContent.t;
  availableUnits : list Unit.t;
  selectedUnit : option Unit.t;
  availableStandards : list AchievementStandard.t;
  selectedStandard : option AchievementStandard.t
}.

(** Whether a dependency of an effect differs between two renders. *)
Definition changed (before after : string) : bool := negb (String.eqb before after).

(** The four effects, in the order of their declaration, after a render
    with the cells [cur] that follows a render with the cells [prev]: each
    one runs when its dependency differs between the two renders, and its
    setters act on the cells as the effects before it left them. *)
Definition runEffects (prev cur : Selection) : Selection :=
  let s1 :=
    if changed (selectedCurriculumName prev) (selectedCurriculumName cur) then
      setSelectedStandardId "" (setSelectedUnitName ""
        (setSelectedSubjectName "" (setSelectedGrade "" cur)))
    else cur in
  let s2 :=
    if changed (selectedGrade prev) (selectedGrade cur) then
      setSelectedStandardId "" (setSelectedUnitName "" s1)
    else s1 in
  let s3 :=
    if changed (selectedSubjectName prev) (selectedSubjectName cur) then
      setSelectedStandardId "" (setSelectedUnitName "" (setSelectedGrade "" s2))
    else s2 in
  if changed (selectedUnitName prev) (selectedUnitName cur) then
    setSelectedStandardId "" s3
  else s3.

(** Renders and effects alternate until a pass of the effects changes no
    cell; [fuel] bounds the number of passes. *)
Fixpoint settle (fuel : nat) (prev cur : Selection) : option Selection :=
  match fuel with
  | O => None
  | S fuel =>
      let next := runEffects prev cur in
      if Selection_eqb next cur then Some cur else settle fuel cur next
  end.

Inductive Event :=
| ChangeCurriculum (value : string)
| ChangeSubject (value : string)
| ChangeGrade (value : string)
| ChangeUnit (value : string)
| ChangeStandard (value : string).

(** The component is given a list with a first element: its first render
    reads [educationCurriculums[0].name]. *)
Section Props.
Variable first : EducationCurriculum.t.
Variable rest : list EducationCurriculum.t.

Definition educationCurriculums : list EducationCurriculum.t := first :: rest.

Definition initialSelection : Selection :=
  mkSelection (EducationCurriculum.name first) "" "" "" "".

(** The [useMemo] callback. *)
Definition memo (s : Selection) : Memo :=
  let curriculum :=
    default first
      (List.find (fun c => String.eqb (EducationCurriculum.name c)
                             (selectedCurriculumName s))
         educationCurriculums) in
  let subjects := EducationCurriculum.subjects curriculum in
  let subject :=
    List.find (fun x => String.eqb (Subject.name x) (selectedSubjectName s))
      subjects in
  let grades :=
    match subject with
    | Some x => map GradeContent.grade (Subject.grades x)
    | None => []
    end in
  let gradeContent :=
    match subject with
    | Some x =>
        List.find (fun g => String.eqb (GradeContent.grade g) (selectedGrade s))
          (Subject.grades x)
    | None => None
    end in
  let units :=
    match gradeContent with
    | Some g => GradeContent.units g
    | None => []
    end in
  let unit :=
    List.find (fun u => String.eqb (Unit.name u) (selectedUnitName s)) units in
  let standards :=
    match unit with
    | Some u => Unit.standards u
    | None => []
    end in
  let standard :=
    List.find (fun x => String.eqb (AchievementStandard.id x)
                          (selectedStandardId s))
      standards in
  mkMemo curriculum subjects subject grades gradeContent units unit standards
    standard.

(** [handleSubmit]: [None] when [onStartStudy] is not called, otherwise its
    two arguments. *)
Definition handleSubmit (s : Selection) : option (string * AchievementStandard.t) :=
  match selectedSubject (memo s), selectedStandard (memo s) with
  | Some subject, Some standard => Some (Subject.name subject, standard)
  | _, _ => None
  end.

(** [disabled={!selectedStandardId}] of the start button. *)
Definition startDisabled (s : Selection) : bool :=
  String.eqb (selectedStandardId s) "".

(** Whether a [select] is enabled and [value] is the value of one of the
    options rendered from the data. *)
Definition offered (s : Selection) (e : Event) : bool :=
  let m := memo s in
  match e with
  | ChangeCurriculum value =>
      existsb (fun c => String.eqb (EducationCurriculum.name c) value)
        educationCurriculums
  | ChangeSubject value =>
      negb (length (availableSubjects m) =? 0)%nat
      && existsb (fun x => String.eqb (Subject.name x) value) (availableSubjects m)
  | ChangeGrade value =>
      negb (String.eqb (selectedSubjectName s) "")
      && existsb (fun g => String.eqb g value) (availableGrades m)
  | ChangeUnit value =>
      negb (String.eqb (selectedGrade s) "")
      && existsb (fun u => String.eqb (Unit.name u) value) (availableUnits m)
  | ChangeStandard value =>
      negb (String.eqb (selectedUnitName s) ""
            || (length (availableStandards m) =? 0)%nat)
      && existsb (fun x => String.eqb (AchievementStandard.id x) value)
           (availableStandards m)
  end.

(** The [onChange] handler of the select the event belongs to. *)
Definition onChange (e : Event) (s : Selection) : Selection :=
  match e with
  | ChangeCurriculum value => setSelectedCurriculumName value s
  | ChangeSubject value => setSelectedSubjectName value s
  | ChangeGrade value => setSelectedGrade value s
  | ChangeUnit value => setSelectedUnitName value s
  | ChangeStandard value => setSelectedStandardId value s
  end.

(** An event, the render that follows it and the effects until they settle. *)
Definition step (fuel : nat) (e : Event) (s : Selection) : option Selection :=
  if offered s e then settle fuel s (onChange e s) else Some s.

Fixpoint run (fuel : nat) (events : list Event) (s : Selection) : option Selection :=
  match events with
  | [] => Some s
  | e :: events =>
      match step fuel e s with
      | Some s' => run fuel events s'
      | None => None
      end
  end.

(** The selections name what the data has: the curriculum exists, and every
    select that is not on its placeholder has its entry found under the
    selects above it, none of which is on its placeholder. *)
Definition chained (s : Selection) : Prop :=
  (exists c, In c educationCurriculums
             /\ EducationCurriculum.name c = selectedCurriculumName s)
  /\ (selectedSubjectName s <> "" -> selectedSubject (memo s) <> None)
  /\ (selectedGrade s <> "" ->
      selectedSubjectName s <> "" /\ selectedGradeContent (memo s) <> None)
  /\ (selectedUnitName s <> "" ->
      selectedGrade s <> "" /\ selectedUnit (memo s) <> None)
  /\ (selectedStandardId s <> "" ->
      selectedUnitName s <> "" /\ selectedStandard (memo s) <> None).

End Props.

End CurriculumSelector.

(* ===================================================================== *)
(** ** The quiz runner: sizes, totality and scoring                       *)
(* ===================================================================== *)

Module QuizFacts.
Import Types Quiz.

Lemma spread_length {A} (arr : list (cell A)) :
  length (JsArray.spread arr) = length arr.
Proof. unfold JsArray.spread. apply length_map. Qed.

Lemma spread_no_hole {A} (arr : list (cell A)) :
  Forall (fun c => c <> hole) (JsArray.spread arr).
Proof.
  unfold JsArray.spread. induction arr as [|c arr IH]; simpl.
  - constructor.
  - constructor; [destruct c; discriminate | exact IH].
Qed.

Lemma set_in_range_length {A} i (x : cell A) arr :
  (i < length arr)%nat -> length (JsArray.set i x arr) = length arr.
Proof.
  intros Hi. unfold JsArray.set.
  destruct (Nat.ltb_spec i (length arr)); [apply length_insert | lia].
Qed.

Lemma set_in_range_no_hole {A} i (x : cell A) arr :
  (i < length arr)%nat -> x <> hole ->
  Forall (fun c => c <> hole) arr ->
  Forall (fun c => c <> hole) (JsArray.set i x arr).
Proof.
  intros Hi Hx Harr. unfold JsArray.set.
  destruct (Nat.ltb_spec i (length arr)); [|lia].
  apply Forall_insert; assumption.
Qed.

Lemma initial_well_sized questions : well_sized questions (initial questions).
Proof.
  unfold well_sized, initial, JsArray.fill_null; simpl.
  rewrite !length_replicate. repeat split.
  apply Forall_replicate. discriminate.
Qed.

Lemma handleAnswerSelect_well_sized questions o s :
  (currentQuestionIndex s < length questions)%nat ->
  well_sized questions s -> well_sized questions (handleAnswerSelect o s).
Proof.
  intros Hi (Hua & Hsa & Hnh). unfold handleAnswerSelect.
  destruct (isAnswerChecked s); [repeat split; assumption|].
  unfold well_sized; simpl. repeat split.
  - rewrite set_in_range_length; rewrite spread_length; lia.
  - exact Hsa.
  - apply set_in_range_no_hole;
      [rewrite spread_length; lia | discriminate | apply spread_no_hole].
Qed.

Lemma handleSelfAssessment_well_sized questions b s :
  (currentQuestionIndex s < length questions)%nat ->
  well_sized questions s -> well_sized questions (handleSelfAssessment b s).
Proof.
  intros Hi (Hua & Hsa & Hnh). unfold well_sized, handleSelfAssessment; simpl.
  repeat split; try assumption.
  rewrite set_in_range_length; rewrite spread_length; lia.
Qed.

Lemma reduce_from_cons questions selfAssessed a rest index count :
  a <> hole ->
  reduce_from questions selfAssessed (a :: rest) index count =
  match reduce_callback questions selfAssessed count a index with
  | None => None
  | Some count' => reduce_from questions selfAssessed rest (S index) count'
  end.
Proof. intros Ha. destruct a; [congruence | reflexivity ..]. Qed.

Lemma reduce_callback_in_range questions selfAssessed count a index :
  (index < length questions)%nat ->
  exists n, reduce_callback questions selfAssessed count a index = Some n
            /\ (count <= n <= count + 1)%nat.
Proof.
  intros Hi. unfold reduce_callback.
  destruct (lookup_lt_is_Some_2 questions index Hi) as [q ->].
  eexists; split; [reflexivity|].
  destruct (if QuestionType_eqb _ _ then _ else _); lia.
Qed.

(** The reduction never reads [questions] out of range on arrays of the
    right size, and counts at most one per position. *)
Lemma reduce_from_total questions selfAssessed answers index count :
  (index + length answers <= length questions)%nat ->
  exists n, reduce_from questions selfAssessed answers index count = Some n
            /\ (count <= n <= count + length answers)%nat.
Proof.
  revert index count.
  induction answers as [|a answers IH]; intros index count Hlen; simpl length in *.
  - exists count. split; [reflexivity | lia].
  - assert (Hnext : (S index + length answers <= length questions)%nat) by lia.
    destruct a as [| | |v]; cycle 1.
    1-3: rewrite reduce_from_cons by discriminate;
      match goal with
      | |- context [reduce_callback ?q ?sa ?c ?a ?i] =>
          destruct (reduce_callback_in_range q sa c a i) as (c' & -> & Hc'); [lia|]
      end;
      destruct (IH (S index) c' Hnext) as (n & -> & Hn);
      exists n; split; [reflexivity | lia].
    simpl. destruct (IH (S index) count Hnext) as (n & -> & Hn).
    exists n. split; [reflexivity | lia].
Qed.

(** The callback credits exactly the
    indices the specification's rule names. *)
Lemma reduce_callback_claimed questions selfAssessed userAnswers count a index q :
  questions !! index = Some q ->
  userAnswers !! index = Some a ->
  reduce_callback questions selfAssessed count a index =
  Some (if claimed_correct questions userAnswers selfAssessed index
        then count + 1 else count)%nat.
Proof.
  intros Hq Hua. unfold reduce_callback, claimed_correct, JsArray.get.
  rewrite Hq, Hua.
  destruct (questionType q); simpl.
  - destruct a; reflexivity.
  - destruct (selfAssessed !! index) as [[| | |[|]]|]; reflexivity.
  - destruct a; reflexivity.
Qed.

Lemma reduce_from_claimed questions selfAssessed pre answers count :
  Forall (fun c => c <> hole) answers ->
  (length pre + length answers <= length questions)%nat ->
  reduce_from questions selfAssessed answers (length pre) count =
  Some (count
        + length (filter (fun i => claimed_correct questions (pre ++ answers)
                                     selfAssessed i = true)
                    (seq (length pre) (length answers))))%nat.
Proof.
  revert pre count.
  induction answers as [|a answers IH]; intros pre count Hnh Hlen.
  - simpl. f_equal. lia.
  - inversion Hnh as [|? ? Ha Hrest]; subst.
    simpl length in *.
    destruct (lookup_lt_is_Some_2 questions (length pre) ltac:(lia)) as [q Hq].
    rewrite reduce_from_cons by assumption.
    rewrite (reduce_callback_claimed questions selfAssessed (pre ++ a :: answers)
               count a (length pre) q Hq)
      by (rewrite list_lookup_middle; reflexivity).
    specialize (IH (pre ++ [a])).
    rewrite length_app in IH. simpl length in IH.
    replace (length pre + 1)%nat with (S (length pre)) in IH by lia.
    rewrite <- app_assoc in IH. simpl app in IH.
    rewrite IH by (assumption || lia).
    f_equal. simpl seq. rewrite filter_cons.
    destruct (claimed_correct questions (pre ++ a :: answers) selfAssessed (length pre));
      [rewrite decide_True by reflexivity | rewrite decide_False by discriminate];
      simpl; lia.
Qed.

(** The count of [handleNext] is the count of the specification's rule. *)
Lemma correctCount_claimed questions s :
  well_sized questions s ->
  correctCount questions s =
  Some (claimed_correctCount questions (userAnswers s) (selfAssessedCorrectness s)).
Proof.
  intros (Hua & _ & Hnh). unfold correctCount, claimed_correctCount.
  pose proof (reduce_from_claimed questions (selfAssessedCorrectness s) []
                (userAnswers s) 0 Hnh) as H.
  simpl in H. rewrite H by lia. rewrite Hua. reflexivity.
Qed.

Lemma claimed_correctCount_le questions userAnswers selfAssessed :
  (claimed_correctCount questions userAnswers selfAssessed <= length questions)%nat.
Proof.
  unfold claimed_correctCount.
  etransitivity; [apply length_filter|]. rewrite length_seq. lia.
Qed.

Lemma handleNext_ok questions s :
  well_sized questions s ->
  exists s' out, handleNext questions s = Some (s', out)
                 /\ well_sized questions s'
                 /\ Forall (submission_ok questions) out.
Proof.
  intros Hwf. unfold handleNext.
  destruct (Z.ltb_spec (Z.of_nat (currentQuestionIndex s))
              (Z.of_nat (length questions) - 1)).
  - eexists _, []. split; [reflexivity|]. split; [exact Hwf | constructor].
  - rewrite (correctCount_claimed _ _ Hwf).
    eexists _, [_]. split; [reflexivity|]. split; [exact Hwf|].
    constructor; [|constructor].
    unfold submission_ok; simpl. repeat split.
    apply claimed_correctCount_le.
Qed.

Lemma dispatch_ok questions e s :
  well_sized questions s ->
  exists s' out, dispatch questions e s = Some (s', out)
                 /\ well_sized questions s'
                 /\ Forall (submission_ok questions) out.
Proof.
  intros Hwf. unfold dispatch.
  destruct (enabled questions s e) eqn:Hen;
    [|eexists _, []; split; [reflexivity|]; split; [exact Hwf | constructor]].
  unfold enabled in Hen.
  destruct (showResults s); [discriminate|].
  destruct (questions !! currentQuestionIndex s) as [q|] eqn:Hq; [|discriminate].
  assert (Hi : (currentQuestionIndex s < length questions)%nat)
    by (eapply lookup_lt_Some; exact Hq).
  destruct e as [o|v| |b|]; simpl.
  - eexists _, []. split; [reflexivity|].
    split; [apply handleAnswerSelect_well_sized; assumption | constructor].
  - eexists _, []. split; [reflexivity|]. split; [|constructor].
    unfold handleShortAnswerChange. destruct (isAnswerChecked s); exact Hwf.
  - unfold handleCheckAnswer. rewrite Hq.
    eexists _, []. split; [reflexivity|]. split; [|constructor].
    destruct (QuestionType_eqb (questionType q) short_answer).
    + pose proof (handleAnswerSelect_well_sized questions (tempShortAnswer s) s Hi Hwf)
        as H. exact H.
    + exact Hwf.
  - eexists _, []. split; [reflexivity|].
    split; [apply handleSelfAssessment_well_sized; assumption | constructor].
  - apply handleNext_ok. exact Hwf.
Qed.

(** No interaction ends in a [TypeError], and every submission made is
    sized and bounded by the question list. *)
Lemma run_ok questions events s :
  well_sized questions s ->
  exists s' out, run questions events s = Some (s', out)
                 /\ well_sized questions s'
                 /\ Forall (submission_ok questions) out.
Proof.
  revert s. induction events as [|e events IH]; intros s Hwf; simpl.
  - eexists _, []. split; [reflexivity|]. split; [exact Hwf | constructor].
  - destruct (dispatch_ok questions e s Hwf) as (s1 & out1 & -> & Hwf1 & Hout1).
    destruct (IH s1 Hwf1) as (s2 & out2 & -> & Hwf2 & Hout2).
    eexists _, _. split; [reflexivity|]. split; [exact Hwf2|].
    apply Forall_app. split; assumption.
Qed.

(** C1. Every [QuizResult] made from a submission of the quiz runner on a
    non-empty question list has [score] equal to
    [100 * correctAnswers / totalQuestions] (as exact rationals),
    [0 <= correctAnswers <= totalQuestions], and [totalQuestions] equal to
    the length of the question list. *)
Theorem quiz_result_score_and_bounds
    (questions : list QuizQuestion) (events : list Event)
    (s : QuizState) (out : list Submission) (sub : Submission)
    (standard : AchievementStandard.t) (subjectName : string)
    (studyHistory : list QuizResult.t) (now_id now_date : Z) :
  questions <> [] ->
  run questions events (initial questions) = Some (s, out) ->
  In sub out ->
  let r := Session.resultOfSubmission standard subjectName studyHistory
             now_id now_date sub in
  (QuizResult.score r ==
     100 * inject_Z (Z.of_nat (QuizResult.correctAnswers r))
     / inject_Z (Z.of_nat (QuizResult.totalQuestions r)))%Q
  /\ (0 <= QuizResult.correctAnswers r <= QuizResult.totalQuestions r)%nat
  /\ QuizResult.totalQuestions r = length questions
  /\ QuizResult.totalQuestions r <> 0%nat.
Proof.
  intros Hne Hrun Hin.
  destruct (run_ok questions events (initial questions) (initial_well_sized questions))
    as (s' & out' & Hrun' & _ & Hout).
  rewrite Hrun in Hrun'. injection Hrun' as <- <-.
  rewrite Forall_forall in Hout.
  destruct (Hout sub) as (Htotal & Hle & Hscore);
    [apply list_elem_of_In; exact Hin|].
  unfold Session.resultOfSubmission, Session.handleQuizSubmit; simpl.
  rewrite Hscore. unfold scorePercentage.
  split; [field|].
  - rewrite Htotal. intros H.
    unfold Qeq in H. simpl in H.
    destruct questions; [congruence | simpl length in H; lia].
  - split; [lia|]. split; [exact Htotal|].
    rewrite Htotal. destruct questions; [congruence | discriminate].
Qed.

Lemma quiz_result_score_and_bounds_witness :
  Scenario.questions3 <> []
  /\ (let r := Session.resultOfSubmission Scenario.standard1 "subject" [] 1000 1000
                 (mkSubmission (scorePercentage 2 3) 2 3) in
      (QuizResult.score r ==
         100 * inject_Z (Z.of_nat (QuizResult.correctAnswers r))
         / inject_Z (Z.of_nat (QuizResult.totalQuestions r)))%Q
      /\ (0 <= QuizResult.correctAnswers r <= QuizResult.totalQuestions r)%nat
      /\ QuizResult.totalQuestions r = length Scenario.questions3
      /\ QuizResult.totalQuestions r <> 0%nat).
Proof.
  split; [discriminate|].
  eapply (quiz_result_score_and_bounds Scenario.questions3 Scenario.session3).
  - discriminate.
  - vm_compute. reflexivity.
  - left. reflexivity.
Defined.

(** C2. When [handleNext] runs on the last question, the count it submits
    is the number of indices [i] at which the question is short-answer and
    [selfAssessedCorrectness[i]] is [true], or the question is
    multiple-choice or ox and [userAnswers[i]] is exactly the string
    [questions[i].answer]; the score is that count over the number of
    questions, times 100.  For the three questions with answers
    ["B", "Lyon", "O"] and self-assessment [null, false, null] the count is
    2 and the score 200/3; answers differing in case or by a space, and a
    short answer that was not self-assessed, count nothing. *)
Theorem final_count_follows_rule :
  (forall (questions : list QuizQuestion) (events : list Event)
          (s : QuizState) (out : list Submission),
      run questions events (initial questions) = Some (s, out) ->
      (Z.of_nat (currentQuestionIndex s) <? Z.of_nat (length questions) - 1)%Z = false ->
      let n := claimed_correctCount questions (userAnswers s)
                 (selfAssessedCorrectness s) in
      exists s',
        handleNext questions s =
        Some (s', [ mkSubmission (scorePercentage n (length questions)) n
                      (length questions) ]))
  /\ (exists s' score,
        handleNext Scenario.questions3 Scenario.lastQuestion3 =
        Some (s', [ mkSubmission score 2 3 ])
        /\ (score == 200 # 3)%Q
        /\ run Scenario.questions3 Scenario.session3 (initial Scenario.questions3) =
           Some (s', [ mkSubmission score 2 3 ]))
  /\ correctCount Scenario.questions3 Scenario.nearMisses3 = Some 0%nat.
Proof.
  split; [|split].
  - intros questions events s out Hrun Hlast n.
    destruct (run_ok questions events (initial questions) (initial_well_sized questions))
      as (s1 & out1 & Hrun1 & Hwf & _).
    rewrite Hrun in Hrun1. injection Hrun1 as <- <-.
    unfold handleNext. rewrite Hlast.
    rewrite (correctCount_claimed _ _ Hwf).
    eexists. reflexivity.
  - eexists _, _. split; [vm_compute; reflexivity|].
    split; [vm_compute; reflexivity | vm_compute; reflexivity].
  - vm_compute. reflexivity.
Qed.

Lemma final_count_follows_rule_witness :
  run Scenario.questions3 (removelast Scenario.session3)
    (initial Scenario.questions3) = Some (Scenario.lastQuestion3, [])
  /\ exists s',
       handleNext Scenario.questions3 Scenario.lastQuestion3 =
       Some (s', [ mkSubmission (scorePercentage 2 3) 2 3 ]).
Proof.
  split; [vm_compute; reflexivity|].
  apply (proj1 final_count_follows_rule Scenario.questions3
           (removelast Scenario.session3) Scenario.lastQuestion3 []).
  - vm_compute. reflexivity.
  - vm_compute. reflexivity.
Defined.

End QuizFacts.

(* ===================================================================== *)
(** ** The gateway: key validation and question generation                *)
(* ===================================================================== *)

Module GatewayFacts.
Import Types Gateway.

(** The call [generateQuestions] sends for [requests]. *)
Lemma generateQuestions_initialised env standardDescription requests w client :
  totalQuestions requests <> 0%Z ->
  ai w = Some client ->
  let request := QuestionsRequest standardDescription (totalQuestions requests)
                   (filter (fun req => (0 <? count req)%Z = true) requests) in
  let w' := {| ai := ai w; calls := calls w ++ [(client, request)];
               console := console w |} in
  generateQuestions env standardDescription requests w =
  match backend env client request with
  | Responds (Json v) => (Returned v, w')
  | Responds (NotJson message) => handleApiError env (ErrorObject message) w'
  | Rejects error => handleApiError env error w'
  end.
Proof.
  intros Htotal Hai request w'.
  unfold generateQuestions, try_catch, bind, getAi, generateContent, JSON_parse.
  destruct (Z.eqb_spec (totalQuestions requests) 0) as [|_]; [contradiction|].
  rewrite Hai. fold request. fold w'.
  destruct (backend env client request) as [error|[message|v]]; reflexivity.
Qed.

(** [handleApiError] always throws one of its three messages, and the
    invalid-key one exactly for an authentication failure. *)
Lemma handleApiError_throws {A} env error w :
  exists message,
    @handleApiError A env error w =
    (Threw (ErrorObject message),
     {| ai := ai w; calls := calls w; console := console w ++ [error] |})
    /\ message = (if is_auth_failure error then MSG_INVALID_KEY
                  else if fileProtocol env then MSG_FILE_PROTOCOL
                  else MSG_COMMUNICATION).
Proof.
  unfold handleApiError, bind, console_error, throw.
  destruct (is_auth_failure error); [|destruct (fileProtocol env)];
    eexists; split; reflexivity.
Qed.

(** C6. When the counts of the request are non-negative and sum to 0,
    [generateQuestions] returns the empty list and leaves the world as it
    was: no backend call is made (and the client need not be
    initialised). *)
Theorem generateQuestions_zero_total
    (env : Env) (standardDescription : string)
    (requests : list QuestionRequest) (w : World) :
  Forall (fun req => (0 <= count req)%Z) requests ->
  totalQuestions requests = 0%Z ->
  generateQuestions env standardDescription requests w = (Returned (JArr []), w)
  /\ calls (snd (generateQuestions env standardDescription requests w)) = calls w.
Proof.
  intros _ Htotal.
  assert (H : generateQuestions env standardDescription requests w
              = (Returned (JArr []), w)).
  { unfold generateQuestions, try_catch. rewrite Htotal. reflexivity. }
  split; [exact H | rewrite H; reflexivity].
Qed.

Lemma generateQuestions_zero_total_witness :
  Forall (fun req => (0 <= count req)%Z) Scenario.zeroCounts
  /\ totalQuestions Scenario.zeroCounts = 0%Z
  /\ generateQuestions (Scenario.replying (Rejects OtherValue)) "standard"
       Scenario.zeroCounts Scenario.uninitialised
     = (Returned (JArr []), Scenario.uninitialised).
Proof.
  assert (Hnonneg : Forall (fun req => (0 <= count req)%Z) Scenario.zeroCounts)
    by (repeat constructor; simpl; lia).
  split; [exact Hnonneg|]. split; [reflexivity|].
  exact (proj1 (generateQuestions_zero_total (Scenario.replying (Rejects OtherValue))
                  "standard" Scenario.zeroCounts Scenario.uninitialised
                  Hnonneg eq_refl)).
Defined.

(** C7 as stated fails: a response that is valid JSON but does not decode
    against the schema is returned as it is, not refused. *)
Lemma generateQuestions_returns_off_schema :
  schema_decode (Json Scenario.offSchema) = None
  /\ totalQuestions Scenario.oneOx = 1%Z
  /\ fst (generateQuestions (Scenario.replying (Responds (Json Scenario.offSchema)))
            "standard" Scenario.oneOx Scenario.initialised)
     = Returned Scenario.offSchema.
Proof. repeat split; vm_compute; reflexivity. Qed.

(** C7, amended. With a positive total and an initialised client,
    [generateQuestions] makes one backend call; if the response text is
    JSON it returns the parsed value unchanged (so the schema-decoded list
    when the text conforms to the schema); if the text is not JSON, or the
    call fails, it throws the error [handleApiError] makes of the
    [SyntaxError] or of the failure: the invalid-key message when that
    error's message carries an authentication marker, else the
    file-protocol or the communication message. *)
Theorem generateQuestions_returns_parsed_json
    (env : Env) (standardDescription : string)
    (requests : list QuestionRequest) (w : World) (client : GoogleGenAI) :
  totalQuestions requests <> 0%Z ->
  ai w = Some client ->
  let request := QuestionsRequest standardDescription (totalQuestions requests)
                   (filter (fun req => (0 <? count req)%Z = true) requests) in
  let result := generateQuestions env standardDescription requests w in
  calls (snd result) = calls w ++ [(client, request)]
  /\ match backend env client request with
     | Responds (Json v) =>
         fst result = Returned v
         /\ (forall items, schema_decode (Json v) = Some items ->
               exists v', fst result = Returned v'
                          /\ schema_decode (Json v') = Some items)
     | Responds (NotJson message) =>
         fst result =
         Threw (ErrorObject
                  (if is_auth_failure (ErrorObject message) then MSG_INVALID_KEY
                   else if fileProtocol env then MSG_FILE_PROTOCOL
                   else MSG_COMMUNICATION))
     | Rejects error =>
         fst result =
         Threw (ErrorObject
                  (if is_auth_failure error then MSG_INVALID_KEY
                   else if fileProtocol env then MSG_FILE_PROTOCOL
                   else MSG_COMMUNICATION))
     end.
Proof.
  intros Htotal Hai request result. subst result.
  rewrite (generateQuestions_initialised env standardDescription requests w client
             Htotal Hai).
  fold request.
  destruct (backend env client request) as [error|[message|v]].
  - destruct (@handleApiError_throws json env error
                {| ai := ai w; calls := calls w ++ [(client, request)];
                   console := console w |}) as (m & -> & ->).
    split; reflexivity.
  - destruct (@handleApiError_throws json env (ErrorObject message)
                {| ai := ai w; calls := calls w ++ [(client, request)];
                   console := console w |}) as (m & -> & ->).
    split; reflexivity.
  - split; [reflexivity|]. split; [reflexivity|].
    intros items Hitems. exists v. split; [reflexivity | exact Hitems].
Qed.

Lemma generateQuestions_returns_parsed_json_witness :
  totalQuestions Scenario.oneOx <> 0%Z
  /\ fst (generateQuestions (Scenario.replying (Responds (Json Scenario.onSchema)))
            "standard" Scenario.oneOx Scenario.initialised)
     = Returned Scenario.onSchema
  /\ schema_decode (Json Scenario.onSchema)
     = Some [ mkSchemaItem "q" "ox" (Some ["O"; "X"]) "O" "e" ].
Proof.
  assert (Htotal : totalQuestions Scenario.oneOx <> 0%Z) by discriminate.
  split; [exact Htotal|].
  split; [|vm_compute; reflexivity].
  exact (proj1 (proj2 (generateQuestions_returns_parsed_json
                         (Scenario.replying (Responds (Json Scenario.onSchema)))
                         "standard" Scenario.oneOx Scenario.initialised
                         (mkGoogleGenAI "k") Htotal eq_refl))).
Defined.

(** C9 as stated fails for the empty key: [validateApiKey] throws before
    any backend call, with a message that is neither the invalid-key nor
    the network one, whatever the backend would have reported. *)
Lemma validateApiKey_empty_key :
  validateApiKey (Scenario.replying (Rejects Scenario.keyRejected)) ""
    Scenario.uninitialised
  = (Threw (ErrorObject MSG_ENTER_KEY), Scenario.uninitialised)
  /\ MSG_ENTER_KEY <> MSG_KEYCHECK_INVALID
  /\ MSG_ENTER_KEY <> MSG_KEYCHECK_NETWORK.
Proof. repeat split; vm_compute; congruence. Qed.

(** C9, amended. For every key [validateApiKey] leaves the module-level
    client [ai] as it was.  For the empty key it throws the "enter a key"
    error without calling the backend.  For every other key it makes one
    call with a temporary client of that key, returns when the call
    succeeds, throws the invalid-key error exactly when the call fails
    with an authentication failure, and the network error when it fails in
    any other way. *)
Theorem validateApiKey_frame_and_errors (env : Env) (apiKey : string) (w : World) :
  let result := validateApiKey env apiKey w in
  ai (snd result) = ai w
  /\ (if String.eqb apiKey "" then
        result = (Threw (ErrorObject MSG_ENTER_KEY), w)
      else
        calls (snd result) = calls w ++ [(mkGoogleGenAI apiKey, HelloRequest)]
        /\ match backend env (mkGoogleGenAI apiKey) HelloRequest with
           | Responds _ => fst result = Returned tt
           | Rejects error =>
               fst result =
               Threw (ErrorObject (if is_auth_failure error
                                   then MSG_KEYCHECK_INVALID
                                   else MSG_KEYCHECK_NETWORK))
           end)
  /\ MSG_KEYCHECK_INVALID <> MSG_KEYCHECK_NETWORK.
Proof.
  intros result. subst result. unfold validateApiKey.
  destruct (String.eqb apiKey "").
  - repeat split. vm_compute. congruence.
  - unfold try_catch, bind, generateContent, console_error, throw, ret.
    destruct (backend env (mkGoogleGenAI apiKey) HelloRequest) as [error|text].
    + destruct (is_auth_failure error); repeat split; vm_compute; congruence.
    + repeat split. vm_compute. congruence.
Qed.

(** The backend's rejection of a key is recognised as an authentication
    failure; a failure to reach the backend is not. *)
Lemma is_auth_failure_examples :
  is_auth_failure Scenario.keyRejected = true
  /\ is_auth_failure (ErrorObject "Failed to fetch") = false
  /\ is_auth_failure OtherValue = false.
Proof. repeat split; vm_compute; reflexivity. Qed.

End GatewayFacts.

(* ===================================================================== *)
(** ** The session: streams, chat, speech, result record                  *)
(* ===================================================================== *)

Module SessionFacts.
Import Types Session.

Lemma append_nil_r (s : string) : s +:+ "" = s.
Proof.
  induction s as [|c s IH]; [reflexivity|].
  change (String c (s +:+ "") = String c s). rewrite IH. reflexivity.
Qed.

Lemma append_assoc (a b c : string) : (a +:+ b) +:+ c = a +:+ (b +:+ c).
Proof.
  induction a as [|x a IH]; [reflexivity|].
  change (String x ((a +:+ b) +:+ c) = String x (a +:+ (b +:+ c))).
  rewrite IH. reflexivity.
Qed.

Lemma concat_cons (x : string) (xs : list string) :
  String.concat "" (x :: xs) = x +:+ String.concat "" xs.
Proof. destruct xs; [symmetry; apply append_nil_r | reflexivity]. Qed.

(** *** The explanation stream *)

(** Only the events of the explanation stream and the cleanup act on the
    explanation. *)
Lemma steps_explanation events s s' :
  steps events s = Some s' ->
  forallb (fun e => negb (is_cleanup e)) events = true ->
  expl s' = resume_all (explanationEvents events) (expl s).
Proof.
  revert s. induction events as [|e events IH]; intros s Hsteps Hnc; simpl in *.
  - injection Hsteps as <-. reflexivity.
  - apply andb_prop in Hnc as [He Hnc].
    destruct (step e s) as [s1|] eqn:Hstep; [|discriminate].
    rewrite (IH s1 Hsteps Hnc).
    destruct e; simpl in *; try discriminate;
      repeat match type of Hstep with
             | context [if ?b then _ else _] => destruct b
             | context [match ?o with Some _ => _ | None => _ end] =>
                 destruct o; try discriminate
             end;
      injection Hstep as <-; reflexivity.
Qed.

Lemma resume_chunk f x :
  fetchPhase x = Iterating ->
  isCancelled x = false ->
  fetchExplanation_resume (Chunk f) x =
  setExplanation (currentText x +:+ f) (setCurrentText (currentText x +:+ f) x).
Proof. intros Hphase Hc. unfold fetchExplanation_resume. rewrite Hphase, Hc. reflexivity. Qed.

Lemma resume_chunks fragments x :
  fetchPhase x = Iterating ->
  isCancelled x = false ->
  explanation x = currentText x ->
  explanation (resume_all (map Chunk fragments) x)
  = currentText x +:+ String.concat "" fragments
  /\ currentText (resume_all (map Chunk fragments) x)
     = explanation (resume_all (map Chunk fragments) x)
  /\ fetchPhase (resume_all (map Chunk fragments) x) = Iterating
  /\ isCancelled (resume_all (map Chunk fragments) x) = false
  /\ isLoadingExplanation (resume_all (map Chunk fragments) x) = isLoadingExplanation x
  /\ isStreamingExplanation (resume_all (map Chunk fragments) x)
     = isStreamingExplanation x
  /\ explanationError (resume_all (map Chunk fragments) x) = explanationError x.
Proof.
  revert x. induction fragments as [|f fragments IH]; intros x Hphase Hc Heq.
  - change (resume_all (map Chunk []) x) with x.
    change (String.concat "" []) with "". rewrite append_nil_r.
    repeat split; congruence.
  - change (resume_all (map Chunk (f :: fragments)) x)
      with (resume_all (map Chunk fragments) (fetchExplanation_resume (Chunk f) x)).
    rewrite (resume_chunk f x Hphase Hc).
    set (x1 := setExplanation (currentText x +:+ f)
                 (setCurrentText (currentText x +:+ f) x)).
    destruct (IH x1) as (H1 & H2 & H3 & H4 & H5 & H6 & H7);
      [exact Hphase | exact Hc | reflexivity |].
    rewrite H1, H2, H3, H4, H5, H6, H7, H1.
    rewrite concat_cons, <- append_assoc.
    repeat split; reflexivity.
Qed.

Lemma resume_all_app evs1 evs2 x :
  resume_all (evs1 ++ evs2) x = resume_all evs2 (resume_all evs1 x).
Proof. unfold resume_all. apply fold_left_app. Qed.

(** A session that only receives events of the explanation stream never
    fails. *)
Lemma steps_explanation_only evs s :
  steps (map ExplanationStream evs) s
  = Some (mkSession (resume_all evs (expl s)) (chat s) (speech s)).
Proof.
  revert s. induction evs as [|ev evs IH]; intros s.
  - destruct s; reflexivity.
  - change (steps (map ExplanationStream (ev :: evs)) s)
      with (steps (map ExplanationStream evs)
              (mkSession (fetchExplanation_resume ev (expl s)) (chat s) (speech s))).
    rewrite IH. reflexivity.
Qed.

(** C5. From the mounted session, with no teardown among the events, once
    the explanation stream has become ready and delivered the fragments
    [f1..fn] (and, when [finished], has ended) the displayed explanation is
    [f1 + f2 + ... + fn]; the other explanation cells show a loaded
    explanation without error that is streaming exactly until the end.
    Since the statement holds after every number of fragments, the text is
    republished after each of them. *)
Theorem explanation_is_concatenation
    (events : list Event) (fragments : list string) (finished : bool)
    (s : SessionState) :
  forallb (fun e => negb (is_cleanup e)) events = true ->
  explanationEvents events
  = Ready :: map Chunk fragments ++ (if finished then [End_] else []) ->
  steps events mounted = Some s ->
  explanation (expl s) = String.concat "" fragments
  /\ isLoadingExplanation (expl s) = false
  /\ isStreamingExplanation (expl s) = negb finished
  /\ explanationError (expl s) = None.
Proof.
  intros Hnc Hevs Hsteps.
  rewrite (steps_explanation events mounted s Hsteps Hnc), Hevs.
  change (resume_all (Ready :: ?l) (expl mounted))
    with (resume_all l (fetchExplanation_resume Ready fetchExplanation_start)).
  rewrite resume_all_app.
  set (x0 := fetchExplanation_resume Ready fetchExplanation_start).
  destruct (resume_chunks fragments x0) as (H1 & H2 & H3 & H4 & H5 & H6 & H7);
    [reflexivity ..|].
  set (x := resume_all (map Chunk fragments) x0) in *.
  destruct finished.
  - change (resume_all [End_] x) with (fetchExplanation_resume End_ x).
    unfold fetchExplanation_resume, fetchExplanation_finally.
    rewrite H3, H4. simpl. rewrite H1, H5, H7. repeat split; reflexivity.
  - change (resume_all [] x) with x.
    rewrite H1, H5, H6, H7. repeat split; reflexivity.
Qed.

Lemma explanation_is_concatenation_witness :
  exists s,
    steps Scenario.explained mounted = Some s
    /\ explanation (expl s) = "Photosynthesis"
    /\ isLoadingExplanation (expl s) = false
    /\ isStreamingExplanation (expl s) = false
    /\ explanationError (expl s) = None.
Proof.
  eexists. split; [vm_compute; reflexivity|].
  eapply (explanation_is_concatenation Scenario.explained ["Photo"; "synthesis"] true).
  - reflexivity.
  - reflexivity.
  - vm_compute. reflexivity.
Defined.

(** Once the cleanup has run, no event of the explanation stream changes an
    explanation cell. *)
Lemma cancelled_resume ev x :
  isCancelled x = true ->
  explanationCells (fetchExplanation_resume ev x) = explanationCells x
  /\ isCancelled (fetchExplanation_resume ev x) = true.
Proof.
  intros Hc.
  unfold fetchExplanation_resume, fetchExplanation_catch, fetchExplanation_finally.
  destruct (fetchPhase x), ev; rewrite ?Hc; simpl; rewrite ?Hc; split; reflexivity.
Qed.

Lemma cancelled_stream_is_suppressed evs x :
  isCancelled x = true ->
  explanationCells (resume_all evs x) = explanationCells x
  /\ isCancelled (resume_all evs x) = true.
Proof.
  revert x. induction evs as [|ev evs IH]; intros x Hc.
  - split; [reflexivity | exact Hc].
  - change (resume_all (ev :: evs) x)
      with (resume_all evs (fetchExplanation_resume ev x)).
    destruct (cancelled_resume ev x Hc) as [Hcells Hc'].
    destruct (IH _ Hc') as [Hcells' Hc''].
    split; [congruence | exact Hc''].
Qed.

(** After the cleanup no later event of the session changes an explanation
    cell. *)
Lemma explanation_frozen_after_cleanup events s s' :
  isCancelled (expl s) = true ->
  steps events s = Some s' ->
  explanationCells (expl s') = explanationCells (expl s)
  /\ isCancelled (expl s') = true.
Proof.
  revert s. induction events as [|e events IH]; intros s Hc Hsteps; simpl in Hsteps.
  - injection Hsteps as <-. split; [reflexivity | exact Hc].
  - destruct (step e s) as [s1|] eqn:Hstep; [|discriminate].
    assert (H1 : explanationCells (expl s1) = explanationCells (expl s)
                 /\ isCancelled (expl s1) = true).
    { destruct e as [ev|v| |ev|v| |o| |src|]; simpl in Hstep;
        repeat match type of Hstep with
               | context [if ?b then _ else _] => destruct b
               | context [match ?o with Some _ => _ | None => _ end] =>
                   destruct o; try discriminate
               end;
        injection Hstep as <-; simpl;
        solve [ split; [reflexivity | exact Hc]
              | split; reflexivity
              | apply cancelled_resume; exact Hc ]. }
    destruct H1 as [Hcells Hc1].
    destruct (IH s1 Hc1 Hsteps) as [Hcells' Hc'].
    split; [congruence | exact Hc'].
Qed.

(** C3 at its failing input. A question is asked, the answer starts to
    stream, the session is torn down: [isCancelled] is set.  A fragment of
    the explanation stream would now change no explanation cell, but the
    next fragment of the follow-up stream is appended to the placeholder
    message of the transcript: [handleAskQuestion] reads no cancellation
    flag. *)
Theorem chat_fragment_applied_after_teardown :
  exists s1 s2,
    steps Scenario.askedThenTornDown mounted = Some s1
    /\ isCancelled (expl s1) = true
    /\ (forall ev, explanationCells (fetchExplanation_resume ev (expl s1))
                   = explanationCells (expl s1))
    /\ step (FollowUpStream (Chunk "late")) s1 = Some s2
    /\ transcript (chat s1)
       = [Some (mkMessage user "why?"); Some (mkMessage model "")]
    /\ transcript (chat s2)
       = [Some (mkMessage user "why?"); Some (mkMessage model "late")].
Proof.
  eexists _, _.
  split; [vm_compute; reflexivity|].
  split; [reflexivity|].
  split; [intros ev; apply cancelled_resume; reflexivity|].
  split; [vm_compute; reflexivity|].
  split; vm_compute; reflexivity.
Qed.

(** *** The chat turn *)

Lemma steps_app events1 events2 s :
  steps (events1 ++ events2) s
  = match steps events1 s with
    | Some s1 => steps events2 s1
    | None => None
    end.
Proof.
  revert s. induction events1 as [|e events1 IH]; intros s; simpl; [reflexivity|].
  destruct (step e s); [apply IH | reflexivity].
Qed.

Lemma step_allocated e s s' :
  step e s = Some s' -> allocated (chat s) -> allocated (chat s').
Proof.
  unfold allocated. intros Hstep Hal.
  destruct e as [ev|v| |ev|v| |o| |src|]; simpl in Hstep;
    try (repeat match type of Hstep with
                | context [if ?b then _ else _] => destruct b
                end; injection Hstep as <-; exact Hal).
  - (* SubmitQuestion *)
    destruct (formRendered (expl s)); [|injection Hstep as <-; exact Hal].
    injection Hstep as <-. simpl. unfold handleAskQuestion.
    destruct (_ || _); [exact Hal|]. simpl.
    apply Forall_app. split.
    + eapply Forall_impl; [exact Hal|]. simpl. intros; lia.
    + repeat constructor; lia.
  - (* FollowUpStream *)
    destruct (handleAskQuestion_resume ev (chat s)) as [c|] eqn:Hres; [|discriminate].
    injection Hstep as <-. simpl.
    unfold handleAskQuestion_resume in Hres.
    destruct (askPhase (chat s)), ev; try (injection Hres as <-; exact Hal).
    + injection Hres as <-. simpl. unfold slice_0_minus2.
      apply Forall_take. exact Hal.
    + unfold appendChunk in Hres.
      destruct (last (conversation (chat s))) as [l|]; [|discriminate].
      destruct (messages (chat s) !! l) as [m|]; [|discriminate].
      destruct (role m); injection Hres as <-; exact Hal.
    + injection Hres as <-. simpl. unfold slice_0_minus2.
      apply Forall_take. exact Hal.
Qed.

Lemma steps_allocated events s s' :
  steps events s = Some s' -> allocated (chat s) -> allocated (chat s').
Proof.
  revert s. induction events as [|e events IH]; intros s Hsteps Hal; simpl in Hsteps.
  - injection Hsteps as <-. exact Hal.
  - destruct (step e s) as [s1|] eqn:Hstep; [|discriminate].
    eapply IH; [exact Hsteps|]. eapply step_allocated; eassumption.
Qed.

Lemma ask_starts_turn c :
  isAnswering c = false ->
  trim (userQuestion c) <> "" ->
  in_turn_from c (handleAskQuestion c)
  /\ askPhase (handleAskQuestion c) = AwaitingAnswer.
Proof.
  intros Hans Htrim. unfold handleAskQuestion.
  destruct (String.eqb_spec (trim (userQuestion c)) ""); [contradiction|].
  rewrite Hans. simpl. split; [|reflexivity].
  unfold in_turn_from; simpl. split; [reflexivity|]. split.
  - intros l Hl. rewrite !lookup_insert_ne by lia. reflexivity.
  - split; [|split; reflexivity].
    exists "". apply lookup_insert_eq.
Qed.

Lemma chunk_keeps_turn c0 c chunkText :
  in_turn_from c0 c ->
  exists c', appendChunk chunkText c = Some c'
             /\ in_turn_from c0 c'
             /\ askPhase c' = askPhase c.
Proof.
  intros (Hconv & Hold & (t & Ht) & Huq & Hans).
  assert (Hlast : last (conversation c) = Some (S (nextLoc c0))).
  { rewrite Hconv.
    change (conversation c0 ++ [nextLoc c0; S (nextLoc c0)])
      with (conversation c0 ++ [nextLoc c0] ++ [S (nextLoc c0)]).
    rewrite app_assoc. apply last_snoc. }
  unfold appendChunk. rewrite Hlast, Ht. simpl.
  eexists. split; [reflexivity|]. split; [|reflexivity].
  unfold in_turn_from; simpl. split; [exact Hconv|]. split.
  - intros l Hl. rewrite lookup_insert_ne by lia. apply Hold, Hl.
  - split; [|split; assumption].
    eexists. apply lookup_insert_eq.
Qed.

Lemma catch_restores c0 c err :
  allocated c0 ->
  in_turn_from c0 c ->
  conversation (handleAskQuestion_catch err c) = conversation c0
  /\ transcript (handleAskQuestion_catch err c) = transcript c0.
Proof.
  intros Hal (Hconv & Hold & _).
  assert (Hc : conversation (handleAskQuestion_catch err c) = conversation c0).
  { simpl. unfold slice_0_minus2. rewrite Hconv, length_app. simpl.
    replace (length (conversation c0) + 2 - 2)%nat with (length (conversation c0)) by lia.
    apply take_app_length. }
  split; [exact Hc|].
  unfold transcript. rewrite Hc. simpl.
  apply map_ext_in. intros l Hl. apply Hold.
  unfold allocated in Hal. rewrite Forall_forall in Hal.
  apply Hal, list_elem_of_In, Hl.
Qed.

(** An event that is not of the follow-up stream leaves a turn in flight as
    it is: typing is disabled and a submission is rejected while
    [isAnswering] holds. *)
Lemma other_event_keeps_turn c0 e s :
  (forall ev, e <> FollowUpStream ev) ->
  in_turn_from c0 (chat s) ->
  exists s', step e s = Some s'
             /\ in_turn_from c0 (chat s')
             /\ askPhase (chat s') = askPhase (chat s).
Proof.
  intros Hother Hturn.
  pose proof Hturn as (_ & _ & _ & _ & Hans).
  destruct e as [ev|v| |ev|v| |o| |src|]; simpl;
    try (eexists; split; [reflexivity|]; split; [exact Hturn | reflexivity]).
  - rewrite Hans, andb_false_r.
    eexists; split; [reflexivity|]; split; [exact Hturn | reflexivity].
  - destruct (formRendered (expl s));
      [|eexists; split; [reflexivity|]; split; [exact Hturn | reflexivity]].
    unfold handleAskQuestion. rewrite Hans, orb_true_r.
    eexists; split; [reflexivity|]; split; [exact Hturn | reflexivity].
  - exfalso. apply (Hother ev). reflexivity.
  - destruct (isSpeaking (speech s) || isLoadingTTS (speech s));
      eexists; (split; [reflexivity|]); split; solve [exact Hturn | reflexivity].
  - destruct (isLoadingExplanation (expl s) || isStreamingExplanation (expl s));
      eexists; (split; [reflexivity|]); split; solve [exact Hturn | reflexivity].
Qed.

(** A turn in flight stays in flight through its stream events, whatever
    other events come in between. *)
Lemma turn_in_flight c0 events :
  forall s,
    in_turn_from c0 (chat s) ->
    turn_trace (askPhase (chat s)) (followUpEvents events) ->
    exists s', steps events s = Some s'
               /\ in_turn_from c0 (chat s')
               /\ (askPhase (chat s') = AwaitingAnswer
                   \/ askPhase (chat s') = Answering).
Proof.
  induction events as [|e events IH]; intros s Hturn Htrace.
  - exists s. split; [reflexivity|]. split; [exact Hturn|].
    destruct (askPhase (chat s)); [contradiction | left | right]; reflexivity.
  - destruct e as [ev|v| |ev|v| |o| |src|];
      try (match goal with
           | |- context [steps (?e :: _) _] =>
               destruct (other_event_keeps_turn c0 e s ltac:(discriminate) Hturn)
                 as (s1 & Hs1 & Hturn1 & Hphase1)
           end;
           change (steps (?e :: events) s)
             with (match step e s with Some s' => steps events s' | None => None end);
           rewrite Hs1; apply IH; [exact Hturn1 | rewrite Hphase1; exact Htrace]).
    (* an event of the follow-up stream *)
    change (followUpEvents (FollowUpStream ev :: events))
      with (ev :: followUpEvents events) in Htrace.
    change (steps (FollowUpStream ev :: events) s)
      with (match step (FollowUpStream ev) s with
            | Some s' => steps events s'
            | None => None
            end).
    simpl step. unfold handleAskQuestion_resume.
    destruct (askPhase (chat s)) eqn:Hphase; simpl in Htrace; [contradiction | |].
    + destruct Htrace as [Hnil | (fragments & Heq)]; [discriminate|].
      injection Heq as -> Hrest.
      apply IH; simpl.
      * destruct Hturn as (H1 & H2 & H3 & H4 & H5). repeat split; assumption.
      * exists fragments. exact Hrest.
    + destruct Htrace as (fragments & Heq).
      destruct fragments as [|f fragments]; [discriminate|].
      injection Heq as -> Hrest.
      destruct (chunk_keeps_turn c0 (chat s) f Hturn) as (c' & -> & Hturn' & Hphase').
      apply IH; simpl; [exact Hturn'|].
      rewrite Hphase', Hphase. exists fragments. exact Hrest.
Qed.

(** C4. In a session reached from mounting, with the question form shown, no
    answer in flight and a question typed, a turn first appends the question
    and the placeholder.  If its follow-up stream then fails, before it is
    ready or after any number of fragments, and whatever other events of the
    session come in between, the transcript is left as it was before the
    turn: the same references, showing the same messages.  The answering
    flag is cleared and the error recorded. *)
Theorem failed_turn_restores_transcript
    (history during : list Event) (s : SessionState)
    (delivered : option (list string)) (err : Gateway.thrown) :
  steps history mounted = Some s ->
  formRendered (expl s) = true ->
  isAnswering (chat s) = false ->
  trim (userQuestion (chat s)) <> "" ->
  followUpEvents during = deliveredBeforeFailure delivered ->
  exists s_turn s',
    step SubmitQuestion s = Some s_turn
    /\ length (conversation (chat s_turn)) = (length (conversation (chat s)) + 2)%nat
    /\ steps (during ++ [FollowUpStream (Failed err)]) s_turn = Some s'
    /\ conversation (chat s') = conversation (chat s)
    /\ transcript (chat s') = transcript (chat s)
    /\ isAnswering (chat s') = false
    /\ qnaError (chat s')
       = Some (message_or "질문에 답변하는 중 오류가 발생했습니다." err).
Proof.
  intros Hreach Hform Hans Htrim Hduring.
  assert (Hal : allocated (chat s)).
  { eapply steps_allocated; [exact Hreach|]. constructor. }
  destruct (ask_starts_turn (chat s) Hans Htrim) as [Hturn Hphase].
  set (s_turn := mkSession (expl s) (handleAskQuestion (chat s)) (speech s)).
  assert (Hstep : step SubmitQuestion s = Some s_turn).
  { simpl. rewrite Hform. reflexivity. }
  assert (Hlen : length (conversation (chat s_turn))
                 = (length (conversation (chat s)) + 2)%nat).
  { simpl. destruct Hturn as [-> _]. rewrite length_app. reflexivity. }
  destruct (turn_in_flight (chat s) during s_turn) as (s2 & Hs2 & Hturn2 & Hphase2).
  { exact Hturn. }
  { change (askPhase (chat s_turn)) with (askPhase (handleAskQuestion (chat s))).
    rewrite Hphase, Hduring.
    destruct delivered as [fragments|]; simpl; [right; exists fragments | left];
      reflexivity. }
  destruct (catch_restores (chat s) (chat s2) err Hal Hturn2) as [Hconv Htr].
  exists s_turn, (mkSession (expl s2) (handleAskQuestion_catch err (chat s2)) (speech s2)).
  split; [exact Hstep|]. split; [exact Hlen|]. split.
  - rewrite steps_app, Hs2.
    assert (Hres : handleAskQuestion_resume (Failed err) (chat s2)
                   = Some (handleAskQuestion_catch err (chat s2))).
    { unfold handleAskQuestion_resume. destruct Hphase2 as [-> | ->]; reflexivity. }
    cbn [steps step]. rewrite Hres. reflexivity.
  - split; [exact Hconv|]. split; [exact Htr|]. split; reflexivity.
Qed.

Lemma failed_turn_restores_transcript_witness :
  exists s,
    steps Scenario.secondQuestionTyped mounted = Some s
    /\ transcript (chat s)
       = [Some (mkMessage user "why?"); Some (mkMessage model "Because.")]
    /\ exists s_turn s',
         step SubmitQuestion s = Some s_turn
         /\ length (conversation (chat s_turn)) = (length (conversation (chat s)) + 2)%nat
         /\ steps (Scenario.interleavedTurn
                   ++ [FollowUpStream (Failed (Gateway.ErrorObject "offline"))])
              s_turn = Some s'
         /\ conversation (chat s') = conversation (chat s)
         /\ transcript (chat s') = transcript (chat s)
         /\ isAnswering (chat s') = false
         /\ qnaError (chat s')
            = Some (message_or "질문에 답변하는 중 오류가 발생했습니다."
                      (Gateway.ErrorObject "offline")).
Proof.
  eexists. split; [vm_compute; reflexivity|].
  split; [vm_compute; reflexivity|].
  eapply (failed_turn_restores_transcript Scenario.secondQuestionTyped
            Scenario.interleavedTurn _
            (Some ["It "; "works"]) (Gateway.ErrorObject "offline")).
  - vm_compute. reflexivity.
  - vm_compute. reflexivity.
  - vm_compute. reflexivity.
  - vm_compute. discriminate.
  - reflexivity.
Defined.

(** *** Speech *)

(** [stopAllAudio] clears both flags and the source ref. *)
Lemma stopAllAudio_clears sp :
  isSpeaking (stopAllAudio sp) = false
  /\ isLoadingTTS (stopAllAudio sp) = false
  /\ audioSourceRef (stopAllAudio sp) = None.
Proof.
  unfold stopAllAudio.
  destruct (audioSourceRef sp) eqn:Hsrc; simpl;
    destruct (audioContextRef sp); simpl;
    try destruct (is_closed _); simpl; repeat split; try reflexivity; exact Hsrc.
Qed.

(** With no resource held [stopAllAudio] touches no audio object, and a
    second call changes nothing. *)
Lemma stopAllAudio_idle sp :
  audioSourceRef sp = None ->
  audioContextRef sp = None ->
  stopAllAudio sp = setIsLoadingTTS false (setIsSpeaking false sp)
  /\ stopAllAudio (stopAllAudio sp) = stopAllAudio sp.
Proof.
  intros Hsrc Hctx.
  assert (H : stopAllAudio sp = setIsLoadingTTS false (setIsSpeaking false sp)).
  { unfold stopAllAudio. rewrite Hsrc. cbv zeta. rewrite Hctx. reflexivity. }
  split; [exact H|]. rewrite H.
  unfold stopAllAudio.
  change (audioSourceRef (setIsLoadingTTS false (setIsSpeaking false sp)))
    with (audioSourceRef sp).
  rewrite Hsrc. cbv zeta.
  change (audioContextRef (setIsLoadingTTS false (setIsSpeaking false sp)))
    with (audioContextRef sp).
  rewrite Hctx. reflexivity.
Qed.

(** The toggle while speaking or loading is [stopAllAudio]. *)
Lemma toggle_stops explanation sp :
  isSpeaking sp || isLoadingTTS sp = true ->
  handleToggleSpeak explanation sp = stopAllAudio sp.
Proof. intros H. unfold handleToggleSpeak. rewrite H. reflexivity. Qed.

(** Stopping a playback that has started releases everything once the
    [close()] of the context has settled. *)
Lemma stop_while_speaking :
  exists s,
    steps (Scenario.explained
           ++ [ToggleSpeak; SpeechSettled (inr Playable); ToggleSpeak; CloseSettled])
      mounted = Some s
    /\ isSpeaking (speech s) = false
    /\ isLoadingTTS (speech s) = false
    /\ audioSourceRef (speech s) = None
    /\ audioContextRef (speech s) = None
    /\ contexts (speech s) !! 0%nat = Some closed
    /\ sources (speech s) !! 1%nat = Some (mkSource false false 0).
Proof. eexists. split; [vm_compute; reflexivity|]. repeat split. Qed.

(** C8 at its failing input. The control is pressed to start, and pressed
    again while the audio is still being requested.  The second press runs
    [stopAllAudio]: both flags are false and no handle is held.  But the
    first call is still suspended at [await generateSpeech(..)]; when the
    audio arrives it creates a context and a source, stores them in the
    refs, starts the playback and sets [isSpeaking]. *)
Theorem playback_starts_after_stop_while_loading :
  exists s_loading s_stopped s_late,
    steps (Scenario.explained ++ [ToggleSpeak]) mounted = Some s_loading
    /\ isLoadingTTS (speech s_loading) = true
    /\ step ToggleSpeak s_loading = Some s_stopped
    /\ steps Scenario.toggledTwiceWhileLoading mounted = Some s_stopped
    /\ (isSpeaking (speech s_stopped) = false
        /\ isLoadingTTS (speech s_stopped) = false
        /\ audioSourceRef (speech s_stopped) = None
        /\ audioContextRef (speech s_stopped) = None)
    /\ step (SpeechSettled (inr Playable)) s_stopped = Some s_late
    /\ isSpeaking (speech s_late) = true
    /\ audioContextRef (speech s_late) = Some 0%nat
    /\ audioSourceRef (speech s_late) = Some 1%nat
    /\ contexts (speech s_late) !! 0%nat = Some running
    /\ sources (speech s_late) !! 1%nat = Some (mkSource true true 0).
Proof.
  eexists _, _, _.
  split; [vm_compute; reflexivity|].
  split; [reflexivity|].
  split; [vm_compute; reflexivity|].
  split; [vm_compute; reflexivity|].
  split; [repeat split|].
  split; [vm_compute; reflexivity|].
  repeat split.
Qed.

(** The same resumption after a teardown: the cleanup runs while the audio
    is requested, and the playback starts afterwards. *)
Lemma playback_starts_after_cleanup_while_loading :
  exists s,
    steps (Scenario.explained ++ [ToggleSpeak; Cleanup; SpeechSettled (inr Playable)])
      mounted = Some s
    /\ isCancelled (expl s) = true
    /\ isSpeaking (speech s) = true
    /\ audioContextRef (speech s) = Some 0%nat
    /\ audioSourceRef (speech s) = Some 1%nat
    /\ sources (speech s) !! 1%nat = Some (mkSource true true 0).
Proof. eexists. split; [vm_compute; reflexivity|]. repeat split. Qed.

(** *** The result record *)

(** C10 as stated fails: the two [new Date()] are two readings of the clock;
    when a millisecond passes between them, [id] and [date] differ. *)
Lemma result_id_differs_from_date :
  let r := fst (handleQuizSubmit Scenario.standard1 "subject" [] 999 1000
                  (Quiz.scorePercentage 2 3) 2 3) in
  QuizResult.id r = "1970-01-01T00:00:00.999Z"
  /\ QuizResult.date r = "1970-01-01T00:00:01.000Z"
  /\ QuizResult.id r <> QuizResult.date r.
Proof. repeat split; vm_compute; congruence. Qed.

(** C10, amended. The [id] of a result is the ISO-8601 string of the first
    clock reading of [handleQuizSubmit] and its [date] that of the second;
    they are equal when both readings are the same instant.  Ids are
    timestamps: two results whose first readings are the same instant get
    the same id, whatever else differs. *)
Theorem result_id_and_date_are_clock_readings
    (standard standard' : AchievementStandard.t) (subjectName subjectName' : string)
    (studyHistory studyHistory' : list QuizResult.t)
    (now now_id now_date now_date' : Z) (score score' : Q)
    (correctAnswers correctAnswers' totalQuestions totalQuestions' : nat) :
  let r := fst (handleQuizSubmit standard subjectName studyHistory now_id now_date
                  score correctAnswers totalQuestions) in
  let r' := fst (handleQuizSubmit standard' subjectName' studyHistory' now_id now_date'
                   score' correctAnswers' totalQuestions') in
  let r_now := fst (handleQuizSubmit standard subjectName studyHistory now now
                      score correctAnswers totalQuestions) in
  QuizResult.id r = JsDate.toISOString now_id
  /\ QuizResult.date r = JsDate.toISOString now_date
  /\ QuizResult.id r_now = QuizResult.date r_now
  /\ QuizResult.id r' = QuizResult.id r.
Proof. repeat split. Qed.

End SessionFacts.

(* ===================================================================== *)
(** ** The quiz runner: one result, complete answers, locked answers      *)
(* ===================================================================== *)

Module QuizWalk.
Import Types Quiz QuizProgress.

Lemma spread_settled {A} (arr : list (cell A)) :
  Forall null_or_val arr -> JsArray.spread arr = arr.
Proof.
  unfold JsArray.spread. induction 1 as [|c arr Hc _ IH]; simpl; [reflexivity|].
  rewrite IH. destruct Hc as [-> | [a ->]]; reflexivity.
Qed.

Lemma set_in_range {A} i (x : cell A) arr :
  (i < length arr)%nat -> JsArray.set i x arr = <[i := x]> arr.
Proof. intros Hi. unfold JsArray.set. destruct (Nat.ltb_spec i (length arr)); [reflexivity | lia]. Qed.

Lemma get_not_null {A} i (arr : list (cell A)) :
  (i < length arr)%nat ->
  Forall null_or_val arr ->
  is_null (JsArray.get i arr) = false ->
  exists a, arr !! i = Some (val a).
Proof.
  intros Hi Hall Hnn. unfold JsArray.get in Hnn.
  destruct (lookup_lt_is_Some_2 arr i Hi) as [c Hc]. rewrite Hc in Hnn.
  rewrite Forall_forall in Hall.
  destruct (Hall c) as [-> | [a ->]];
    [apply list_elem_of_lookup; eauto | discriminate | eauto].
Qed.

Lemma initial_progress questions : progress questions (initial questions).
Proof.
  split; [apply QuizFacts.initial_well_sized|].
  unfold initial, JsArray.fill_null; simpl.
  split; [apply Forall_replicate; left; reflexivity|].
  split; [apply Forall_replicate; left; reflexivity|].
  split; [intros j Hj; lia|]. split; discriminate.
Qed.

(** The answers written by [handleAnswerSelect] on an unchecked question. *)
Lemma handleAnswerSelect_answers questions o s :
  progress questions s ->
  (currentQuestionIndex s < length questions)%nat ->
  isAnswerChecked s = false ->
  userAnswers (handleAnswerSelect o s) = <[currentQuestionIndex s := val o]> (userAnswers s).
Proof.
  intros (Hwf & Hua & _) Hi Hc. unfold handleAnswerSelect. rewrite Hc. simpl.
  rewrite (spread_settled _ Hua). apply set_in_range.
  destruct Hwf as (-> & _). exact Hi.
Qed.

Lemma handleSelfAssessment_assessments questions b s :
  progress questions s ->
  (currentQuestionIndex s < length questions)%nat ->
  selfAssessedCorrectness (handleSelfAssessment b s)
  = <[currentQuestionIndex s := val b]> (selfAssessedCorrectness s).
Proof.
  intros (Hwf & _ & Hsa & _) Hi. unfold handleSelfAssessment. simpl.
  rewrite (spread_settled _ Hsa). apply set_in_range.
  destruct Hwf as (_ & -> & _). exact Hi.
Qed.

Lemma completed_same questions s s' j :
  userAnswers s' !! j = userAnswers s !! j ->
  selfAssessedCorrectness s' !! j = selfAssessedCorrectness s !! j ->
  completed questions s j -> completed questions s' j.
Proof. unfold completed. intros -> ->. tauto. Qed.

(** The current question is completed when its next button is enabled. *)
Lemma next_enabled_completed questions s q :
  progress questions s ->
  questions !! currentQuestionIndex s = Some q ->
  isAnswerChecked s = true ->
  isNextButtonDisabled q s = false ->
  completed questions s (currentQuestionIndex s).
Proof.
  intros (Hwf & Hua & Hsa & _ & Hchecked & _) Hq Hc Hen.
  split; [apply Hchecked, Hc|].
  intros q' Hq' Hsa'. rewrite Hq in Hq'. injection Hq' as <-.
  unfold isNextButtonDisabled in Hen. rewrite Hc, Hsa' in Hen. simpl in Hen.
  apply get_not_null; [|exact Hsa | exact Hen].
  destruct Hwf as (_ & -> & _). eapply lookup_lt_Some. exact Hq.
Qed.

Lemma dispatch_progress questions e s s' out :
  progress questions s ->
  dispatch questions e s = Some (s', out) ->
  progress questions s'.
Proof.
  intros Hp Hd. unfold dispatch in Hd.
  destruct (enabled questions s e) eqn:Hen; [|injection Hd as <- <-; exact Hp].
  unfold enabled in Hen.
  destruct (showResults s) eqn:Hshow; [discriminate|].
  destruct (questions !! currentQuestionIndex s) as [q|] eqn:Hq; [|discriminate].
  assert (Hi : (currentQuestionIndex s < length questions)%nat)
    by (eapply lookup_lt_Some; exact Hq).
  pose proof Hp as (Hwf & Hua & Hsa & Hpast & Hchecked & Hfinal).
  destruct e as [o|v| |b|]; simpl in Hd.
  - (* an option is clicked *)
    injection Hd as <- <-.
    apply andb_prop in Hen as [_ Hnc]. apply negb_true_iff in Hnc.
    pose proof (handleAnswerSelect_answers questions o s Hp Hi Hnc) as Hans.
    assert (Hrest : handleAnswerSelect o s
                    = mkQuizState (currentQuestionIndex s)
                        (<[currentQuestionIndex s := val o]> (userAnswers s))
                        (isAnswerChecked s) (showResults s) (tempShortAnswer s)
                        (selfAssessedCorrectness s)).
    { rewrite <- Hans. unfold handleAnswerSelect. rewrite Hnc. reflexivity. }
    rewrite Hrest.
    split; [rewrite <- Hrest; apply QuizFacts.handleAnswerSelect_well_sized; assumption|].
    simpl. split; [apply Forall_insert; [exact Hua | right; eauto]|].
    split; [exact Hsa|]. split.
    + intros j Hj. eapply completed_same; [| |apply (Hpast j Hj)]; simpl;
        [apply list_lookup_insert_ne; lia | reflexivity].
    + split; [rewrite Hnc; discriminate | rewrite Hshow; discriminate].
  - (* the short answer is typed *)
    injection Hd as <- <-. unfold handleShortAnswerChange.
    destruct (isAnswerChecked s) eqn:Hc; [exact Hp|].
    split; [exact Hwf|]. simpl. split; [exact Hua|]. split; [exact Hsa|].
    split; [exact Hpast|]. split; [discriminate | rewrite Hshow; discriminate].
  - (* the answer is checked *)
    unfold handleCheckAnswer in Hd. rewrite Hq in Hd. injection Hd as <- <-.
    apply andb_prop in Hen as [Hnc Hnd].
    apply negb_true_iff in Hnc. apply negb_true_iff in Hnd.
    destruct (QuestionType_eqb (questionType q) short_answer) eqn:Hsa'.
    + pose proof (handleAnswerSelect_answers questions (tempShortAnswer s) s Hp Hi Hnc)
        as Hans.
      assert (Hrest : handleAnswerSelect (tempShortAnswer s) s
                      = mkQuizState (currentQuestionIndex s)
                          (<[currentQuestionIndex s := val (tempShortAnswer s)]>
                             (userAnswers s))
                          (isAnswerChecked s) (showResults s) (tempShortAnswer s)
                          (selfAssessedCorrectness s)).
      { rewrite <- Hans. unfold handleAnswerSelect. rewrite Hnc. reflexivity. }
      pose proof (QuizFacts.handleAnswerSelect_well_sized questions
                    (tempShortAnswer s) s Hi Hwf) as Hwf'.
      rewrite Hrest in *. unfold setIsAnswerChecked; simpl.
      split; [exact Hwf'|]. simpl.
      split; [apply Forall_insert; [exact Hua | right; eauto]|].
      split; [exact Hsa|]. split.
      * intros j Hj. eapply completed_same; [| |apply (Hpast j Hj)]; simpl;
          [apply list_lookup_insert_ne; lia | reflexivity].
      * split; [|rewrite Hshow; discriminate].
        intros _. eexists. apply list_lookup_insert_eq.
        destruct Hwf as (-> & _). exact Hi.
    + unfold setIsAnswerChecked; simpl.
      split; [exact Hwf|]. simpl. split; [exact Hua|]. split; [exact Hsa|].
      split; [exact Hpast|]. split; [|rewrite Hshow; discriminate].
      intros _. unfold isCheckAnswerDisabled in Hnd.
      rewrite Hsa' in Hnd. simpl in Hnd. rewrite andb_true_r in Hnd.
      apply get_not_null; [|exact Hua | exact Hnd].
      destruct Hwf as (-> & _). exact Hi.
  - (* the short answer is self-assessed *)
    injection Hd as <- <-.
    pose proof (handleSelfAssessment_assessments questions b s Hp Hi) as Hass.
    assert (Hrest : handleSelfAssessment b s
                    = mkQuizState (currentQuestionIndex s) (userAnswers s)
                        (isAnswerChecked s) (showResults s) (tempShortAnswer s)
                        (<[currentQuestionIndex s := val b]> (selfAssessedCorrectness s))).
    { rewrite <- Hass. reflexivity. }
    rewrite Hrest.
    split; [rewrite <- Hrest; apply QuizFacts.handleSelfAssessment_well_sized; assumption|].
    simpl. split; [exact Hua|].
    split; [apply Forall_insert; [exact Hsa | right; eauto]|]. split.
    + intros j Hj. eapply completed_same; [| |apply (Hpast j Hj)]; simpl;
        [reflexivity | apply list_lookup_insert_ne; lia].
    + split; [exact Hchecked | rewrite Hshow; discriminate].
  - (* next *)
    apply andb_prop in Hen as [Hc Hnd]. apply negb_true_iff in Hnd.
    pose proof (next_enabled_completed questions s q Hp Hq Hc Hnd) as Hcur.
    unfold handleNext in Hd.
    destruct (Z.ltb_spec (Z.of_nat (currentQuestionIndex s))
                (Z.of_nat (length questions) - 1)).
    + injection Hd as <- <-.
      split; [exact Hwf|]. simpl. split; [exact Hua|]. split; [exact Hsa|]. split.
      * intros j Hj. destruct (decide (j = currentQuestionIndex s)) as [->|Hne].
        -- exact Hcur.
        -- apply (Hpast j). lia.
      * split; [discriminate | rewrite Hshow; discriminate].
    + destruct (correctCount questions s); [|discriminate].
      injection Hd as <- <-.
      split; [exact Hwf|]. simpl. split; [exact Hua|]. split; [exact Hsa|].
      split; [exact Hpast|]. split; [exact Hchecked|].
      intros _ j Hj. destruct (decide (j = currentQuestionIndex s)) as [->|Hne].
      * exact Hcur.
      * apply (Hpast j). lia.
Qed.

(** What one event can emit: nothing, or one submission that ends the quiz. *)
Lemma dispatch_emits questions e s s' out :
  dispatch questions e s = Some (s', out) ->
  out = [] \/ (exists sub, out = [sub] /\ showResults s' = true).
Proof.
  unfold dispatch. destruct (enabled questions s e); [|intros [= <- <-]; left; reflexivity].
  destruct e as [o|v| |b|]; simpl.
  - intros [= <- <-]; left; reflexivity.
  - intros [= <- <-]; left; reflexivity.
  - destruct (handleCheckAnswer questions s); intros [= <- <-]; left; reflexivity.
  - intros [= <- <-]; left; reflexivity.
  - unfold handleNext. destruct (_ <? _)%Z; [intros [= <- <-]; left; reflexivity|].
    destruct (correctCount questions s); [|discriminate].
    intros [= <- <-]. right. eexists. split; reflexivity.
Qed.

(** Once the result is shown no control is left. *)
Lemma run_after_results questions events s :
  showResults s = true -> run questions events s = Some (s, []).
Proof.
  intros Hshow. induction events as [|e events IH]; simpl; [reflexivity|].
  unfold dispatch, enabled. rewrite Hshow, IH. reflexivity.
Qed.

Lemma run_progress questions events s s' out :
  progress questions s ->
  run questions events s = Some (s', out) ->
  progress questions s'
  /\ (out = [] \/ (exists sub, out = [sub] /\ showResults s' = true)).
Proof.
  revert s out. induction events as [|e events IH]; intros s out Hp Hrun; simpl in Hrun.
  - injection Hrun as <- <-. split; [exact Hp | left; reflexivity].
  - destruct (dispatch questions e s) as [[s1 out1]|] eqn:Hd; [|discriminate].
    pose proof (dispatch_progress questions e s s1 out1 Hp Hd) as Hp1.
    destruct (dispatch_emits questions e s s1 out1 Hd) as [-> | (sub & -> & Hshow)].
    + destruct (run questions events s1) as [[s2 out2]|] eqn:Hrest; [|discriminate].
      injection Hrun as <- <-. simpl. apply (IH s1 out2 Hp1 Hrest).
    + rewrite (run_after_results questions events s1 Hshow) in Hrun.
      injection Hrun as <- <-. split; [exact Hp1|].
      right. exists sub. split; [reflexivity | exact Hshow].
Qed.

(** X1. Whatever the user does, the runner calls [onSubmit] at most once,
    and when it has called it the result is shown and no further event
    changes anything. *)
Theorem at_most_one_submission
    (questions : list QuizQuestion) (events later : list Event)
    (s : QuizState) (out : list Submission) :
  run questions events (initial questions) = Some (s, out) ->
  (length out <= 1)%nat
  /\ (out <> [] ->
      showResults s = true /\ run questions later s = Some (s, [])).
Proof.
  intros Hrun.
  destruct (run_progress questions events _ s out (initial_progress questions) Hrun)
    as [_ [-> | (sub & -> & Hshow)]].
  - split; [simpl; lia | congruence].
  - split; [simpl; lia|]. intros _.
    split; [exact Hshow | apply run_after_results; exact Hshow].
Qed.

Lemma at_most_one_submission_witness :
  exists s out,
    run Scenario.questions3 Scenario.session3 (initial Scenario.questions3)
    = Some (s, out)
    /\ length out = 1%nat
    /\ (length out <= 1)%nat
    /\ (out <> [] ->
        showResults s = true
        /\ run Scenario.questions3 [ClickNext; ClickOption "X"] s = Some (s, [])).
Proof.
  eexists _, _. split; [vm_compute; reflexivity|].
  split; [reflexivity|].
  apply (at_most_one_submission Scenario.questions3 Scenario.session3
           [ClickNext; ClickOption "X"]).
  vm_compute. reflexivity.
Defined.

(** X2. A result is only ever submitted for a complete quiz: when [onSubmit]
    has been called, every question has a recorded string as its answer and
    every short-answer question a recorded self-assessment. *)
Theorem submission_only_when_complete
    (questions : list QuizQuestion) (events : list Event)
    (s : QuizState) (out : list Submission) (j : nat) (q : QuizQuestion) :
  run questions events (initial questions) = Some (s, out) ->
  out <> [] ->
  questions !! j = Some q ->
  (exists a, userAnswers s !! j = Some (val a))
  /\ (questionType q = short_answer ->
      exists b, selfAssessedCorrectness s !! j = Some (val b)).
Proof.
  intros Hrun Hout Hq.
  destruct (run_progress questions events _ s out (initial_progress questions) Hrun)
    as [Hp [-> | (sub & -> & Hshow)]]; [congruence|].
  destruct Hp as (_ & _ & _ & _ & _ & Hfinal).
  destruct (Hfinal Hshow j) as [Hans Hsa]; [eapply lookup_lt_Some; exact Hq|].
  split; [exact Hans | apply Hsa; exact Hq].
Qed.

Lemma submission_only_when_complete_witness :
  exists s out,
    run Scenario.questions3 Scenario.session3 (initial Scenario.questions3)
    = Some (s, out)
    /\ out <> []
    /\ (exists a, userAnswers s !! 1%nat = Some (val a))
    /\ (short_answer = short_answer ->
        exists b, selfAssessedCorrectness s !! 1%nat = Some (val b)).
Proof.
  eexists _, _. split; [vm_compute; reflexivity|].
  split; [discriminate|].
  eapply (submission_only_when_complete Scenario.questions3 Scenario.session3 _ _ 1%nat
            (mkQuizQuestion "q2" short_answer None "Paris" "e2")).
  - vm_compute. reflexivity.
  - discriminate.
  - reflexivity.
Defined.

End QuizWalk.

(* ===================================================================== *)
(** ** The quiz runner: locked answers and the range of the score         *)
(* ===================================================================== *)

Module QuizLocks.
Import Types Quiz QuizProgress.

Lemma dispatch_locked questions e s s' out :
  progress questions s ->
  dispatch questions e s = Some (s', out) ->
  (currentQuestionIndex s <= currentQuestionIndex s')%nat
  /\ (forall j, locked s j ->
        locked s' j /\ userAnswers s' !! j = userAnswers s !! j)
  /\ (forall j b, selfAssessedCorrectness s !! j = Some (val b) ->
        selfAssessedCorrectness s' !! j = Some (val b)).
Proof.
  intros Hp Hd. unfold dispatch in Hd.
  destruct (enabled questions s e) eqn:Hen;
    [|injection Hd as <- <-; split; [lia|]; split; [intros j Hj; split; [exact Hj | reflexivity] | tauto]].
  unfold enabled in Hen.
  destruct (showResults s) eqn:Hshow; [discriminate|].
  destruct (questions !! currentQuestionIndex s) as [q|] eqn:Hq; [|discriminate].
  assert (Hi : (currentQuestionIndex s < length questions)%nat)
    by (eapply lookup_lt_Some; exact Hq).
  pose proof Hp as (Hwf & Hua & Hsa & _).
  destruct e as [o|v| |b|]; simpl in Hd.
  - injection Hd as <- <-.
    apply andb_prop in Hen as [_ Hnc]. apply negb_true_iff in Hnc.
    pose proof (QuizWalk.handleAnswerSelect_answers questions o s Hp Hi Hnc) as Hans.
    unfold handleAnswerSelect in *. rewrite Hnc in *. simpl in *.
    split; [lia|]. split; [|tauto].
    intros j [Hj | [-> Hc]]; [|congruence].
    split; [left; exact Hj|]. rewrite Hans. apply list_lookup_insert_ne. lia.
  - injection Hd as <- <-. unfold handleShortAnswerChange.
    destruct (isAnswerChecked s) eqn:Hc; simpl.
    + split; [lia|]. split; [intros j Hj; split; [exact Hj | reflexivity] | tauto].
    + split; [lia|]. split; [|tauto].
      intros j [Hj | [-> Hc']]; [|congruence].
      split; [left; exact Hj | reflexivity].
  - unfold handleCheckAnswer in Hd. rewrite Hq in Hd. injection Hd as <- <-.
    apply andb_prop in Hen as [Hnc _]. apply negb_true_iff in Hnc.
    destruct (QuestionType_eqb (questionType q) short_answer).
    + pose proof (QuizWalk.handleAnswerSelect_answers questions (tempShortAnswer s) s
                    Hp Hi Hnc) as Hans.
      unfold handleAnswerSelect in *. rewrite Hnc in *. simpl in *.
      split; [lia|]. split; [|tauto].
      intros j [Hj | [-> Hc]]; [|congruence].
      split; [left; exact Hj|]. rewrite Hans. apply list_lookup_insert_ne. lia.
    + simpl. split; [lia|]. split; [|tauto].
      intros j [Hj | [-> Hc]]; [|congruence].
      split; [left; exact Hj | reflexivity].
  - injection Hd as <- <-.
    pose proof (QuizWalk.handleSelfAssessment_assessments questions b s Hp Hi) as Hass.
    apply andb_prop in Hen as [_ Hnull].
    split; [simpl; lia|]. split.
    + intros j Hj. split; [exact Hj | reflexivity].
    + intros j b' Hjb. rewrite Hass.
      destruct (decide (j = currentQuestionIndex s)) as [->|Hne];
        [|rewrite list_lookup_insert_ne by congruence; exact Hjb].
      unfold JsArray.get in Hnull. rewrite Hjb in Hnull. discriminate.
  - apply andb_prop in Hen as [Hc _]. unfold handleNext in Hd.
    destruct (_ <? _)%Z.
    + injection Hd as <- <-. simpl. split; [lia|]. split; [|tauto].
      intros j Hj. split; [|reflexivity]. left. simpl.
      destruct Hj as [Hj | [-> _]]; lia.
    + destruct (correctCount questions s); [|discriminate].
      injection Hd as <- <-. simpl. split; [lia|]. split; [|tauto].
      intros j Hj. split; [exact Hj | reflexivity].
Qed.

(** X3. Answers are final once given up: from any state the runner reaches,
    no later event moves back to an earlier question, changes the recorded
    answer of a question that was passed or of the current question once it
    is checked, or overwrites a recorded self-assessment. *)
Theorem answers_are_final
    (questions : list QuizQuestion) (events later : list Event)
    (s1 s2 : QuizState) (out1 out2 : list Submission) :
  run questions events (initial questions) = Some (s1, out1) ->
  run questions later s1 = Some (s2, out2) ->
  (currentQuestionIndex s1 <= currentQuestionIndex s2)%nat
  /\ (forall j, locked s1 j -> userAnswers s2 !! j = userAnswers s1 !! j)
  /\ (forall j b, selfAssessedCorrectness s1 !! j = Some (val b) ->
        selfAssessedCorrectness s2 !! j = Some (val b)).
Proof.
  intros Hreach Hlater.
  destruct (QuizWalk.run_progress questions events _ s1 out1
              (QuizWalk.initial_progress questions) Hreach) as [Hp _].
  clear Hreach. revert s1 out2 Hp Hlater.
  induction later as [|e later IH]; intros s1 out2 Hp Hlater; simpl in Hlater.
  - injection Hlater as <- <-. split; [lia|]. split; [reflexivity | tauto].
  - destruct (dispatch questions e s1) as [[s out]|] eqn:Hd; [|discriminate].
    destruct (run questions later s) as [[s' out']|] eqn:Hrest; [|discriminate].
    injection Hlater as <- <-.
    destruct (dispatch_locked questions e s1 s out Hp Hd) as (Hidx & Hlock & Hsa).
    destruct (IH s out' (QuizWalk.dispatch_progress questions e s1 s out Hp Hd) Hrest)
      as (Hidx' & Hlock' & Hsa').
    split; [lia|]. split.
    + intros j Hj. destruct (Hlock j Hj) as [Hj' Heq].
      rewrite (Hlock' j Hj'). exact Heq.
    + intros j b Hjb. apply Hsa', Hsa, Hjb.
Qed.

Lemma answers_are_final_witness :
  exists s1 s2 out2,
    run Scenario.questions3 (firstn 2 Scenario.session3) (initial Scenario.questions3)
    = Some (s1, [])
    /\ locked s1 0%nat
    /\ run Scenario.questions3 (ClickOption "A" :: skipn 2 Scenario.session3) s1
       = Some (s2, out2)
    /\ userAnswers s2 !! 0%nat = Some (val "B").
Proof.
  eexists _, _, _. split; [vm_compute; reflexivity|].
  split; [right; split; reflexivity|].
  split; [vm_compute; reflexivity|].
  refine (eq_trans
            (proj1 (proj2 (answers_are_final Scenario.questions3
                             (firstn 2 Scenario.session3)
                             (ClickOption "A" :: skipn 2 Scenario.session3)
                             _ _ [] _ _ _)) 0%nat _) _).
  - vm_compute. reflexivity.
  - vm_compute. reflexivity.
  - right. split; reflexivity.
  - reflexivity.
Defined.

Lemma scorePercentage_range (correct total : nat) :
  (correct <= total)%nat ->
  (0 <= scorePercentage correct total)%Q /\ (scorePercentage correct total <= 100)%Q.
Proof.
  intros Hle. unfold scorePercentage.
  destruct total as [|total].
  - replace correct with 0%nat by lia. split; vm_compute; discriminate.
  - assert (Hpos : (0 < inject_Z (Z.of_nat (S total)))%Q).
    { unfold Qlt, inject_Z; simpl. lia. }
    assert (H0 : (0 <= inject_Z (Z.of_nat correct) / inject_Z (Z.of_nat (S total)))%Q).
    { apply Qle_shift_div_l; [exact Hpos|].
      unfold Qle, inject_Z; simpl. lia. }
    assert (H1 : (inject_Z (Z.of_nat correct) / inject_Z (Z.of_nat (S total)) <= 1)%Q).
    { apply Qle_shift_div_r; [exact Hpos|].
      unfold Qle, inject_Z; simpl. lia. }
    split.
    + apply Qmult_le_0_compat; [exact H0 | discriminate].
    + apply Qle_trans with (1 * 100)%Q;
        [apply Qmult_le_compat_r; [exact H1 | discriminate] | discriminate].
Qed.

(** X4. Every score the runner submits lies between 0 and 100. *)
Theorem submitted_score_in_range
    (questions : list QuizQuestion) (events : list Event)
    (s : QuizState) (out : list Submission) (sub : Submission) :
  run questions events (initial questions) = Some (s, out) ->
  In sub out ->
  (0 <= sub_score sub)%Q /\ (sub_score sub <= 100)%Q.
Proof.
  intros Hrun Hin.
  destruct (QuizFacts.run_ok questions events (initial questions)
              (QuizFacts.initial_well_sized questions))
    as (s' & out' & Hrun' & _ & Hout).
  rewrite Hrun in Hrun'. injection Hrun' as <- <-.
  rewrite Forall_forall in Hout.
  destruct (Hout sub) as (_ & Hle & ->); [apply list_elem_of_In; exact Hin|].
  apply scorePercentage_range. exact Hle.
Qed.

Lemma submitted_score_in_range_witness :
  (0 <= scorePercentage 2 3)%Q /\ (scorePercentage 2 3 <= 100)%Q.
Proof.
  eapply (submitted_score_in_range Scenario.questions3 Scenario.session3 _ _
            (mkSubmission (scorePercentage 2 3) 2 3)).
  - vm_compute. reflexivity.
  - left. reflexivity.
Defined.

End QuizLocks.

(* ===================================================================== *)
(** ** The gateway: the shared client and the errors that leave it        *)
(* ===================================================================== *)

Module GatewayMore.
Import Types Gateway GatewayKeys.

Lemma initializeAi_world apiKey w :
  snd (initializeAi apiKey w)
  = if String.eqb apiKey "" then w
    else {| ai := Some (mkGoogleGenAI apiKey); calls := calls w; console := console w |}.
Proof. unfold initializeAi. destruct (String.eqb apiKey ""); reflexivity. Qed.

Lemma initializeAll_snoc keys apiKey w :
  initializeAll (keys ++ [apiKey]) w = snd (initializeAi apiKey (initializeAll keys w)).
Proof. unfold initializeAll. rewrite fold_left_app. reflexivity. Qed.

(** X5. After any series of [initializeAi] calls the shared client is the
    one built from the last non-empty key; the calls with an empty key
    throw and leave the client in place.  Nothing else of the world is
    touched, and [getAi] returns that client, or throws when there is
    none. *)
Theorem shared_client_is_last_accepted_key (keys : list string) (w : World) :
  let w' := initializeAll keys w in
  ai w' = match lastAccepted keys with
          | Some k => Some (mkGoogleGenAI k)
          | None => ai w
          end
  /\ calls w' = calls w
  /\ console w' = console w
  /\ getAi w' = match ai w' with
                | Some client => (Returned client, w')
                | None => (Threw (ErrorObject MSG_UNINITIALIZED), w')
                end
  /\ initializeAi "" w' = (Threw (ErrorObject MSG_NO_KEY), w').
Proof.
  cbv zeta. split; [|split; [|split; [|split]]].
  - induction keys as [|k keys IH] using rev_ind; [reflexivity|].
    rewrite initializeAll_snoc, initializeAi_world.
    unfold lastAccepted in *. rewrite filter_app.
    destruct (String.eqb_spec k "") as [->|Hk].
    + rewrite filter_cons_False by congruence. rewrite filter_nil, app_nil_r. exact IH.
    + rewrite filter_cons_True by exact Hk. rewrite filter_nil, last_snoc. reflexivity.
  - induction keys as [|k keys IH] using rev_ind; [reflexivity|].
    rewrite initializeAll_snoc, initializeAi_world.
    destruct (String.eqb k ""); [exact IH | simpl; exact IH].
  - induction keys as [|k keys IH] using rev_ind; [reflexivity|].
    rewrite initializeAll_snoc, initializeAi_world.
    destruct (String.eqb k ""); [exact IH | simpl; exact IH].
  - unfold getAi. destruct (ai (initializeAll keys w)); reflexivity.
  - reflexivity.
Qed.

(** X6. Whatever the backend does, [generateQuestions] either returns
    without writing to the console, or throws an [Error] whose message is
    one of the three normalised ones after writing the raw error to the
    console exactly once.  It never changes the shared client. *)
Theorem generateQuestions_errors_are_normalised
    (env : Env) (standardDescription : string)
    (requests : list QuestionRequest) (w : World) :
  let result := generateQuestions env standardDescription requests w in
  ai (snd result) = ai w
  /\ match fst result with
     | Returned _ => console (snd result) = console w
     | Threw error =>
         exists message raw,
           error = ErrorObject message
           /\ normalised message
           /\ console (snd result) = console w ++ [raw]
           /\ (message = MSG_INVALID_KEY <-> is_auth_failure raw = true)
     end.
Proof.
  cbv zeta.
  assert (Hthrow : forall raw w0,
             ai w0 = ai w -> console w0 = console w ->
             let r := @handleApiError json env raw w0 in
             ai (snd r) = ai w
             /\ exists message raw',
                 fst r = Threw (ErrorObject message)
                 /\ normalised message
                 /\ console (snd r) = console w ++ [raw']
                 /\ (message = MSG_INVALID_KEY <-> is_auth_failure raw' = true)).
  { intros raw w0 Hai Hcon. cbv zeta.
    destruct (@GatewayFacts.handleApiError_throws json env raw w0) as (m & -> & ->).
    simpl. split; [exact Hai|]. eexists _, raw. split; [reflexivity|].
    rewrite Hcon. unfold normalised.
    destruct (is_auth_failure raw); [|destruct (fileProtocol env)].
    - split; [tauto|]. split; [reflexivity | tauto].
    - split; [tauto|]. split; [reflexivity|].
      split; [intros H; vm_compute in H; congruence | discriminate].
    - split; [tauto|]. split; [reflexivity|].
      split; [intros H; vm_compute in H; congruence | discriminate]. }
  unfold generateQuestions, try_catch, bind, getAi, generateContent, JSON_parse.
  destruct (totalQuestions requests =? 0)%Z; [split; reflexivity|].
  destruct (ai w) as [client|] eqn:Hai.
  - destruct (backend env client _) as [error|[message|v]]; simpl.
    + match goal with
      | |- context [handleApiError env ?raw ?w0] =>
          destruct (Hthrow raw w0 Hai eq_refl) as (H1 & m & raw' & H2 & H3 & H4 & H5)
      end.
      split; [exact H1|]. rewrite H2. eauto 10.
    + match goal with
      | |- context [handleApiError env ?raw ?w0] =>
          destruct (Hthrow raw w0 Hai eq_refl) as (H1 & m & raw' & H2 & H3 & H4 & H5)
      end.
      split; [exact H1|]. rewrite H2. eauto 10.
    + split; [exact Hai | reflexivity].
  - match goal with
    | |- context [handleApiError env ?raw ?w0] =>
        destruct (Hthrow raw w0 Hai eq_refl) as (H1 & m & raw' & H2 & H3 & H4 & H5)
    end.
    split; [congruence|]. rewrite H2. eauto 10.
Qed.

(** X7. Called before [initializeAi] with a positive total,
    [generateQuestions] makes no backend call: the "not initialised" error
    of [getAi] is caught, written to the console, and what the caller gets
    is the communication message (the file-protocol one on a [file:] page). *)
Theorem generateQuestions_before_initialize
    (env : Env) (standardDescription : string)
    (requests : list QuestionRequest) (w : World) :
  ai w = None ->
  totalQuestions requests <> 0%Z ->
  generateQuestions env standardDescription requests w
  = (Threw (ErrorObject (if fileProtocol env then MSG_FILE_PROTOCOL
                         else MSG_COMMUNICATION)),
     {| ai := None; calls := calls w;
        console := console w ++ [ErrorObject MSG_UNINITIALIZED] |}).
Proof.
  intros Hai Htotal.
  unfold generateQuestions, try_catch, bind, getAi.
  destruct (Z.eqb_spec (totalQuestions requests) 0); [contradiction|].
  rewrite Hai.
  destruct (@GatewayFacts.handleApiError_throws json env (ErrorObject MSG_UNINITIALIZED) w)
    as (m & -> & ->).
  rewrite Hai.
  replace (is_auth_failure (ErrorObject MSG_UNINITIALIZED)) with false
    by (vm_compute; reflexivity).
  reflexivity.
Qed.

Lemma generateQuestions_before_initialize_witness :
  generateQuestions (Scenario.replying (Responds (Json Scenario.onSchema))) "standard"
    Scenario.oneOx Scenario.uninitialised
  = (Threw (ErrorObject MSG_COMMUNICATION),
     {| ai := None; calls := [];
        console := [ErrorObject MSG_UNINITIALIZED] |}).
Proof.
  exact (generateQuestions_before_initialize
           (Scenario.replying (Responds (Json Scenario.onSchema))) "standard"
           Scenario.oneOx Scenario.uninitialised eq_refl ltac:(discriminate)).
Defined.

End GatewayMore.

(* ===================================================================== *)
(** ** The gateway: streams and speech                                    *)
(* ===================================================================== *)

Module GatewayMediaFacts.
Import Types Gateway GatewayKeys GatewayMedia.

Lemma lift_handleApiError {A} menv error mw :
  lift (@handleApiError A (env menv) error) mw
  = (Threw (ErrorObject (if is_auth_failure error then MSG_INVALID_KEY
                         else failureMessage menv)),
     logged error mw).
Proof.
  unfold lift.
  destruct (@GatewayFacts.handleApiError_throws A (env menv) error (world mw))
    as (m & -> & ->).
  unfold failureMessage, logged. destruct (is_auth_failure error); reflexivity.
Qed.

Lemma internal_errors_are_no_auth_failure :
  is_auth_failure (ErrorObject MSG_UNINITIALIZED) = false
  /\ is_auth_failure (ErrorObject MSG_NO_AUDIO) = false.
Proof. split; vm_compute; reflexivity. Qed.



(** X9. Before [initializeAi] none of the three operations reaches the
    backend: the "not initialised" error is written to the console and the
    caller gets the communication message (the file-protocol one on a
    [file:] page). *)
Theorem media_operations_before_initialize
    (menv : MediaEnv) (mw : MediaWorld)
    (standardDescription initialExplanation userQuestion textToSpeak : string)
    (conversationHistory : list ConversationMessage) (voice : TTSVoice) :
  ai (world mw) = None ->
  let failed {A} : Outcome A * MediaWorld :=
    (Threw (ErrorObject (failureMessage menv)),
     logged (ErrorObject MSG_UNINITIALIZED) mw) in
  getExplanationStream menv standardDescription mw = failed
  /\ getFollowUpAnswerStream menv standardDescription initialExplanation
       conversationHistory userQuestion mw = failed
  /\ generateSpeech menv textToSpeak voice mw = failed
  /\ mediaCalls (logged (ErrorObject MSG_UNINITIALIZED) mw) = mediaCalls mw.
Proof.
  intros Hai. cbv zeta.
  assert (H : forall A (k : GoogleGenAI -> MM A),
             try_catchM (bindM (lift getAi) k)
               (fun error => lift (handleApiError (env menv) error)) mw
             = (Threw (ErrorObject (failureMessage menv)),
                logged (ErrorObject MSG_UNINITIALIZED) mw)).
  { intros A k. unfold try_catchM, bindM. unfold lift at 1. unfold getAi.
    rewrite Hai. cbv beta iota zeta. rewrite lift_handleApiError.
    rewrite (proj1 internal_errors_are_no_auth_failure).
    destruct mw as [w mc]. simpl in *. destruct w; simpl in *. subst. reflexivity. }
  split; [apply H|]. split; [apply H|]. split; [apply H | reflexivity].
Qed.

Lemma media_operations_before_initialize_witness :
  let menv := mkMediaEnv (Scenario.replying (Rejects OtherValue))
                (fun _ _ => inr (mkStream ["a"] None))
                (fun _ _ => inl OtherValue) in
  let mw := mkMediaWorld Scenario.uninitialised [] in
  getExplanationStream menv "standard" mw
  = (Threw (ErrorObject MSG_COMMUNICATION),
     logged (ErrorObject MSG_UNINITIALIZED) mw).
Proof.
  exact (proj1 (media_operations_before_initialize
                  (mkMediaEnv (Scenario.replying (Rejects OtherValue))
                     (fun _ _ => inr (mkStream ["a"] None))
                     (fun _ _ => inl OtherValue))
                  (mkMediaWorld Scenario.uninitialised [])
                  "standard" "" "" "" [] Kore eq_refl)).
Defined.

(** [getExplanationStream] case by case. *)
Lemma getExplanationStream_cases menv standardDescription mw :
  getExplanationStream menv standardDescription mw
  = match ai (world mw) with
    | None =>
        (Threw (ErrorObject (failureMessage menv)),
         logged (ErrorObject MSG_UNINITIALIZED) mw)
    | Some client =>
        match streamBackend menv client (ExplanationRequest standardDescription) with
        | inl error =>
            (Threw (ErrorObject (if is_auth_failure error then MSG_INVALID_KEY
                                 else failureMessage menv)),
             logged error (called client (ExplanationRequest standardDescription) mw))
        | inr stream =>
            (Returned stream, called client (ExplanationRequest standardDescription) mw)
        end
    end.
Proof.
  unfold getExplanationStream, try_catchM, bindM, generateContentStream.
  unfold lift at 1. unfold getAi.
  destruct (ai (world mw)) as [client|] eqn:Hai; cbv beta iota zeta;
    cbn [world mediaCalls].
  - destruct (streamBackend menv client _) as [error|stream]; cbv beta iota zeta.
    + rewrite lift_handleApiError. reflexivity.
    + unfold retM, called. destruct mw; reflexivity.
  - rewrite lift_handleApiError.
    rewrite (proj1 internal_errors_are_no_auth_failure).
    destruct mw as [w mc]. destruct w. simpl in Hai. subst. reflexivity.
Qed.

(** What [getExplanationStream] gives its caller. *)
Lemma getExplanationStream_outcome menv standardDescription mw :
  (exists stream, fst (getExplanationStream menv standardDescription mw)
                  = Returned stream)
  \/ (exists message,
        fst (getExplanationStream menv standardDescription mw)
        = Threw (ErrorObject message)
        /\ normalised message).
Proof.
  rewrite getExplanationStream_cases.
  assert (Hn : normalised (failureMessage menv)).
  { unfold normalised, failureMessage. destruct (fileProtocol (env menv)); tauto. }
  destruct (ai (world mw)) as [client|].
  - destruct (streamBackend menv client _) as [error|stream].
    + right. eexists. split; [reflexivity|].
      destruct (is_auth_failure error); [left; reflexivity | exact Hn].
    + left. eexists. reflexivity.
  - right. eexists. split; [reflexivity | exact Hn].
Qed.

Lemma normalised_not_empty message : normalised message -> String.eqb message "" = false.
Proof. intros [-> | [-> | ->]]; vm_compute; reflexivity. Qed.

(** X10. [fetchExplanation] on what [getExplanationStream] gives, with no
    teardown.  When the gateway throws, the error shown is its normalised
    message and no text.  When the stream is delivered, the text shown is
    the concatenation of its chunks; if its iteration throws, the message
    of that raw error is shown as it is.  In every case loading and
    streaming are over.  The question form is rendered when the stream
    ended, never after a gateway error, and after an iteration error only
    if its message is empty. *)
Theorem explanation_of_gateway_stream
    (menv : MediaEnv) (standardDescription : string) (mw : MediaWorld) :
  let r := fst (getExplanationStream menv standardDescription mw) in
  exists s,
    Session.steps (map Session.ExplanationStream (streamEvents r)) Session.mounted
    = Some s
    /\ Session.isLoadingExplanation (Session.expl s) = false
    /\ Session.isStreamingExplanation (Session.expl s) = false
    /\ match r with
       | Threw error =>
           exists message,
             error = ErrorObject message /\ normalised message
             /\ Session.explanation (Session.expl s) = ""
             /\ Session.explanationError (Session.expl s) = Some message
             /\ Session.formRendered (Session.expl s) = false
       | Returned stream =>
           Session.explanation (Session.expl s) = String.concat "" (chunks stream)
           /\ match failure stream with
              | None =>
                  Session.explanationError (Session.expl s) = None
                  /\ Session.formRendered (Session.expl s) = true
              | Some error =>
                  Session.explanationError (Session.expl s)
                  = Some (Session.message_or "설명을 불러오는 데 실패했습니다." error)
                  /\ Session.formRendered (Session.expl s)
                     = String.eqb
                         (Session.message_or "설명을 불러오는 데 실패했습니다." error) ""
              end
       end.
Proof.
  cbv zeta. rewrite SessionFacts.steps_explanation_only.
  eexists. split; [reflexivity|]. cbn [Session.expl].
  destruct (getExplanationStream_outcome menv standardDescription mw)
    as [(stream & ->) | (message & -> & Hn)].
  - cbn [streamEvents].
    change (Session.resume_all (Session.Ready :: ?l) (Session.expl Session.mounted))
      with (Session.resume_all l
              (Session.fetchExplanation_resume Session.Ready
                 Session.fetchExplanation_start)).
    rewrite SessionFacts.resume_all_app.
    set (x0 := Session.fetchExplanation_resume Session.Ready
                 Session.fetchExplanation_start).
    destruct (SessionFacts.resume_chunks (chunks stream) x0)
      as (H1 & H2 & H3 & H4 & H5 & H6 & H7); [reflexivity ..|].
    set (x := Session.resume_all (map Session.Chunk (chunks stream)) x0) in *.
    destruct (failure stream) as [error|].
    + change (Session.resume_all [Session.Failed error] x)
        with (Session.fetchExplanation_resume (Session.Failed error) x).
      unfold Session.fetchExplanation_resume, Session.fetchExplanation_catch,
        Session.fetchExplanation_finally.
      rewrite H3, H4. unfold Session.formRendered. simpl. rewrite ?H4. simpl.
      rewrite H1. repeat split; reflexivity.
    + change (Session.resume_all [Session.End_] x)
        with (Session.fetchExplanation_resume Session.End_ x).
      unfold Session.fetchExplanation_resume, Session.fetchExplanation_finally.
      rewrite H3, H4. unfold Session.formRendered. simpl. rewrite ?H4. simpl.
      rewrite H1, H5, H7. repeat split; reflexivity.
  - cbn [streamEvents map].
    split; [reflexivity|]. split; [reflexivity|].
    exists message. split; [reflexivity|]. split; [exact Hn|].
    split; [reflexivity|]. split; [reflexivity|].
    unfold Session.formRendered. simpl.
    rewrite (normalised_not_empty message Hn). reflexivity.
Qed.

End GatewayMediaFacts.

(* ===================================================================== *)
(** ** Audio decoding                                                     *)
(* ===================================================================== *)

Module AudioFacts.
Import Audio.






End AudioFacts.

(* ===================================================================== *)
(** ** Composing the quiz: counts and the request                         *)
(* ===================================================================== *)

Module QuizSetupFacts.
Import Types Gateway QuizSetup.

Lemma edit_non_negative type value c :
  nonNegative c -> nonNegative (handleQuestionCountChange type value c).
Proof.
  unfold nonNegative, handleQuestionCountChange, setCount.
  intros (H1 & H2 & H3). destruct type; simpl; repeat split; lia.
Qed.

Lemma editCounts_non_negative events c :
  nonNegative c -> nonNegative (editCounts events c).
Proof.
  revert c. induction events as [|e events IH]; intros c Hc; [exact Hc|].
  apply IH. destruct e; [apply edit_non_negative; exact Hc|].
  unfold nonNegative; simpl. lia.
Qed.








End QuizSetupFacts.

(* ===================================================================== *)
(** ** Composing the quiz: the request                                    *)
(* ===================================================================== *)

Module QuizRequestFacts.
Import Types Gateway QuizSetup.

(** The requests [handleGenerateQuiz] keeps, one case per kind. *)
Lemma positive_entries c :
  filter (fun req => (0 <? count req)%Z = true) (entries c)
  = (if (0 <? count_mc c)%Z then [mkQuestionRequest multiple_choice (count_mc c)] else [])
    ++ (if (0 <? count_sa c)%Z then [mkQuestionRequest short_answer (count_sa c)] else [])
    ++ (if (0 <? count_ox c)%Z then [mkQuestionRequest ox (count_ox c)] else []).
Proof.
  unfold entries. rewrite !filter_cons, filter_nil. simpl.
  destruct (0 <? count_mc c)%Z, (0 <? count_sa c)%Z, (0 <? count_ox c)%Z; reflexivity.
Qed.

Lemma positive_entries_total c :
  nonNegative c ->
  totalQuestions (filter (fun req => (0 <? count req)%Z = true) (entries c))
  = (count_mc c + count_sa c + count_ox c)%Z.
Proof.
  intros (H1 & H2 & H3). rewrite positive_entries. unfold totalQuestions.
  destruct (Z.ltb_spec 0 (count_mc c)), (Z.ltb_spec 0 (count_sa c)),
    (Z.ltb_spec 0 (count_ox c)); simpl; lia.
Qed.

Lemma positive_entries_again c :
  filter (fun req => (0 <? count req)%Z = true)
    (filter (fun req => (0 <? count req)%Z = true) (entries c))
  = filter (fun req => (0 <? count req)%Z = true) (entries c).
Proof.
  rewrite positive_entries.
  destruct (0 <? count_mc c)%Z eqn:H1, (0 <? count_sa c)%Z eqn:H2,
    (0 <? count_ox c)%Z eqn:H3; simpl;
    rewrite ?filter_cons, ?filter_nil; simpl; rewrite ?H1, ?H2, ?H3; reflexivity.
Qed.

(** X13. With no positive count [handleGenerateQuiz] refuses on its own:
    the validation message is set, the questions and the world are left as
    they were, so neither [generateQuestions] nor the backend is reached.
    With the counts the inputs can produce, this is exactly when the button
    is disabled for want of a request. *)
Theorem empty_request_is_refused
    (env : Env) (standardDescription : string) (events : list CountEvent)
    (comp : Composition) (w : World) :
  questionCounts comp = editCounts events defaultQuestionCounts ->
  isGeneratingQuestions comp = false ->
  generateDisabled comp = true ->
  handleGenerateQuiz env standardDescription comp w
  = (mkComposition (questionCounts comp) (questions comp) false (Some MSG_NEED_ONE), w).
Proof.
  intros Hcounts Hgen Hdis.
  unfold generateDisabled in Hdis. rewrite Hgen in Hdis. simpl in Hdis.
  apply andb_prop in Hdis as [Hdis Hox]. apply andb_prop in Hdis as [Hmc Hsa].
  apply Z.eqb_eq in Hmc, Hsa, Hox.
  unfold handleGenerateQuiz. rewrite positive_entries, Hmc, Hsa, Hox. reflexivity.
Qed.

Lemma empty_request_is_refused_witness :
  let comp := mkComposition
                (editCounts [EditCount multiple_choice "0"; EditCount short_answer "";
                             EditCount ox "-2"] defaultQuestionCounts)
                None false None in
  handleGenerateQuiz (Scenario.replying (Responds (Json Scenario.onSchema))) "standard"
    comp Scenario.initialised
  = (mkComposition (questionCounts comp) None false (Some MSG_NEED_ONE),
     Scenario.initialised).
Proof.
  exact (empty_request_is_refused
           (Scenario.replying (Responds (Json Scenario.onSchema))) "standard"
           [EditCount multiple_choice "0"; EditCount short_answer "";
            EditCount ox "-2"]
           (mkComposition
              (editCounts [EditCount multiple_choice "0"; EditCount short_answer "";
                           EditCount ox "-2"] defaultQuestionCounts)
              None false None)
           Scenario.initialised eq_refl eq_refl eq_refl).
Defined.

(** X14. With the counts the inputs can produce, an enabled button and an
    initialised client, [handleGenerateQuiz] makes exactly one backend
    call.  It asks for the sum of the three counts, which is positive, and
    lists the kinds with a positive count in the order multiple-choice,
    short-answer, ox.  A JSON answer becomes the questions of the session;
    any failure leaves the questions as they were and shows the normalised
    message.  The generating flag is cleared in every case. *)
Theorem enabled_request_reaches_backend_once
    (env : Env) (standardDescription : string) (events : list CountEvent)
    (comp : Composition) (w : World) (client : GoogleGenAI) :
  questionCounts comp = editCounts events defaultQuestionCounts ->
  generateDisabled comp = false ->
  ai w = Some client ->
  let c := questionCounts comp in
  let total := (count_mc c + count_sa c + count_ox c)%Z in
  let request :=
    QuestionsRequest standardDescription total
      (filter (fun req => (0 <? count req)%Z = true) (entries c)) in
  let result := handleGenerateQuiz env standardDescription comp w in
  (0 < total)%Z
  /\ calls (snd result) = calls w ++ [(client, request)]
  /\ isGeneratingQuestions (fst result) = false
  /\ questionCounts (fst result) = c
  /\ match backend env client request with
     | Responds (Json v) =>
         questions (fst result) = Some v /\ questionsError (fst result) = None
     | Responds (NotJson message) =>
         questions (fst result) = questions comp
         /\ exists m, questionsError (fst result) = Some m /\ GatewayKeys.normalised m
     | Rejects error =>
         questions (fst result) = questions comp
         /\ exists m, questionsError (fst result) = Some m /\ GatewayKeys.normalised m
     end.
Proof.
  intros Hcounts Hen Hai c total request result.
  assert (Hnn : nonNegative c).
  { unfold c. rewrite Hcounts. apply QuizSetupFacts.editCounts_non_negative.
    unfold nonNegative; simpl. lia. }
  assert (Htotal : (0 < total)%Z).
  { unfold generateDisabled in Hen. apply orb_false_elim in Hen as [_ Hen].
    destruct Hnn as (H1 & H2 & H3). fold c in Hen. unfold total.
    destruct (Z.eqb_spec (count_mc c) 0), (Z.eqb_spec (count_sa c) 0),
      (Z.eqb_spec (count_ox c) 0); simpl in Hen; try discriminate; lia. }
  pose proof (positive_entries_total c Hnn) as Hsum. fold total in Hsum.
  assert (Hlen : (length (filter (fun req => (0 <? count req)%Z = true) (entries c))
                  =? 0)%nat = false).
  { apply Nat.eqb_neq. intros Hlen. apply nil_length_inv in Hlen.
    rewrite Hlen in Hsum. unfold totalQuestions in Hsum. simpl in Hsum. lia. }
  split; [exact Htotal|].
  subst result. unfold handleGenerateQuiz. fold c. rewrite Hlen.
  rewrite (GatewayFacts.generateQuestions_initialised env standardDescription _ w client)
    by (rewrite ?Hsum; (lia || exact Hai)).
  rewrite positive_entries_again, Hsum. fold request.
  assert (Hnorm : forall raw,
             GatewayKeys.normalised
               (if is_auth_failure raw then MSG_INVALID_KEY
                else if fileProtocol env then MSG_FILE_PROTOCOL else MSG_COMMUNICATION)).
  { intros raw. unfold GatewayKeys.normalised.
    destruct (is_auth_failure raw); [|destruct (fileProtocol env)]; tauto. }
  destruct (backend env client request) as [error|[message|v]].
  - destruct (@GatewayFacts.handleApiError_throws json env error
                {| ai := ai w; calls := calls w ++ [(client, request)];
                   console := console w |}) as (m & -> & ->).
    simpl. do 4 (split; [reflexivity|]).
    eexists. split; [reflexivity | apply Hnorm].
  - destruct (@GatewayFacts.handleApiError_throws json env (ErrorObject message)
                {| ai := ai w; calls := calls w ++ [(client, request)];
                   console := console w |}) as (m & -> & ->).
    simpl. do 4 (split; [reflexivity|]).
    eexists. split; [reflexivity | apply (Hnorm (ErrorObject message))].
  - simpl. do 4 (split; [reflexivity|]). reflexivity.
Qed.

Lemma enabled_request_reaches_backend_once_witness :
  let comp := mkComposition
                (editCounts [EditCount multiple_choice "0"] defaultQuestionCounts)
                None false None in
  let result := handleGenerateQuiz
                  (Scenario.replying (Responds (Json Scenario.onSchema))) "standard"
                  comp Scenario.initialised in
  calls (snd result)
  = [(mkGoogleGenAI "k",
      QuestionsRequest "standard" 2
        [mkQuestionRequest short_answer 1; mkQuestionRequest ox 1])]
  /\ questions (fst result) = Some Scenario.onSchema.
Proof.
  pose proof (enabled_request_reaches_backend_once
                (Scenario.replying (Responds (Json Scenario.onSchema))) "standard"
                [EditCount multiple_choice "0"]
                (mkComposition
                   (editCounts [EditCount multiple_choice "0"] defaultQuestionCounts)
                   None false None)
                Scenario.initialised (mkGoogleGenAI "k") eq_refl eq_refl eq_refl)
    as (_ & Hcalls & _ & _ & Hq & _).
  split; [exact Hcalls | exact Hq].
Defined.

End QuizRequestFacts.

(* ===================================================================== *)
(** ** Speech: releasing a playback                                       *)
(* ===================================================================== *)

Module SpeechRelease.
Import Types Session.





End SpeechRelease.

(* ===================================================================== *)
(** ** The dashboard: statistics and recent history                       *)
(* ===================================================================== *)

Module DashboardFacts.
Import Types Dashboard.






(** X17. The recent history shows at most ten records, the newest first:
    row [k] is the record [k] places from the end of the history.  Right
    after a quiz is submitted, its result is the first row. *)
Theorem recent_history_is_newest_first
    (studyHistory : list QuizResult.t) (k : nat)
    (standard : AchievementStandard.t) (subjectName : string)
    (now_id now_date : Z) (score : Q) (correctAnswers totalQuestions : nat) :
  length (recentHistory studyHistory) = Nat.min 10 (length studyHistory)
  /\ recentHistory studyHistory !! k
     = (if decide (k < Nat.min 10 (length studyHistory))%nat
        then studyHistory !! (length studyHistory - S k)%nat
        else None)
  /\ (let submitted := Session.handleQuizSubmit standard subjectName studyHistory
                         now_id now_date score correctAnswers totalQuestions in
      recentHistory (snd submitted) !! 0%nat = Some (fst submitted)
      /\ length (snd submitted) = S (length studyHistory)
      /\ take (length studyHistory) (snd submitted) = studyHistory).
Proof.
  unfold recentHistory. split; [rewrite length_take, length_reverse; reflexivity|].
  split.
  - rewrite lookup_take.
    destruct (decide (k < 10)%nat) as [H10|H10].
    + destruct (decide (k < length studyHistory)%nat) as [Hk|Hk].
      * rewrite decide_True by lia. apply reverse_lookup. exact Hk.
      * rewrite decide_False by lia. apply lookup_ge_None.
        rewrite length_reverse. lia.
    + rewrite decide_False by lia. reflexivity.
  - cbv zeta. unfold Session.handleQuizSubmit. cbn [fst snd].
    split; [|split].
    + rewrite reverse_app. reflexivity.
    + rewrite length_app. simpl. lia.
    + apply take_app_length.
Qed.

End DashboardFacts.


(* ===================================================================== *)
(** ** The app: the key and the views                                     *)
(* ===================================================================== *)

Module AppFacts.
Import Types Gateway App.

(** X18. Submitting a key stores it in every case and leaves the view and
    the selected standard alone.  When the key is not empty and the check
    call succeeds, the status is [key_valid], no error is shown and the
    shared client is the one of that key.  Otherwise the status is
    [key_invalid], the shared client is the one from before, and the error
    shown is the "enter a key" message for an empty key (no call is made),
    the invalid-key message for an authentication failure and the network
    message for any other failure. *)
Theorem key_submission_outcome (env : Env) (newKey : string) (a : AppState) (w : World) :
  let result := handleApiKeySubmission env newKey a w in
  App.apiKey (fst result) = newKey
  /\ currentView (fst result) = currentView a
  /\ selectedStandard (fst result) = selectedStandard a
  /\ if String.eqb newKey "" then
       appStatus (fst result) = key_invalid
       /\ apiKeyError (fst result) = Some MSG_ENTER_KEY
       /\ snd result = w
     else
       match backend env (mkGoogleGenAI newKey) HelloRequest with
       | Responds _ =>
           appStatus (fst result) = key_valid
           /\ apiKeyError (fst result) = None
           /\ ai (snd result) = Some (mkGoogleGenAI newKey)
       | Rejects error =>
           appStatus (fst result) = key_invalid
           /\ apiKeyError (fst result)
              = Some (if is_auth_failure error then MSG_KEYCHECK_INVALID
                      else MSG_KEYCHECK_NETWORK)
           /\ ai (snd result) = ai w
       end.
Proof.
  cbv zeta. unfold handleApiKeySubmission, bind, validateApiKey, initializeAi.
  destruct (String.eqb newKey "") eqn:Hkey; [repeat split|].
  unfold try_catch, bind, generateContent, console_error, throw, ret, set_ai.
  destruct (backend env (mkGoogleGenAI newKey) HelloRequest) as [error|text].
  - destruct (is_auth_failure error); repeat split.
  - repeat split.
Qed.

(** What holds of the app between two events. *)
Lemma submission_keeps env key a w :
  appStatus a <> key_valid ->
  currentView a = selector /\ selectedStandard a = None ->
  let aw' := handleApiKeySubmission env key a w in
  (appStatus (fst aw') = key_valid ->
   ai (snd aw') = Some (mkGoogleGenAI (App.apiKey (fst aw')))
   /\ App.apiKey (fst aw') <> "")
  /\ (appStatus (fst aw') <> key_valid ->
      currentView (fst aw') = selector /\ selectedStandard (fst aw') = None)
  /\ (currentView (fst aw') = study -> selectedStandard (fst aw') <> None)
  /\ appStatus (fst aw') <> validating_key.
Proof.
  intros Hst [Hview Hsel]. cbv zeta.
  unfold handleApiKeySubmission, bind, validateApiKey, initializeAi.
  destruct (String.eqb_spec key "") as [->|Hne].
  - simpl. rewrite Hview, Hsel. repeat split; discriminate.
  - unfold try_catch, bind, generateContent, console_error, throw, ret, set_ai.
    destruct (backend env (mkGoogleGenAI key) HelloRequest) as [error|text].
    + destruct (is_auth_failure error); simpl; rewrite Hview, Hsel;
        repeat split; discriminate.
    + destruct (String.eqb_spec key "") as [->|_]; [contradiction|].
      simpl. rewrite Hview, Hsel. repeat split; try discriminate; assumption.
Qed.

Lemma app_step_keeps env e a w :
  (appStatus a = key_valid ->
   ai w = Some (mkGoogleGenAI (App.apiKey a)) /\ App.apiKey a <> "") ->
  (appStatus a <> key_valid ->
   currentView a = selector /\ selectedStandard a = None) ->
  (currentView a = study -> selectedStandard a <> None) ->
  appStatus a <> validating_key ->
  let aw' := step env e (a, w) in
  (appStatus (fst aw') = key_valid ->
   ai (snd aw') = Some (mkGoogleGenAI (App.apiKey (fst aw')))
   /\ App.apiKey (fst aw') <> "")
  /\ (appStatus (fst aw') <> key_valid ->
      currentView (fst aw') = selector /\ selectedStandard (fst aw') = None)
  /\ (currentView (fst aw') = study -> selectedStandard (fst aw') <> None)
  /\ appStatus (fst aw') <> validating_key
  /\ (appStatus a = key_valid ->
      appStatus (fst aw') = key_valid
      /\ App.apiKey (fst aw') = App.apiKey a /\ snd aw' = w).
Proof.
  intros Hkey Hpre Hview Hnv. cbv zeta. unfold step.
  destruct (offered a e) eqn:Hoff; [|simpl; tauto].
  unfold offered in Hoff.
  destruct e as [key|subjectName standard| |now].
  - assert (Hst : appStatus a <> key_valid)
      by (intros Hv; rewrite Hv in Hoff; discriminate).
    pose proof (submission_keeps env key a w Hst (Hpre Hst)) as H.
    cbv zeta in H. tauto.
  - destruct (appStatus a) eqn:Hst; try discriminate. simpl.
    split; [intros _; apply Hkey; reflexivity|].
    split; [intros H; contradiction|].
    repeat split; congruence.
  - destruct (appStatus a) eqn:Hst; try discriminate. simpl.
    split; [intros _; apply Hkey; reflexivity|].
    split; [intros H; contradiction|].
    repeat split; congruence.
  - destruct (appStatus a) eqn:Hst; try discriminate. simpl.
    split; [intros _; apply Hkey; reflexivity|].
    split; [intros H; contradiction|].
    split; [intros H; discriminate|].
    repeat split; congruence.
Qed.

Lemma app_run_snoc env storedKey now events e w :
  run env storedKey now (events ++ [e]) w
  = step env e (run env storedKey now events w).
Proof. unfold run. rewrite fold_left_app. reflexivity. Qed.

Lemma app_run_keeps env storedKey now events w :
  let aw := run env storedKey now events w in
  (appStatus (fst aw) = key_valid ->
   ai (snd aw) = Some (mkGoogleGenAI (App.apiKey (fst aw)))
   /\ App.apiKey (fst aw) <> "")
  /\ (appStatus (fst aw) <> key_valid ->
      currentView (fst aw) = selector /\ selectedStandard (fst aw) = None)
  /\ (currentView (fst aw) = study -> selectedStandard (fst aw) <> None)
  /\ appStatus (fst aw) <> validating_key.
Proof.
  cbv zeta. induction events as [|e events IH] using rev_ind.
  - unfold run, onMount, initialApp. simpl fold_left. simpl App.apiKey.
    destruct (String.eqb storedKey "").
    + simpl. repeat split; discriminate.
    + apply submission_keeps; simpl; [discriminate | split; reflexivity].
  - rewrite app_run_snoc.
    destruct (run env storedKey now events w) as [a w'].
    destruct IH as (H1 & H2 & H3 & H4).
    pose proof (app_step_keeps env e a w' H1 H2 H3 H4) as H. cbv zeta in H. tauto.
Qed.

(** X19. From the mount on, whatever is typed and clicked: the spinner
    state [validating_key] is never what is left after an event; while the
    status is [key_valid] the shared client is the one built from the
    stored key, which is not empty; the study view is only shown with a
    selected standard; until a key is accepted the view is the selector
    with nothing selected; and once a key is accepted, no later event
    changes the status, the stored key, or the gateway's world. *)
Theorem accepted_key_is_the_client (env : Env) (storedKey : string) (now : Z)
    (events later : list Event) (w : World) :
  let aw := run env storedKey now events w in
  let aw' := run env storedKey now (events ++ later) w in
  (appStatus (fst aw) = key_valid ->
   ai (snd aw) = Some (mkGoogleGenAI (App.apiKey (fst aw)))
   /\ App.apiKey (fst aw) <> ""
   /\ appStatus (fst aw') = key_valid
   /\ App.apiKey (fst aw') = App.apiKey (fst aw)
   /\ snd aw' = snd aw)
  /\ (appStatus (fst aw) <> key_valid ->
      currentView (fst aw) = selector /\ selectedStandard (fst aw) = None)
  /\ (currentView (fst aw) = study -> selectedStandard (fst aw) <> None)
  /\ appStatus (fst aw) <> validating_key.
Proof.
  cbv zeta.
  pose proof (app_run_keeps env storedKey now events w) as (H1 & H2 & H3 & H4).
  split; [|tauto].
  intros Hvalid. destruct (H1 Hvalid) as [Hai Hne].
  split; [exact Hai|]. split; [exact Hne|].
  induction later as [|e later IH] using rev_ind.
  - rewrite app_nil_r. auto.
  - rewrite app_assoc, app_run_snoc.
    pose proof (app_run_keeps env storedKey now (events ++ later) w) as (K1 & K2 & K3 & K4).
    destruct (run env storedKey now (events ++ later) w) as [a' w'].
    destruct IH as (I1 & I2 & I3).
    pose proof (app_step_keeps env e a' w' K1 K2 K3 K4) as (_ & _ & _ & _ & S5).
    cbv zeta in S5. destruct (S5 I1) as (S6 & S7 & S8).
    simpl in *. split; [exact S6|]. split; congruence.
Qed.

End AppFacts.


(* ===================================================================== *)
(** ** The curriculum selector: the selects and the start button          *)
(* ===================================================================== *)

Module SelectorFacts.
Import Types CurriculumSelector.

Lemma Selection_eqb_eq a b : Selection_eqb a b = true <-> a = b.
Proof.
  destruct a, b. unfold Selection_eqb. simpl.
  rewrite !andb_true_iff, !String.eqb_eq. split.
  - intros ((((-> & ->) & ->) & ->) & ->). reflexivity.
  - intros [= -> -> -> -> ->]. tauto.
Qed.

(** A second pass of the effects changes nothing: a cell the first pass
    cleared was cleared by an effect that also cleared the cells below it. *)
Lemma runEffects_stable prev cur :
  runEffects cur (runEffects prev cur) = runEffects prev cur.
Proof.
  destruct prev as [pc pg ps pu pi], cur as [c g s u i].
  unfold runEffects, changed. simpl.
  destruct (String.eqb_spec pc c), (String.eqb_spec pg g),
    (String.eqb_spec ps s), (String.eqb_spec pu u); simpl;
    rewrite ?String.eqb_refl; simpl;
    repeat match goal with
    | |- context [String.eqb ?a ?b] => destruct (String.eqb_spec a b); simpl
    end; subst; try reflexivity; try congruence.
Qed.

Lemma settle_two fuel prev cur :
  (2 <= fuel)%nat -> settle fuel prev cur = Some (runEffects prev cur).
Proof.
  intros Hfuel. destruct fuel as [|[|fuel]]; try lia.
  cbn [settle]. cbv zeta.
  destruct (Selection_eqb (runEffects prev cur) cur) eqn:H1.
  - apply Selection_eqb_eq in H1. congruence.
  - rewrite runEffects_stable.
    replace (Selection_eqb (runEffects prev cur) (runEffects prev cur)) with true.
    + reflexivity.
    + symmetry. apply Selection_eqb_eq. reflexivity.
Qed.

Lemma existsb_find {A} (f : A -> bool) (l : list A) :
  existsb f l = true -> List.find f l <> None.
Proof.
  induction l as [|x l IH]; simpl; [discriminate|].
  destruct (f x); [discriminate | exact IH].
Qed.

Lemma existsb_map_find {A} (g : A -> string) (v : string) (l : list A) :
  existsb (fun x => String.eqb x v) (map g l) = true ->
  List.find (fun x => String.eqb (g x) v) l <> None.
Proof.
  induction l as [|x l IH]; simpl; [discriminate|].
  destruct (String.eqb (g x) v); [discriminate | exact IH].
Qed.

(** The cells an enabled change leaves, once the effects have settled. *)
Lemma step_cells first rest fuel e s :
  (2 <= fuel)%nat ->
  offered first rest s e = true ->
  step first rest fuel e s
  = Some match e with
         | ChangeCurriculum value =>
             if String.eqb (selectedCurriculumName s) value then s
             else mkSelection value "" "" "" ""
         | ChangeSubject value =>
             if String.eqb (selectedSubjectName s) value then s
             else mkSelection (selectedCurriculumName s) "" value "" ""
         | ChangeGrade value =>
             if String.eqb (selectedGrade s) value then s
             else mkSelection (selectedCurriculumName s) value
                    (selectedSubjectName s) "" ""
         | ChangeUnit value =>
             if String.eqb (selectedUnitName s) value then s
             else mkSelection (selectedCurriculumName s) (selectedGrade s)
                    (selectedSubjectName s) value ""
         | ChangeStandard value => setSelectedStandardId value s
         end.
Proof.
  intros Hfuel Hoff. unfold step. rewrite Hoff, (settle_two _ _ _ Hfuel).
  f_equal. destruct s as [c g n u i].
  destruct e as [v|v|v|v|v]; unfold runEffects, changed; simpl;
    rewrite ?String.eqb_refl; simpl;
    try (destruct (String.eqb_spec c v));
    try (destruct (String.eqb_spec n v));
    try (destruct (String.eqb_spec g v));
    try (destruct (String.eqb_spec u v));
    subst; simpl; reflexivity.
Qed.

Lemma change_keeps_chained first rest fuel e s :
  (2 <= fuel)%nat ->
  chained first rest s ->
  exists s', step first rest fuel e s = Some s' /\ chained first rest s'.
Proof.
  intros Hfuel Hs. destruct (offered first rest s e) eqn:Hoff.
  2:{ exists s. unfold step. rewrite Hoff. auto. }
  rewrite (step_cells _ _ _ _ _ Hfuel Hoff). eexists. split; [reflexivity|].
  destruct s as [c g n u i]. pose proof Hs as Hs0.
  destruct Hs as (Hc & Hn & Hg & Hu & Hi). simpl in Hc, Hn, Hg, Hu, Hi.
  destruct e as [v|v|v|v|v]; simpl.
  - destruct (String.eqb_spec c v) as [->|Hne];
      [exact Hs0|].
    unfold chained. simpl. split; [|repeat split; congruence].
    unfold offered in Hoff. apply existsb_exists in Hoff as (x & Hin & Hx).
    apply String.eqb_eq in Hx. exists x. split; [exact Hin | exact Hx].
  - destruct (String.eqb_spec n v) as [->|Hne];
      [exact Hs0|].
    unfold chained. simpl. split; [exact Hc|].
    split; [|repeat split; congruence].
    intros _. unfold offered in Hoff. simpl in Hoff.
    apply andb_true_iff in Hoff as [_ Hoff].
    apply existsb_find. exact Hoff.
  - destruct (String.eqb_spec g v) as [->|Hne];
      [exact Hs0|].
    unfold chained. simpl. split; [exact Hc|]. split; [exact Hn|].
    split; [|repeat split; congruence].
    intros _. unfold offered in Hoff. simpl in Hoff.
    apply andb_true_iff in Hoff as [Hsel Hoff].
    split; [intros ->; discriminate|].
    destruct (List.find _ (EducationCurriculum.subjects _)) as [x|];
      [|discriminate].
    apply existsb_map_find. exact Hoff.
  - destruct (String.eqb_spec u v) as [->|Hne];
      [exact Hs0|].
    unfold chained. simpl. split; [exact Hc|]. split; [exact Hn|].
    split; [exact Hg|]. split; [|repeat split; congruence].
    intros _. unfold offered in Hoff. simpl in Hoff.
    apply andb_true_iff in Hoff as [Hsel Hoff].
    split; [intros ->; discriminate|].
    apply existsb_find. exact Hoff.
  - unfold chained. simpl. split; [exact Hc|]. split; [exact Hn|].
    split; [exact Hg|]. split; [exact Hu|].
    intros _. unfold offered in Hoff. simpl in Hoff.
    apply andb_true_iff in Hoff as [Hsel Hoff].
    apply negb_true_iff, orb_false_iff in Hsel as [Hsel _].
    split; [intros ->; discriminate|].
    apply existsb_find. exact Hoff.
Qed.

Lemma changes_keep_chained first rest fuel events s :
  (2 <= fuel)%nat ->
  chained first rest s ->
  exists s', run first rest fuel events s = Some s' /\ chained first rest s'.
Proof.
  intros Hfuel. revert s. induction events as [|e events IH]; intros s Hs.
  - exists s. split; [reflexivity | exact Hs].
  - destruct (change_keeps_chained first rest fuel e s Hfuel Hs) as (s1 & H1 & Hs1).
    simpl. rewrite H1. apply IH. exact Hs1.
Qed.

Lemma initial_chained first rest : chained first rest (initialSelection first).
Proof.
  unfold chained, initialSelection. simpl.
  split; [exists first; split; [left; reflexivity | reflexivity]|].
  repeat split; congruence.
Qed.

(** X20. Whatever is chosen in the five selects, in any order: the effects
    settle (two passes are enough), the selections stay chained, and
    whenever the start button is enabled a click on it starts the study:
    [handleSubmit] calls [onStartStudy] with the name of the selected
    subject and a standard that carries the selected id and is found in the
    data under the selected unit, grade, subject and curriculum. *)
Theorem start_button_starts (first : EducationCurriculum.t)
    (rest : list EducationCurriculum.t) (fuel : nat) (events : list Event) :
  (2 <= fuel)%nat ->
  exists s,
    run first rest fuel events (initialSelection first) = Some s
    /\ chained first rest s
    /\ (startDisabled s = false ->
        exists c subject g unit standard,
          In c (educationCurriculums first rest)
          /\ EducationCurriculum.name c = selectedCurriculumName s
          /\ In subject (EducationCurriculum.subjects c)
          /\ Subject.name subject = selectedSubjectName s
          /\ In g (Subject.grades subject)
          /\ GradeContent.grade g = selectedGrade s
          /\ In unit (GradeContent.units g)
          /\ Unit.name unit = selectedUnitName s
          /\ In standard (Unit.standards unit)
          /\ AchievementStandard.id standard = selectedStandardId s
          /\ handleSubmit first rest s = Some (selectedSubjectName s, standard)).
Proof.
  intros Hfuel.
  destruct (changes_keep_chained first rest fuel events (initialSelection first) Hfuel
              (initial_chained first rest)) as (s & Hrun & Hs).
  exists s. split; [exact Hrun|]. split; [exact Hs|].
  intros Hen. unfold startDisabled in Hen. apply String.eqb_neq in Hen.
  destruct Hs as ((c0 & Hc0 & Hname0) & Hn & Hg & Hu & Hi).
  destruct (Hi Hen) as [Hu' Hstd]. destruct (Hu Hu') as [Hg' Hunit].
  destruct (Hg Hg') as [Hn' Hgrade]. pose proof (Hn Hn') as Hsub.
  clear Hn Hg Hu Hi. unfold handleSubmit. unfold memo in *.
  cbn [selectedSubject selectedStandard selectedUnit selectedGradeContent]
    in Hstd, Hunit, Hgrade, Hsub |- *.
  destruct (List.find (fun c => String.eqb (EducationCurriculum.name c)
                                  (selectedCurriculumName s))
              (educationCurriculums first rest)) as [c|] eqn:Hc.
  2:{ exfalso. apply (find_none _ _ Hc) in Hc0.
      apply String.eqb_neq in Hc0. contradiction. }
  apply find_some in Hc as [Hc1 Hc2]. apply String.eqb_eq in Hc2.
  cbn [default from_option id] in Hstd, Hunit, Hgrade, Hsub |- *.
  destruct (List.find _ (EducationCurriculum.subjects c)) as [subject|] eqn:Hx;
    [|contradiction].
  apply find_some in Hx as [Hx1 Hx2]. apply String.eqb_eq in Hx2.
  destruct (List.find _ (Subject.grades subject)) as [g|] eqn:Hy;
    [|contradiction].
  apply find_some in Hy as [Hy1 Hy2]. apply String.eqb_eq in Hy2.
  destruct (List.find _ (GradeContent.units g)) as [unit|] eqn:Hz;
    [|contradiction].
  apply find_some in Hz as [Hz1 Hz2]. apply String.eqb_eq in Hz2.
  destruct (List.find _ (Unit.standards unit)) as [standard|] eqn:Hw;
    [|contradiction].
  apply find_some in Hw as [Hw1 Hw2]. apply String.eqb_eq in Hw2.
  exists c, subject, g, unit, standard. rewrite Hx2. tauto.
Qed.

Lemma start_button_starts_witness :
  let standard := AchievementStandard.mk "9수01-01" "소인수분해의 뜻을 알고 구한다" in
  let math := Subject.mk "수학"
                [GradeContent.mk "중1" [Unit.mk "수와 연산" [standard]]] in
  let first := EducationCurriculum.mk "2022 개정" [math] in
  exists s,
    run first [] 2
      [ChangeSubject "수학"; ChangeGrade "중1"; ChangeUnit "수와 연산";
       ChangeStandard "9수01-01"] (initialSelection first) = Some s
    /\ startDisabled s = false
    /\ handleSubmit first [] s = Some ("수학", standard).
Proof.
  cbv zeta.
  destruct (start_button_starts
              (EducationCurriculum.mk "2022 개정"
                 [Subject.mk "수학"
                    [GradeContent.mk "중1"
                       [Unit.mk "수와 연산"
                          [AchievementStandard.mk "9수01-01"
                             "소인수분해의 뜻을 알고 구한다"]]]])
              [] 2
              [ChangeSubject "수학"; ChangeGrade "중1"; ChangeUnit "수와 연산";
               ChangeStandard "9수01-01"])
    as (s & Hrun & _ & _); [lia|].
  exists s. split; [exact Hrun|].
  vm_compute in Hrun. injection Hrun as <-.
  split; vm_compute; reflexivity.
Defined.

(** X21. An enabled change of a select, once the effects have settled (two
    passes are enough): choosing the value already shown changes nothing;
    otherwise the select takes the value, the selects above it keep theirs
    and the selects below it are back on their placeholders.  So the start
    button is enabled afterwards only when the change chose a standard or
    chose again what was shown. *)
Theorem change_resets_the_selects_below (first : EducationCurriculum.t)
    (rest : list EducationCurriculum.t) (fuel : nat) (e : Event) (s : Selection) :
  (2 <= fuel)%nat ->
  offered first rest s e = true ->
  exists s',
    step first rest fuel e s = Some s'
    /\ runEffects s' s' = s'
    /\ s' = match e with
            | ChangeCurriculum value =>
                if String.eqb (selectedCurriculumName s) value then s
                else mkSelection value "" "" "" ""
            | ChangeSubject value =>
                if String.eqb (selectedSubjectName s) value then s
                else mkSelection (selectedCurriculumName s) "" value "" ""
            | ChangeGrade value =>
                if String.eqb (selectedGrade s) value then s
                else mkSelection (selectedCurriculumName s) value
                       (selectedSubjectName s) "" ""
            | ChangeUnit value =>
                if String.eqb (selectedUnitName s) value then s
                else mkSelection (selectedCurriculumName s) (selectedGrade s)
                       (selectedSubjectName s) value ""
            | ChangeStandard value => setSelectedStandardId value s
            end
    /\ (startDisabled s' = false ->
        s' = s \/ exists value, e = ChangeStandard value).
Proof.
  intros Hfuel Hoff. rewrite (step_cells _ _ _ _ _ Hfuel Hoff).
  eexists. split; [reflexivity|]. split.
  { unfold runEffects, changed. rewrite !String.eqb_refl. reflexivity. }
  split; [reflexivity|].
  destruct e as [v|v|v|v|v]; simpl.
  - destruct (String.eqb (selectedCurriculumName s) v); [auto | discriminate].
  - destruct (String.eqb (selectedSubjectName s) v); [auto | discriminate].
  - destruct (String.eqb (selectedGrade s) v); [auto | discriminate].
  - destruct (String.eqb (selectedUnitName s) v); [auto | discriminate].
  - intros _. right. exists v. reflexivity.
Qed.

Lemma change_resets_the_selects_below_witness :
  let standard := AchievementStandard.mk "9수01-01" "소인수분해의 뜻을 알고 구한다" in
  let math := Subject.mk "수학"
                [GradeContent.mk "중1" [Unit.mk "수와 연산" [standard]];
                 GradeContent.mk "중2" []] in
  let first := EducationCurriculum.mk "2022 개정" [math] in
  step first [] 2 (ChangeGrade "중2")
    (mkSelection "2022 개정" "중1" "수학" "수와 연산" "9수01-01")
  = Some (mkSelection "2022 개정" "중2" "수학" "" "").
Proof.
  cbv zeta.
  destruct (change_resets_the_selects_below
              (EducationCurriculum.mk "2022 개정"
                 [Subject.mk "수학"
                    [GradeContent.mk "중1"
                       [Unit.mk "수와 연산"
                          [AchievementStandard.mk "9수01-01"
                             "소인수분해의 뜻을 알고 구한다"]];
                     GradeContent.mk "중2" []]])
              [] 2 (ChangeGrade "중2")
              (mkSelection "2022 개정" "중1" "수학" "수와 연산" "9수01-01"))
    as (s' & Hstep & _ & Hcells & _); [lia | vm_compute; reflexivity |].
  rewrite Hstep, Hcells. vm_compute. reflexivity.
Defined.

End SelectorFacts.
